(** * bot-dashboard: the cloud bot worker (src/bot_worker.py) and the
      dashboard (src/web_app.py)

    A shallow embedding of [CloudBot]: the Python values it handles, the
    parts of [datetime], [str] and [int] it calls, the bot's state and its
    methods, and of the dashboard's handler, followed by the properties of
    the timer pipeline (merge, date anchoring, agenda), of the settings
    reload, of the Discord messages, of the main loop and of the
    dashboard. *)

From Stdlib Require Import ZArith String Ascii List Lia PrimFloat.
From Stdlib Require Import Sorting.Sorted Sorting.Permutation.
From stdpp Require Import gmap strings list fin_maps.

Local Open Scope string_scope.
Local Open Scope Z_scope.

(* ===================================================================== *)
(** * Part I: definitions *)
(* ===================================================================== *)

(** ** Characters and strings

    A Python [str] is modelled by its UTF-8 bytes. The character classes
    below are the ASCII part of the classes Python uses ([str.isspace],
    decimal digits): on a [str] of ASCII characters ([is_ascii]) the
    functions of this module do what Python's do. The digits and blanks
    beyond ASCII that [int], [re] and [str.strip] also know (U+0085,
    U+00A0, U+3000, the digits of other scripts) are outside this
    model. *)

Module PyStr.

Definition code (c : ascii) : Z := Z.of_N (N_of_ascii c).

Definition is_digit (c : ascii) : bool :=
  (48 <=? code c) && (code c <=? 57).

Definition digit_val (c : ascii) : Z := code c - 48.

Definition digit_chr (d : Z) : ascii := ascii_of_N (Z.to_N (d + 48)).

(** [str.isspace] on ASCII: tab, LF, VT, FF, CR, the four separators
    0x1c..0x1f and the blank. *)
Definition is_space (c : ascii) : bool :=
  ((9 <=? code c) && (code c <=? 13))
  || ((28 <=? code c) && (code c <=? 31))
  || (code c =? 32).

Fixpoint lstrip (s : string) : string :=
  match s with
  | String c r => if is_space c then lstrip r else s
  | EmptyString => EmptyString
  end.

Fixpoint rstrip (s : string) : string :=
  match s with
  | String c r =>
      match rstrip r with
      | EmptyString => if is_space c then EmptyString else String c EmptyString
      | r' => String c r'
      end
  | EmptyString => EmptyString
  end.

(** [s.strip()], on the blanks of ASCII. *)
Definition strip (s : string) : string := rstrip (lstrip s).

Definition is_ascii (s : string) : bool :=
  forallb (fun c => code c <? 128) (list_ascii_of_string s).

(** [s.split(sep)] for a one-character separator: never empty. *)
Fixpoint split (sep : ascii) (s : string) : list string :=
  match s with
  | EmptyString => [EmptyString]
  | String c r =>
      if Ascii.eqb c sep then EmptyString :: split sep r
      else match split sep r with
           | p :: ps => String c p :: ps
           | [] => [String c EmptyString]
           end
  end.

(** The digits of [int(s)] after the sign: decimal digits, single
    underscores allowed between two digits. [sep] tells that the previous
    character was an underscore. *)
Fixpoint int_digits (acc : Z) (sep : bool) (s : string) : option Z :=
  match s with
  | EmptyString => if sep then None else Some acc
  | String c r =>
      if is_digit c then int_digits (10 * acc + digit_val c) false r
      else if Ascii.eqb c "_" && negb sep then int_digits acc true r
      else None
  end.

Definition int_unsigned (s : string) : option Z :=
  match s with
  | String c _ => if is_digit c then int_digits 0 false s else None
  | EmptyString => None
  end.

(** The blanks [int] skips before and after the numeral (C's [isspace]):
    tab, LF, VT, FF, CR and the blank, not the separators 0x1c..0x1f. *)
Definition is_c_space (c : ascii) : bool :=
  ((9 <=? code c) && (code c <=? 13)) || (code c =? 32).

Fixpoint skip_blanks (s : string) : string :=
  match s with
  | String c r => if is_c_space c then skip_blanks r else s
  | EmptyString => EmptyString
  end.

Fixpoint drop_blanks (s : string) : string :=
  match s with
  | String c r =>
      match drop_blanks r with
      | EmptyString => if is_c_space c then EmptyString else String c EmptyString
      | r' => String c r'
      end
  | EmptyString => EmptyString
  end.

(** [int(s)] for a [str]: [None] stands for [ValueError]. *)
Definition int (s : string) : option Z :=
  match drop_blanks (skip_blanks s) with
  | String "+" r => int_unsigned r
  | String "-" r => Z.opp <$> int_unsigned r
  | r => int_unsigned r
  end.

(** Zero-padded decimal fields, as [strftime] writes them. *)
Definition pad2 (n : Z) : string :=
  String (digit_chr (n / 10)) (String (digit_chr (n mod 10)) EmptyString).

Definition pad4 (n : Z) : string :=
  String (digit_chr (n / 1000))
    (String (digit_chr (n / 100 mod 10))
       (String (digit_chr (n / 10 mod 10))
          (String (digit_chr (n mod 10)) EmptyString))).

End PyStr.

(** ** [datetime]: dates, times of day, and the two formats the bot uses *)

Module PyDatetime.
Import PyStr.

Record date := mkdate { year : Z; month : Z; day : Z }.
Record time := mktime { hour : Z; minute : Z; second : Z; microsecond : Z }.
Record datetime := mkdatetime { dt_date : date; dt_time : time }.

Definition is_leap (y : Z) : bool :=
  ((y mod 4 =? 0) && negb (y mod 100 =? 0)) || (y mod 400 =? 0).

Definition days_in_month (y m : Z) : Z :=
  if m =? 2 then (if is_leap y then 29 else 28)
  else if (m =? 4) || (m =? 6) || (m =? 9) || (m =? 11) then 30
  else 31.

(** What the [date] constructor accepts ([MINYEAR] = 1, [MAXYEAR] = 9999). *)
Definition valid_date (d : date) : bool :=
  (1 <=? year d) && (year d <=? 9999)
  && (1 <=? month d) && (month d <=? 12)
  && (1 <=? day d) && (day d <=? days_in_month (year d) (month d)).

(** What [datetime.time(h, m)] accepts. *)
Definition valid_hm (h m : Z) : bool :=
  (0 <=? h) && (h <=? 23) && (0 <=? m) && (m <=? 59).

(** [d + timedelta(days=1)]; [None] stands for [OverflowError]. *)
Definition add_one_day (d : date) : option date :=
  if day d <? days_in_month (year d) (month d)
  then Some (mkdate (year d) (month d) (day d + 1))
  else if month d <? 12 then Some (mkdate (year d) (month d + 1) 1)
  else if year d <? 9999 then Some (mkdate (year d + 1) 1 1)
  else None.

(** Order of naive times of day and of naive datetimes: field by field. *)
Definition time_key (t : time) : list Z :=
  [hour t; minute t; second t; microsecond t].

Definition datetime_key (d : datetime) : list Z :=
  year (dt_date d) :: month (dt_date d) :: day (dt_date d) :: time_key (dt_time d).

Fixpoint lex_ltb (a b : list Z) : bool :=
  match a, b with
  | x :: a', y :: b' => (x <? y) || ((x =? y) && lex_ltb a' b')
  | [], _ :: _ => true
  | _, [] => false
  end.

Definition time_gtb (a b : time) : bool := lex_ltb (time_key b) (time_key a).
Definition datetime_ltb (a b : datetime) : bool :=
  lex_ltb (datetime_key a) (datetime_key b).
Definition datetime_leb (a b : datetime) : bool := negb (datetime_ltb b a).

(** [d.strftime("%Y-%m-%d")] and [dt.strftime("%Y-%m-%d %H:%M")], with
    the zero-padded fields of the documentation. *)
Definition strftime_date (d : date) : string :=
  pad4 (year d) +:+ "-" +:+ pad2 (month d) +:+ "-" +:+ pad2 (day d).

Definition strftime (d : datetime) : string :=
  strftime_date (dt_date d) +:+ " "
  +:+ pad2 (hour (dt_time d)) +:+ ":" +:+ pad2 (minute (dt_time d)).

(** *** [strptime(s, "%Y-%m-%d %H:%M")]

    [_strptime] turns the format into a regular expression, one group per
    directive, and the blank of the format into [\s+]; [re.match] tries
    the alternatives of a group from left to right and backtracks. A
    matcher is modelled by the list of its matches in the order the
    backtracking engine tries them: the value read and the rest of the
    input. *)

Definition matcher (A : Type) : Type := string -> list (A * string).

Definition digit_in (lo hi : Z) : matcher Z := fun s =>
  match s with
  | String c r =>
      if is_digit c && (lo <=? digit_val c) && (digit_val c <=? hi)
      then [(digit_val c, r)] else []
  | EmptyString => []
  end.

Definition lit (c : ascii) : matcher unit := fun s =>
  match s with
  | String c' r => if Ascii.eqb c' c then [(tt, r)] else []
  | EmptyString => []
  end.

Definition alt {A} (p q : matcher A) : matcher A := fun s => (p s ++ q s)%list.

Definition two (p q : matcher Z) : matcher Z := fun s =>
  '(a, r) ← p s; '(b, r') ← q r; [(10 * a + b, r')].

(** [\s*] and [\s+], greedy: the longest run first. *)
Fixpoint spaces0 (s : string) : list (unit * string) :=
  match s with
  | String c r => ((if is_space c then spaces0 r else []) ++ [(tt, s)])%list
  | EmptyString => [(tt, s)]
  end.

Definition spaces1 : matcher unit := fun s =>
  match s with
  | String c r => if is_space c then spaces0 r else []
  | EmptyString => []
  end.

(** [%Y]: [\d\d\d\d]. *)
Definition re_Y : matcher Z := fun s =>
  '(a, r) ← two (digit_in 0 9) (digit_in 0 9) s;
  '(b, r') ← two (digit_in 0 9) (digit_in 0 9) r;
  [(100 * a + b, r')].

(** [%m]: [1[0-2]|0[1-9]|[1-9]]. *)
Definition re_m : matcher Z :=
  alt (two (digit_in 1 1) (digit_in 0 2))
    (alt (two (digit_in 0 0) (digit_in 1 9)) (digit_in 1 9)).

(** [%d]: [3[01]|[12]\d|0[1-9]|[1-9]| [1-9]]. *)
Definition re_d : matcher Z :=
  alt (two (digit_in 3 3) (digit_in 0 1))
    (alt (two (digit_in 1 2) (digit_in 0 9))
       (alt (two (digit_in 0 0) (digit_in 1 9))
          (alt (digit_in 1 9)
             (fun s => '(_, r) ← lit " " s; digit_in 1 9 r)))).

(** [%H]: [2[0-3]|[0-1]\d|\d]. *)
Definition re_H : matcher Z :=
  alt (two (digit_in 2 2) (digit_in 0 3))
    (alt (two (digit_in 0 1) (digit_in 0 9)) (digit_in 0 9)).

(** [%M]: [[0-5]\d|\d]. *)
Definition re_M : matcher Z :=
  alt (two (digit_in 0 5) (digit_in 0 9)) (digit_in 0 9).

(** A group followed by what separates it from the next one. *)
Definition field_then {A} (p : matcher Z) (sep : matcher unit) (k : Z -> matcher A)
  : matcher A := fun s =>
  '(v, s1) ← p s; '(_, s2) ← sep s1; k v s2.

(** The whole expression for ["%Y-%m-%d %H:%M"]. *)
Definition re_format : matcher datetime :=
  field_then re_Y (lit "-") (fun Y =>
  field_then re_m (lit "-") (fun m =>
  field_then re_d spaces1 (fun d =>
  field_then re_H (lit ":") (fun H => fun s =>
  '(M, s') ← re_M s;
  [(mkdatetime (mkdate Y m d) (mktime H M 0 0), s')])))).

(** [None] stands for [ValueError]: no match, unconverted data after the
    first match, or a day that the month does not have. The digits and
    blanks are those of ASCII. *)
Definition strptime (s : string) : option datetime :=
  match re_format s with
  | (dt, EmptyString) :: _ => if valid_date (dt_date dt) then Some dt else None
  | _ => None
  end.

(** The layout [YYYY-MM-DD HH:MM] of the format: four digits, two and
    two, a blank, two and two. *)
Fixpoint laid_out (layout : list (ascii -> bool)) (s : string) : bool :=
  match layout, s with
  | [], EmptyString => true
  | p :: layout', String c s' => p c && laid_out layout' s'
  | _, _ => false
  end.

Definition layout_Ymd_HM : list (ascii -> bool) :=
  [is_digit; is_digit; is_digit; is_digit; Ascii.eqb "-";
   is_digit; is_digit; Ascii.eqb "-"; is_digit; is_digit; Ascii.eqb " ";
   is_digit; is_digit; Ascii.eqb ":"; is_digit; is_digit].

End PyDatetime.

(** ** Python values

    What [json.loads] produces ([None], [bool], [int], [float], [str],
    [list], [dict] with [str] keys), and the [datetime] objects that
    [refresh_timers] stores under ["spawn_dt"]. *)

Module PyValue.
Import PyDatetime.

#[warnings="-register-all"]
Inductive value : Type :=
| VNone
| VBool (b : bool)
| VInt (z : Z)
| VFloat (f : float)
| VStr (s : string)
| VList (l : list value)
| VDict (m : gmap string value)
| VDatetime (d : datetime).

(** A timer record: a [dict] with [str] keys. *)
Abbreviation record := (gmap string value).

Inductive exn : Type :=
| KeyError
| TypeError
| AttributeError
| ValueError
| OverflowError
| GithubException (status : Z)
| OtherException.

Inductive outcome (A : Type) : Type :=
| Return (a : A)
| Raise (e : exn).
Arguments Return {A} a.
Arguments Raise {A} e.

Definition is_dict (v : value) : bool :=
  match v with VDict _ => true | _ => false end.

(** [bool(v)]. *)
Definition truthy (v : value) : bool :=
  match v with
  | VNone => false
  | VBool b => b
  | VInt z => negb (z =? 0)
  | VFloat f => negb (PrimFloat.eqb f 0%float)
  | VStr s => negb (String.eqb s "")
  | VList l => match l with [] => false | _ :: _ => true end
  | VDict m => negb (Nat.eqb (size m) 0)
  | VDatetime _ => true
  end.

(** [v == s] for a [str] literal [s]: only a [str] equals a [str]. *)
Definition eq_str (v : value) (s : string) : bool :=
  match v with VStr s' => String.eqb s' s | _ => false end.

(** [v.get(k, default)]: only a [dict] has [get]. *)
Definition py_get (v : value) (k : string) (default : value) : outcome value :=
  match v with
  | VDict m => Return (match m !! k with Some x => x | None => default end)
  | _ => Raise AttributeError
  end.

(** [v[k]] for a [str] key [k]. *)
Definition py_getitem (v : value) (k : string) : outcome value :=
  match v with
  | VDict m => match m !! k with Some x => Return x | None => Raise KeyError end
  | _ => Raise TypeError
  end.

(** [d.get(key, {})] on a [dict] with [str] keys: an unhashable key raises,
    a key that is not a [str] is never found. *)
Definition dict_get_value (m : gmap string value) (key : value) : outcome (option value) :=
  match key with
  | VStr k => Return (m !! k)
  | VList _ | VDict _ => Raise TypeError
  | _ => Return None
  end.

(** [for x in v]: the elements of a list, the keys of a dict, the
    characters of a string. *)
Definition py_iter (v : value) : outcome (list value) :=
  match v with
  | VList l => Return l
  | VDict m => Return (VStr <$> (map_to_list m).*1)
  | VStr s => Return ((fun c => VStr (String c EmptyString)) <$> list_ascii_of_string s)
  | _ => Raise TypeError
  end.

End PyValue.

(** ** The bot *)

Import PyStr PyDatetime PyValue.

(** The messages passed to [add_log]; the text of a caught exception is
    left out, and so is the UTC time [add_log] puts in front. *)
Inductive log_message : Type :=
| LogInitializing
| LogNoToken
| LogConnected
| LogConnectFailed
| LogRepoUnavailable (file_path : value)
| LogFileNotFound (file_path : value)
| LogGithubError (file_path : value)
| LogFetchError (file_path : value)
| LogSyncStart
| LogSettingsCritical
| LogProfileLoaded (game_name : value)
| LogProfileCritical
| LogTimersUpdated
| LogEventsUpdated
| LogSyncFinished
| LogFixedTimerError (name : value)
| LogCycleComplete
| LogMainLoop
| LogSettingsNotLoaded
| LogDiscordSent (channel_prefix : string)
| LogDiscordFailed (status_code : Z)
| LogDiscordNetworkError.

#[local] Instance date_eq_dec : EqDecision date.
Proof. solve_decision. Defined.
#[local] Instance time_eq_dec : EqDecision time.
Proof. solve_decision. Defined.
#[local] Instance datetime_eq_dec : EqDecision datetime.
Proof. solve_decision. Defined.

#[local] Instance datetime_countable : Countable datetime.
Proof.
  refine (inj_countable'
    (fun d => (year (dt_date d), month (dt_date d), day (dt_date d),
               (hour (dt_time d), minute (dt_time d), second (dt_time d),
                microsecond (dt_time d))))
    (fun '(y, m, d, (h, mi, s, us)) =>
       mkdatetime (mkdate y m d) (mktime h mi s us)) _).
  intros [[] []]; reflexivity.
Defined.

(** Modelled from the spec: the element type of [sent_notifications]. The
    source only creates the empty set and never adds to it; the spec's
    data model has triples of timer identifier, spawn instance and tier,
    the spawn instance given by the spawn timestamp. *)
Definition sent_key : Type := string * datetime * string.

(** The fields [__init__] creates. [github_client] holds the token the
    client was built with; the lock of the log is left out (one thread).
    [discord_outbox] is not a field of the class: it records, for the
    statements about alerts, every call of [requests.post] that
    [send_discord_message] has made, the channel and the message,
    whatever the call came to. *)
Record CloudBot : Type := mkCloudBot {
  log_entries : list log_message;
  settings : value;
  game_profile : value;
  timers_config : value;
  floating_timers_data : list record;
  fixed_timers_data : list record;
  fixed_timers_with_date : list record;
  sorted_timers_data : list record;
  custom_events : value;
  respawn_intervals : value;
  sent_notifications : gset sent_key;
  github_client : option value;
  is_first_discord_connection : bool;
  last_sequence : value;
  discord_outbox : list (string * value)
}.

Definition with_log (l : list log_message) (b : CloudBot) : CloudBot :=
  mkCloudBot l (settings b) (game_profile b) (timers_config b)
    (floating_timers_data b) (fixed_timers_data b) (fixed_timers_with_date b)
    (sorted_timers_data b) (custom_events b) (respawn_intervals b)
    (sent_notifications b) (github_client b) (is_first_discord_connection b)
    (last_sequence b) (discord_outbox b).

Definition with_settings (v : value) (b : CloudBot) : CloudBot :=
  mkCloudBot (log_entries b) v (game_profile b) (timers_config b)
    (floating_timers_data b) (fixed_timers_data b) (fixed_timers_with_date b)
    (sorted_timers_data b) (custom_events b) (respawn_intervals b)
    (sent_notifications b) (github_client b) (is_first_discord_connection b)
    (last_sequence b) (discord_outbox b).

Definition with_game_profile (v : value) (b : CloudBot) : CloudBot :=
  mkCloudBot (log_entries b) (settings b) v (timers_config b)
    (floating_timers_data b) (fixed_timers_data b) (fixed_timers_with_date b)
    (sorted_timers_data b) (custom_events b) (respawn_intervals b)
    (sent_notifications b) (github_client b) (is_first_discord_connection b)
    (last_sequence b) (discord_outbox b).

Definition with_timers_config (v : value) (b : CloudBot) : CloudBot :=
  mkCloudBot (log_entries b) (settings b) (game_profile b) v
    (floating_timers_data b) (fixed_timers_data b) (fixed_timers_with_date b)
    (sorted_timers_data b) (custom_events b) (respawn_intervals b)
    (sent_notifications b) (github_client b) (is_first_discord_connection b)
    (last_sequence b) (discord_outbox b).

Definition with_floating_timers_data (l : list record) (b : CloudBot) : CloudBot :=
  mkCloudBot (log_entries b) (settings b) (game_profile b) (timers_config b)
    l (fixed_timers_data b) (fixed_timers_with_date b)
    (sorted_timers_data b) (custom_events b) (respawn_intervals b)
    (sent_notifications b) (github_client b) (is_first_discord_connection b)
    (last_sequence b) (discord_outbox b).

Definition with_fixed_timers_with_date (l : list record) (b : CloudBot) : CloudBot :=
  mkCloudBot (log_entries b) (settings b) (game_profile b) (timers_config b)
    (floating_timers_data b) (fixed_timers_data b) l
    (sorted_timers_data b) (custom_events b) (respawn_intervals b)
    (sent_notifications b) (github_client b) (is_first_discord_connection b)
    (last_sequence b) (discord_outbox b).

Definition with_sorted_timers_data (l : list record) (b : CloudBot) : CloudBot :=
  mkCloudBot (log_entries b) (settings b) (game_profile b) (timers_config b)
    (floating_timers_data b) (fixed_timers_data b) (fixed_timers_with_date b)
    l (custom_events b) (respawn_intervals b)
    (sent_notifications b) (github_client b) (is_first_discord_connection b)
    (last_sequence b) (discord_outbox b).

Definition with_custom_events (v : value) (b : CloudBot) : CloudBot :=
  mkCloudBot (log_entries b) (settings b) (game_profile b) (timers_config b)
    (floating_timers_data b) (fixed_timers_data b) (fixed_timers_with_date b)
    (sorted_timers_data b) v (respawn_intervals b)
    (sent_notifications b) (github_client b) (is_first_discord_connection b)
    (last_sequence b) (discord_outbox b).

Definition with_github_client (c : option value) (b : CloudBot) : CloudBot :=
  mkCloudBot (log_entries b) (settings b) (game_profile b) (timers_config b)
    (floating_timers_data b) (fixed_timers_data b) (fixed_timers_with_date b)
    (sorted_timers_data b) (custom_events b) (respawn_intervals b)
    (sent_notifications b) c (is_first_discord_connection b)
    (last_sequence b) (discord_outbox b).

Definition with_discord_outbox (o : list (string * value)) (b : CloudBot) : CloudBot :=
  mkCloudBot (log_entries b) (settings b) (game_profile b) (timers_config b)
    (floating_timers_data b) (fixed_timers_data b) (fixed_timers_with_date b)
    (sorted_timers_data b) (custom_events b) (respawn_intervals b)
    (sent_notifications b) (github_client b) (is_first_discord_connection b)
    (last_sequence b) o.

(** Methods run on the bot's state and either return or raise; what was
    assigned before an exception stays assigned. *)
Definition M (A : Type) : Type := CloudBot -> outcome A * CloudBot.

Definition ret {A} (a : A) : M A := fun b => (Return a, b).
Definition raise {A} (e : exn) : M A := fun b => (Raise e, b).
Definition lift {A} (o : outcome A) : M A := fun b => (o, b).
Definition bind {A B} (m : M A) (k : A -> M B) : M B := fun b =>
  match m b with
  | (Return a, b') => k a b'
  | (Raise e, b') => (Raise e, b')
  end.
Definition get {A} (f : CloudBot -> A) : M A := fun b => (Return (f b), b).
Definition modify (f : CloudBot -> CloudBot) : M unit := fun b => (Return tt, f b).

#[local] Instance M_ret : MRet M := @ret.
#[local] Instance M_bind : MBind M := fun A B k m => bind m k.

(** [add_log]: the deque keeps the 200 newest messages. *)
Definition add_log_entries (msg : log_message) (l : list log_message) : list log_message :=
  let l' := (l ++ [msg])%list in
  if (200 <? Z.of_nat (length l')) then tail l' else l'.

Definition add_log (msg : log_message) : M unit :=
  modify (fun b => with_log (add_log_entries msg (log_entries b)) b).

(** The state after [__init__]. *)
Definition init : CloudBot :=
  mkCloudBot [LogInitializing] (VDict ∅) (VDict ∅) (VList []) [] [] [] []
    (VDict ∅) (VDict ∅) ∅ None true VNone [].

#[local] Instance outcome_ret : MRet outcome := @Return.
#[local] Instance outcome_bind : MBind outcome := fun A B k o =>
  match o with Return a => k a | Raise e => Raise e end.

(** What the outside world answers to one [fetch_from_github]: whether
    [get_user().login] returns, what [get_repo] does, and what
    [get_contents], the decoding and [json.loads] together produce. *)
Record github_response : Type := mkResponse {
  gh_login : bool;
  gh_get_repo : outcome unit;
  gh_load : outcome value
}.

(** What one [load_all_data_from_cloud] reads: the answers to its three
    fetches and the content of the local [game_profile.json] ([None] when
    opening or parsing it raises). *)
Record sync_input : Type := mkSync {
  in_settings : github_response;
  in_profile : option value;
  in_timers : github_response;
  in_events : github_response
}.

(** The three clock reads of [set_fixed_timers_dates], in order:
    [datetime.now()], [date.today()] and [date.today()] again. *)
Record wall_clock : Type := mkClock {
  read_now : datetime;
  read_today : date;
  read_today' : date
}.

(** The placeholder of a time not yet confirmed. *)
Definition sentinel : string := "待確認".

(** The stable sort behind [sorted(xs, key=...)], on the pairs of a key
    and its element; only [<] on keys is used. *)
Fixpoint insert_by_key (x : datetime * record) (l : list (datetime * record))
  : list (datetime * record) :=
  match l with
  | [] => [x]
  | y :: l' =>
      if datetime_ltb (fst y) (fst x) then y :: insert_by_key x l'
      else x :: y :: l'
  end.

Definition sort_by_key (l : list (datetime * record)) : list (datetime * record) :=
  foldr insert_by_key [] l.

(** The key function [lambda x: x["spawn_dt"]]. *)
Definition spawn_dt (x : record) : outcome datetime :=
  match x !! "spawn_dt" with
  | Some (VDatetime d) => Return d
  | Some _ => Raise TypeError
  | None => Raise KeyError
  end.

Fixpoint decorate (l : list record) : outcome (list (datetime * record)) :=
  match l with
  | [] => Return []
  | x :: l' => k ← spawn_dt x; r ← decorate l'; Return ((k, x) :: r)
  end.

(** [sorted(confirmed, key=lambda x: x["spawn_dt"])]. *)
Definition sorted_by_spawn_dt (l : list record) : outcome (list record) :=
  d ← decorate l; Return (snd <$> sort_by_key d).

Section Methods.

(** [str(v)] for a value that is not a [str], Python's [==] on values, and
    whether PyGithub could be imported. *)
Variable py_repr : value -> string.
Variable py_eq : value -> value -> bool.
Variable IS_GITHUB_AVAILABLE : bool.

(** A value inside an f-string. *)
Definition py_format (v : value) : string :=
  match v with VStr s => s | _ => py_repr v end.

Definition connect_to_github (r : github_response) : M bool :=
  if negb IS_GITHUB_AVAILABLE then mret false
  else
    s ← get settings;
    token ← lift (py_get s "github_token" VNone);
    if negb (truthy token) then add_log LogNoToken;; mret false
    else
      c ← get github_client;
      match c with
      | Some _ => mret true
      | None =>
          if gh_login r
          then modify (with_github_client (Some token));;
               add_log LogConnected;; mret true
          else add_log LogConnectFailed;;
               modify (with_github_client None);; mret false
      end.

Definition _get_repo (r : github_response) : M (option unit) :=
  ok ← connect_to_github r;
  if negb ok then mret None
  else
    s ← get settings;
    github_user ← lift (py_get s "github_user" VNone);
    github_repo_name ← lift (py_get s "github_repo" VNone);
    if negb (truthy github_user) || negb (truthy github_repo_name)
    then mret None
    else lift (gh_get_repo r);; mret (Some tt).

(** The [try] block of [fetch_from_github]: [None] is the early
    [return default_value] when no repository is available. *)
Definition fetch_attempt (r : github_response) (file_path : value) : M (option value) :=
  repo ← _get_repo r;
  match repo with
  | None => add_log (LogRepoUnavailable file_path);; mret None
  | Some _ => v ← lift (gh_load r); mret (Some v)
  end.

Definition fetch_from_github (r : github_response) (file_path default_value : value)
  : M value := fun b =>
  match fetch_attempt r file_path b with
  | (Return (Some v), b') => (Return v, b')
  | (Return None, b') => (Return default_value, b')
  | (Raise (GithubException status), b') =>
      (add_log (if status =? 404 then LogFileNotFound file_path
                else LogGithubError file_path);; mret default_value) b'
  | (Raise _, b') => (add_log (LogFetchError file_path);; mret default_value) b'
  end.

(** [remote_data.get(timer_id, {})]. *)
Definition remote_get (remote_data timer_id : value) : outcome value :=
  match remote_data with
  | VDict m =>
      o ← dict_get_value m timer_id;
      Return (match o with Some x => x | None => VDict ∅ end)
  | _ => Raise AttributeError
  end.

(** One turn of the loop of [update_timers_data_from_remote]; the union of
    maps keeps the left value, so [{**a, **b}] is [b ∪ a]. *)
Definition merge_timer (remote_data timer_config : value) (new_floating_data : list record)
  : outcome (list record) :=
  ty ← py_getitem timer_config "type";
  if eq_str ty "floating" then
    timer_id ← py_getitem timer_config "id";
    remote_info ← remote_get remote_data timer_id;
    match timer_config, remote_info with
    | VDict cfg, VDict info => Return (new_floating_data ++ [info ∪ cfg])%list
    | _, _ => Raise TypeError
    end
  else Return new_floating_data.

Fixpoint merge_loop (remote_data : value) (items : list value) (new_floating_data : list record)
  : outcome (list record) :=
  match items with
  | [] => Return new_floating_data
  | timer_config :: rest =>
      acc ← merge_timer remote_data timer_config new_floating_data;
      merge_loop remote_data rest acc
  end.

Definition update_timers_data_from_remote (remote_data : value) : M unit :=
  cfg ← get timers_config;
  items ← lift (py_iter cfg);
  new_floating_data ← lift (merge_loop remote_data items []);
  modify (with_floating_timers_data new_floating_data);;
  add_log LogTimersUpdated.

Definition update_events_data_from_remote (remote_data : value) : M unit :=
  cur ← get custom_events;
  if is_dict remote_data && negb (py_eq cur remote_data)
  then modify (with_custom_events remote_data);; add_log LogEventsUpdated
  else mret tt.

(** The part of [load_all_data_from_cloud] that reads the local profile;
    it catches every exception. *)
Definition load_game_profile (file : option value) : M unit :=
  match file with
  | Some gp =>
      modify (with_game_profile gp);;
      match py_get gp "timers" (VList []) with
      | Return timers =>
          modify (with_timers_config timers);;
          match py_get gp "game_name" (VStr "N/A") with
          | Return name => add_log (LogProfileLoaded name)
          | Raise _ => add_log LogProfileCritical
          end
      | Raise _ => add_log LogProfileCritical
      end
  | None => add_log LogProfileCritical
  end.

Definition load_all_data_from_cloud (i : sync_input) : M unit :=
  add_log LogSyncStart;;
  new_settings ← fetch_from_github (in_settings i) (VStr "settings.json") (VDict ∅);
  modify (with_settings new_settings);;
  (if negb (truthy new_settings)
   then add_log LogSettingsCritical;; modify (with_github_client None)
   else mret tt);;
  load_game_profile (in_profile i);;
  s ← get settings;
  timers_file ← lift (py_get s "github_timers_file" (VStr "timers_data.json"));
  timers_data ← fetch_from_github (in_timers i) timers_file (VDict ∅);
  update_timers_data_from_remote timers_data;;
  s' ← get settings;
  events_file ← lift (py_get s' "github_events_file" (VStr "custom_events.json"));
  events_data ← fetch_from_github (in_events i) events_file (VDict ∅);
  update_events_data_from_remote events_data;;
  add_log LogSyncFinished.

Definition update_and_predict_timers : M unit := mret tt.

(** [[t for t in self.timers_config if t.get("type") == "fixed"]]. *)
Fixpoint fixed_only (items : list value) : outcome (list record) :=
  match items with
  | [] => Return []
  | VDict t :: rest =>
      fixed_data ← fixed_only rest;
      Return (if eq_str (default VNone (t !! "type")) "fixed"
              then t :: fixed_data else fixed_data)
  | _ :: _ => Raise AttributeError
  end.

(** The [try] block of the loop of [set_fixed_timers_dates]; [None] when
    it raises, whatever the exception. *)
Definition fixed_timer_try (clk : wall_clock) (tomorrow : date) (timer : record)
  : option record :=
  match timer !! "time" with
  | Some (VStr s) =>
      match split ":" s with
      | [a; b] =>
          h ← int a;
          m ← int b;
          if valid_hm h m then
            let timer_date :=
              if time_gtb (dt_time (read_now clk)) (mktime h m 0 0)
              then tomorrow else read_today clk in
            Some (<["date" := VStr (strftime_date timer_date)]> timer)
          else None
      | _ => None
      end
  | _ => None
  end.

Fixpoint fixed_loop (clk : wall_clock) (tomorrow : date) (fixed_data timers : list record)
  : M (list record) :=
  match fixed_data with
  | [] => mret timers
  | timer :: rest =>
      match fixed_timer_try clk tomorrow timer with
      | Some t => fixed_loop clk tomorrow rest (timers ++ [t])%list
      | None =>
          add_log (LogFixedTimerError (default VNone (timer !! "name")));;
          fixed_loop clk tomorrow rest timers
      end
  end.

Definition set_fixed_timers_dates (clk : wall_clock) : M (list record) :=
  tomorrow ← lift (match add_one_day (read_today' clk) with
                   | Some d => Return d
                   | None => Raise OverflowError
                   end);
  cfg ← get timers_config;
  items ← lift (py_iter cfg);
  fixed_data ← lift (fixed_only items);
  fixed_loop clk tomorrow fixed_data [].

Definition record_getitem (t : record) (k : string) : outcome value :=
  py_getitem (VDict t) k.

(** [{**t, "spawn_dt": strptime(f"{t['date']} {t['time']}", ...)}]:
    a [KeyError] goes up, [None] is the [ValueError] of [strptime]. *)
Definition with_spawn_dt (t : record) : outcome (option record) :=
  d ← record_getitem t "date";
  tm ← record_getitem t "time";
  Return (dt ← strptime (py_format d +:+ " " +:+ py_format tm);
          Some (<["spawn_dt" := VDatetime dt]> t)).

(** One turn of the loop over the floating records: the two lists
    [confirmed] and [unconfirmed] after it. *)
Definition floating_step (acc : list record * list record) (t : record)
  : outcome (list record * list record) :=
  if negb (eq_str (default VNone (t !! "time")) sentinel)
     && truthy (default VNone (t !! "date"))
  then
    r ← with_spawn_dt t;
    Return (match r with
            | Some c => (acc.1 ++ [c], acc.2)
            | None => (acc.1, acc.2 ++ [t])
            end)%list
  else Return (acc.1, acc.2 ++ [t])%list.

(** One turn of the loop over the fixed timers with their date. *)
Definition fixed_step (acc : list record * list record) (t : record)
  : outcome (list record * list record) :=
  r ← with_spawn_dt t;
  Return (match r with
          | Some c => (acc.1 ++ [c], acc.2)
          | None => (acc.1, acc.2 ++ [t])
          end)%list.

Fixpoint for_each {A B} (step : B -> A -> outcome B) (l : list A) (acc : B) : outcome B :=
  match l with
  | [] => Return acc
  | x :: l' => acc' ← step acc x; for_each step l' acc'
  end.

Definition refresh_timers (clk : wall_clock) : M unit :=
  update_and_predict_timers;;
  fixed ← set_fixed_timers_dates clk;
  modify (with_fixed_timers_with_date fixed);;
  floating ← get floating_timers_data;
  acc ← lift (for_each floating_step floating ([], []));
  acc' ← lift (for_each fixed_step fixed acc);
  agenda ← lift (sorted_by_spawn_dt acc'.1);
  modify (with_sorted_timers_data agenda).

Definition _cleanup_sent_notifications : M unit := mret tt.
Definition check_timer_notifications : M unit := mret tt.
Definition check_custom_event_notifications : M unit := mret tt.

Definition check_all_notifications (clk : wall_clock) : M unit :=
  refresh_timers clk;;
  _cleanup_sent_notifications;;
  check_timer_notifications;;
  check_custom_event_notifications;;
  add_log LogCycleComplete.

(** One [requests.post]: the status of the response, a
    [RequestException], or an exception of another class (a message that
    [json] cannot serialise, a token that the header cannot encode), which
    [send_discord_message] does not catch. *)
Inductive post_result : Type :=
| PostStatus (status_code : Z)
| PostRequestException
| PostRaises (e : exn).

Fixpoint post_all (respond : string -> post_result) (message : value)
    (channel_list : list string) : M unit :=
  match channel_list with
  | [] => mret tt
  | cid :: rest =>
      modify (fun b => with_discord_outbox (discord_outbox b ++ [(cid, message)])%list b);;
      match respond cid with
      | PostStatus status =>
          add_log (if status =? 200 then LogDiscordSent (String.substring 0 5 cid)
                   else LogDiscordFailed status);;
          post_all respond message rest
      | PostRequestException =>
          add_log LogDiscordNetworkError;;
          post_all respond message rest
      | PostRaises e => raise e
      end
  end.

Definition send_discord_message (respond : string -> post_result)
    (message channel_list_str : value) : M unit :=
  s ← get settings;
  enabled ← lift (py_get s "send_discord" (VBool false));
  if negb (truthy enabled) then mret tt
  else
    bot_token ← lift (py_get s "discord_token" VNone);
    if negb (truthy bot_token) || negb (truthy channel_list_str) then mret tt
    else
      match channel_list_str with
      | VStr str =>
          post_all respond message
            (filter (fun cid => cid <> EmptyString)
               (strip <$> split "010" (strip str)))
      | _ => raise AttributeError
      end.

(** *** The main loop

    One turn of [while True] reads [time.time()] and, when they are
    called, what the sync reads and the clock of the check. The turn
    reports the calls it made. *)
Record tick : Type := mkTick {
  tick_time : float;
  tick_sync : sync_input;
  tick_clock : wall_clock
}.

Inductive call : Type :=
| Call_load_all_data_from_cloud
| Call_check_all_notifications
| Call_sleep (seconds : Z).

Definition schedule_interval_seconds : Z := 60.
Definition download_interval_seconds : float := 300%float.

(** [current_time - last_download_time >= download_interval_seconds]. *)
Definition download_due (current_time last_download_time : float) : bool :=
  PrimFloat.leb download_interval_seconds (PrimFloat.sub current_time last_download_time).

Definition iteration (t : tick) (last_download_time : float)
  : M (float * list call) :=
  let current_time := tick_time t in
  '(last, calls1) ←
     (if download_due current_time last_download_time
      then load_all_data_from_cloud (tick_sync t);;
           mret (current_time, [Call_load_all_data_from_cloud])
      else mret (last_download_time, []));
  s ← get settings;
  calls2 ←
     (if truthy s
      then check_all_notifications (tick_clock t);;
           mret [Call_check_all_notifications]
      else add_log LogSettingsNotLoaded;; mret []);
  mret (last, calls1 ++ calls2 ++ [Call_sleep schedule_interval_seconds])%list.

(** The turns of the loop on the given ticks; an exception ends it. *)
Fixpoint iterations (ticks : list tick) (last_download_time : float)
  : M (float * list call) :=
  match ticks with
  | [] => mret (last_download_time, [])
  | t :: rest =>
      '(last, calls) ← iteration t last_download_time;
      '(last', calls') ← iterations rest last;
      mret (last', calls ++ calls')%list
  end.

(** [run], cut after the given ticks. *)
Definition run (ticks : list tick) : M (float * list call) :=
  add_log LogMainLoop;;
  iterations ticks 0%float.

End Methods.

(** ** The dashboard (src/web_app.py)

    The Flask handler [home] and [update_github_file]. GitHub's answers
    to the four calls are inputs; the calls made and the messages flashed
    are recorded in the order they happen. *)

Module WebApp.

(** [ConnectionError], a [GithubException] with its status, and any other
    exception. *)
Inductive web_exn : Type :=
| ConnectionError
| WebGithubException (status : Z)
| WebException.

Inductive web_outcome (A : Type) : Type :=
| WebReturn (a : A)
| WebRaise (e : web_exn).
Arguments WebReturn {A} a.
Arguments WebRaise {A} e.

(** The calls on the repository, with their arguments. *)
Inductive github_call : Type :=
| Call_get_repo (token : value) (repo_full_name : string)
| Call_get_contents (file_path ref : string)
| Call_update_file (path message content sha branch : string)
| Call_create_file (path message content branch : string).

(** What GitHub answers: [get_contents] gives the path and the sha of
    the file. *)
Record github_answers : Type := mkAnswers {
  on_get_repo : web_outcome unit;
  on_get_contents : web_outcome (string * string);
  on_update_file : web_outcome unit;
  on_create_file : web_outcome unit
}.

(** The text of a flashed message; the text of the exception is left out. *)
Inductive flash_message : Type :=
| FlashPasswordIncorrect
| FlashSaved
| FlashSaveFailed (e : web_exn).

Record web_state : Type := mkWeb {
  github_calls : list github_call;
  flashed : list (flash_message * string)
}.

Definition W (A : Type) : Type := web_state -> web_outcome A * web_state.

#[local] Instance W_ret : MRet W := fun A a w => (WebReturn a, w).
#[local] Instance W_bind : MBind W := fun A B k m w =>
  match m w with
  | (WebReturn a, w') => k a w'
  | (WebRaise e, w') => (WebRaise e, w')
  end.

Definition web_raise {A} (e : web_exn) : W A := fun w => (WebRaise e, w).

(** One call on GitHub: it is recorded, then GitHub answers. *)
Definition perform {A} (c : github_call) (answer : web_outcome A) : W A := fun w =>
  (answer, mkWeb (github_calls w ++ [c])%list (flashed w)).

Definition flash (message : flash_message) (category : string) : W unit := fun w =>
  (WebReturn tt, mkWeb (github_calls w) (flashed w ++ [(message, category)])%list).

(** [try: body except ... as e: handler e]; a handler that does not catch
    [e] raises it again. *)
Definition try_except {A} (body : W A) (handler : web_exn -> W A) : W A := fun w =>
  match body w with
  | (WebReturn a, w') => (WebReturn a, w')
  | (WebRaise e, w') => handler e w'
  end.

Inductive response : Type :=
| Redirect (endpoint : string)
| Render_template (template : string) (settings : value).

Record request : Type := mkRequest {
  method : string;
  form : gmap string string
}.

(** [request.form.get(k)], and a value inside an f-string. *)
Definition form_get (f : gmap string string) (k : string) : value :=
  match f !! k with Some s => VStr s | None => VNone end.

Definition format_value (v : value) : string :=
  match v with VStr s => s | _ => "None" end.

Section Handlers.

(** Whether PyGithub could be imported, the password of the environment,
    and [json.dumps(data, indent=2, ensure_ascii=False)]. *)
Variable IS_GITHUB_AVAILABLE : bool.
Variable ADMIN_PASSWORD : string.
Variable json_dumps : value -> string.

Definition update_github_file (gh : github_answers) (repo_full_name file_path : string)
    (token data : value) (commit_message : string) : W string :=
  if negb IS_GITHUB_AVAILABLE then web_raise ConnectionError
  else
    perform (Call_get_repo token repo_full_name) (on_get_repo gh);;
    let content_str := json_dumps data in
    try_except
      ('(path, sha) ← perform (Call_get_contents file_path "main") (on_get_contents gh);
       perform (Call_update_file path commit_message content_str sha "main")
         (on_update_file gh);;
       mret "File updated successfully.")
      (fun e =>
         match e with
         | WebGithubException status =>
             if status =? 404
             then perform (Call_create_file file_path commit_message content_str "main")
                    (on_create_file gh);;
                  mret "File created successfully."
             else web_raise e
         | _ => web_raise e
         end).

(** The dict [home] builds from the form. *)
Definition form_settings (f : gmap string string) : gmap string value :=
  <["github_token" := form_get f "github_token"]>
  (<["github_user" := form_get f "github_user"]>
  (<["github_repo" := form_get f "github_repo"]>
  (<["github_timers_file" := form_get f "github_timers_file"]>
  (<["github_events_file" := form_get f "github_events_file"]>
  (<["send_discord" := VBool (bool_decide (is_Some (f !! "send_discord")))]>
  (<["discord_token" := form_get f "discord_token"]>
  (<["discord_high_level_channels" := form_get f "discord_high_level_channels"]>
  (<["discord_all_channels" := form_get f "discord_all_channels"]> ∅)))))))).

(** [settings[k]] for a key of the dict above. *)
Definition settings_item (s : gmap string value) (k : string) : value :=
  default VNone (s !! k).

Definition home (gh : github_answers) (req : request) : W response :=
  let current_settings := VDict ∅ in
  if String.eqb (method req) "POST" then
    let password := form req !! "password" in
    if bool_decide (password <> Some ADMIN_PASSWORD) then
      flash FlashPasswordIncorrect "error";;
      mret (Redirect "home")
    else
      let settings := form_settings (form req) in
      try_except
        (let repo_full_name :=
           format_value (settings_item settings "github_user") +:+ "/"
           +:+ format_value (settings_item settings "github_repo") in
         let commit_message := "Update settings from web dashboard" in
         update_github_file gh repo_full_name "settings.json"
           (settings_item settings "github_token") (VDict settings) commit_message;;
         flash FlashSaved "success")
        (fun e => flash (FlashSaveFailed e) "error");;
      mret (Redirect "home")
  else mret (Render_template "index.html" current_settings).

End Handlers.

(** A write on the repository. *)
Definition is_write (c : github_call) : bool :=
  match c with
  | Call_update_file _ _ _ _ _ | Call_create_file _ _ _ _ => true
  | _ => false
  end.

Definition is_create (c : github_call) : bool :=
  match c with Call_create_file _ _ _ _ => true | _ => false end.

Definition not_found {A} (o : web_outcome A) : Prop :=
  o = WebRaise (WebGithubException 404).

Definition no_traffic : web_state := mkWeb [] [].

End WebApp.

(** ** Notions used to state the properties *)

Definition hashable (v : value) : bool :=
  match v with VList _ | VDict _ => false | _ => true end.

(** A catalog entry as the merge expects it: a dict with a ["type"]; when
    floating, an ["id"] that can be looked up, and a remote observation for
    it, when there is one, that is a dict. *)
Definition definition_ok (remote : gmap string value) (e : value) : bool :=
  match e with
  | VDict m =>
      match m !! "type" with
      | Some ty =>
          if eq_str ty "floating" then
            match m !! "id" with
            | Some (VStr k) =>
                match remote !! k with Some obs => is_dict obs | None => true end
            | Some id => hashable id
            | None => false
            end
          else true
      | None => false
      end
  | _ => false
  end.

(** The floating definitions of a catalog, in order. *)
Definition floating_definitions (cfg : list value) : list record :=
  flat_map (fun e => match e with
                     | VDict m =>
                         if eq_str (default VNone (m !! "type")) "floating"
                         then [m] else []
                     | _ => []
                     end) cfg.

(** The remote observation of a definition: the dict found under its id. *)
Definition observation_of (remote : gmap string value) (definition : record)
  : option record :=
  match definition !! "id" with
  | Some (VStr k) =>
      match remote !! k with Some (VDict obs) => Some obs | _ => None end
  | _ => None
  end.

(** The specification's merge of one definition: the definition overlaid
    with its observation, the observation winning on every key it has. *)
Definition spec_merged (remote : gmap string value) (definition live : record) : Prop :=
  match observation_of remote definition with
  | Some obs =>
      forall k, live !! k = match obs !! k with
                            | Some v => Some v
                            | None => definition !! k
                            end
  | None => live = definition
  end.

(** Two agenda entries in the order of their spawn times. *)
Definition spawn_le (x y : record) : Prop :=
  exists dx dy, spawn_dt x = Return dx /\ spawn_dt y = Return dy
                /\ datetime_leb dx dy = true.

(** A floating record on which the loop of [refresh_timers] does not
    raise: [t['time']] is read only when the date is truthy. *)
Definition time_or_no_date (t : record) : bool :=
  match t !! "time" with
  | Some _ => true
  | None => negb (truthy (default VNone (t !! "date")))
  end.




(** ** Notions used in the proofs *)

(** The order of the decorated agenda entries. *)
Definition key_le (x y : datetime * record) : Prop :=
  datetime_leb (fst x) (fst y) = true.

#[local] Instance exn_eq_dec : EqDecision exn.
Proof. solve_decision. Defined.

#[local] Instance outcome_eq_dec {A} `{EqDecision A} : EqDecision (outcome A).
Proof. solve_decision. Defined.

(** An agenda entry that carries a datetime under ["spawn_dt"], and a
    decorated entry whose key is that datetime. *)
Definition keyed (c : record) : Prop := exists dt, spawn_dt c = Return dt.

Definition key_ok (p : datetime * record) : Prop := spawn_dt (snd p) = Return (fst p).

(** A method leaves [f] of the bot alone. *)
Definition preserves {A F : Type} (f : CloudBot -> F) (m : M A) : Prop :=
  forall b, f (snd (m b)) = f b.

(** Two bots that differ at most in their log, and a method that neither
    depends on the log nor does more to it than add messages. *)
Definition same_but_log (b1 b2 : CloudBot) : Prop := with_log [] b1 = with_log [] b2.

Definition log_blind {A} (m : M A) : Prop :=
  forall b1 b2, same_but_log b1 b2 ->
    fst (m b1) = fst (m b2) /\ same_but_log (snd (m b1)) (snd (m b2)).

(** [set_fixed_timers_dates] neither reads nor writes the floating records. *)
Definition floating_blind {A} (m : M A) : Prop :=
  forall l b, m (with_floating_timers_data l b)
              = (fst (m b), with_floating_timers_data l (snd (m b))).

(** Total correctness of a method: from a state in [P] it returns, with a
    result and a state in [Q]. *)
Definition hoare {A} (P : CloudBot -> Prop) (m : M A) (Q : A -> CloudBot -> Prop) : Prop :=
  forall b, P b -> exists a b', m b = (Return a, b') /\ Q a b'.


(** What the notification checks could change for the outside: the
    messages posted and the record of what was sent. *)
Definition alerts (b : CloudBot) : list (string * value) * gset sent_key :=
  (discord_outbox b, sent_notifications b).

(** The records the loop of [refresh_timers] puts in [unconfirmed]: the
    time is the placeholder, the date is missing or empty, date and time
    do not parse, or the record is a definition without a date to which
    the merge added no observation. *)
Definition stays_unconfirmed (py_repr : value -> string) (t : record) : Prop :=
  eq_str (default VNone (t !! "time")) sentinel = true
  \/ truthy (default VNone (t !! "date")) = false
  \/ (exists d tm, t !! "date" = Some d /\ t !! "time" = Some tm
                   /\ strptime (py_format py_repr d +:+ " " +:+ py_format py_repr tm) = None)
  \/ (exists remote definition,
         observation_of remote definition = None
         /\ definition !! "date" = None
         /\ spec_merged remote definition t).

(** A property of the bot that a method keeps, whether it returns or
    raises. *)
Definition keeps {A} (I : CloudBot -> Prop) (m : M A) : Prop :=
  forall b, I b -> I (snd (m b)).

(** The log holds at most the 200 messages of the deque. *)
Definition log_bounded (b : CloudBot) : Prop :=
  (length (log_entries b) <= 200)%nat.

(** The bot holds the GitHub client [c]. *)
Definition has_client (c : value) (b : CloudBot) : Prop := github_client b = Some c.

(** ** Concrete bots, used in the examples

    A stand-in for [str] of a value that is not a string, and one for
    [==]: two values are taken as equal when both are falsy. *)

Definition example_py_repr (v : value) : string := "?".

Definition example_py_eq (v w : value) : bool := negb (truthy v) && negb (truthy w).

(** The clock reads 2024-01-01 10:00. *)
Definition example_clock : wall_clock :=
  mkClock (mkdatetime (mkdate 2024 1 1) (mktime 10 0 0 0)) (mkdate 2024 1 1) (mkdate 2024 1 1).

Definition example_fixed : record :=
  {[ "id" := VStr "f1"; "type" := VStr "fixed"; "time" := VStr "09:00" ]}.

Definition example_floating : record :=
  {[ "id" := VStr "boss1"; "type" := VStr "floating"; "name" := VStr "Boss" ]}.

Definition example_unobserved : record :=
  {[ "id" := VStr "boss2"; "type" := VStr "floating"; "time" := VStr sentinel ]}.

Definition example_catalog : list value :=
  [VDict example_fixed; VDict example_floating; VDict example_unobserved].

Definition example_remote : gmap string value :=
  {[ "boss1" := VDict {[ "date" := VStr "2024-01-05"; "time" := VStr "09:05" ]} ]}.

Definition example_bot : CloudBot := with_timers_config (VList example_catalog) init.

(** The bot after the merge: the observed [boss1], then [boss2] as it is
    in the catalog. *)
Definition example_observed : record :=
  {[ "id" := VStr "boss1"; "type" := VStr "floating"; "name" := VStr "Boss";
     "date" := VStr "2024-01-05"; "time" := VStr "09:05" ]}.

Definition example_merged_bot : CloudBot :=
  with_floating_timers_data [example_observed; example_unobserved] example_bot.

(** A floating definition that carries a date and a time of its own, in a
    catalog of one, merged with an empty remote map. *)
Definition dated_definition : record :=
  {[ "id" := VStr "boss3"; "type" := VStr "floating";
     "date" := VStr "2024-01-01"; "time" := VStr "12:00" ]}.

Definition dated_bot : CloudBot :=
  snd (update_timers_data_from_remote (VDict ∅)
         (with_timers_config (VList [VDict dated_definition]) init)).

(** A bot with loaded settings, and a sync whose fetch of the settings
    ends in a GitHub error 500. *)
Definition loaded_settings : value :=
  VDict {[ "github_token" := VStr "token"; "github_user" := VStr "user";
           "github_repo" := VStr "repo"; "send_discord" := VBool true ]}.

Definition loaded_bot : CloudBot := with_settings loaded_settings init.

Definition failing_response : github_response :=
  mkResponse true (Return tt) (Raise (GithubException 500)).

Definition failing_sync : sync_input :=
  mkSync failing_response None failing_response failing_response.

(** Three turns of the loop, at 1000 s, 1060 s and 1400 s, the profile
    file readable in the first. *)
Definition example_profile : value :=
  VDict {[ "game_name" := VStr "Game"; "timers" := VList example_catalog ]}.

Definition example_ticks : list tick :=
  [mkTick 1000%float (mkSync failing_response (Some example_profile)
                        failing_response failing_response) example_clock;
   mkTick 1060%float failing_sync example_clock;
   mkTick 1400%float failing_sync example_clock].



(** A fetch that GitHub answers with the loaded settings, a bot that
    already holds a client, and a fetch whose file holds a JSON list. *)
Definition answering_response : github_response :=
  mkResponse true (Return tt) (Return loaded_settings).

Definition answering_sync : sync_input :=
  mkSync answering_response None failing_response failing_response.

Definition connected_bot : CloudBot :=
  with_github_client (Some (VStr "old token")) loaded_bot.

Definition list_response : github_response :=
  mkResponse true (Return tt) (Return (VList [VInt 1])).

Definition list_sync : sync_input :=
  mkSync list_response None failing_response failing_response.

(** A floating record with a date and no time. *)
Definition timeless_record : record :=
  {[ "id" := VStr "boss4"; "type" := VStr "floating"; "date" := VStr "2024-01-05" ]}.

Definition timeless_bot : CloudBot :=
  with_floating_timers_data ([example_observed] ++ timeless_record :: [])%list example_bot.

(** The fixed timer of the catalog, dated and on the agenda. *)
Definition example_dated : record := <["date" := VStr "2024-01-02"]> example_fixed.

Definition example_prediction : record :=
  <["spawn_dt" := VDatetime (mkdatetime (mkdate 2024 1 2) (mktime 9 0 0 0))]> example_dated.

(** Settings with Discord enabled; two channels on three lines, the first
    of which answers with a network error. *)
Definition discord_map : gmap string value :=
  {[ "send_discord" := VBool true; "discord_token" := VStr "secret" ]}.

Definition discord_bot : CloudBot := with_settings (VDict discord_map) init.

Definition example_channels : string :=
  "123" +:+ String "010" (String "010" " 456 ").

Definition example_respond (cid : string) : post_result :=
  if String.eqb cid "123" then PostRequestException else PostStatus 200.

(** The same channels when the message cannot be serialised. *)
Definition raising_respond (cid : string) : post_result := PostRaises TypeError.



(** The dashboard: a stand-in for [json.dumps], a form with the password
    and without the Discord checkbox, GitHub finding the file or not. *)
Definition example_json_dumps (v : value) : string := "{}".

Definition example_form : gmap string string :=
  {[ "password" := "999999"; "github_token" := "token"; "github_user" := "user";
     "github_repo" := "repo" ]}.

Definition example_request : WebApp.request := WebApp.mkRequest "POST" example_form.

Definition found_answers : WebApp.github_answers :=
  WebApp.mkAnswers (WebApp.WebReturn tt) (WebApp.WebReturn ("settings.json", "abc"))
    (WebApp.WebReturn tt) (WebApp.WebReturn tt).

Definition missing_answers : WebApp.github_answers :=
  WebApp.mkAnswers (WebApp.WebReturn tt) (WebApp.WebRaise (WebApp.WebGithubException 404))
    (WebApp.WebReturn tt) (WebApp.WebReturn tt).

Definition form_bot : CloudBot :=
  with_settings (VDict (WebApp.form_settings example_form)) init.

(* ===================================================================== *)
(** * Part II: properties *)
(* ===================================================================== *)

(** ** Digits and padded fields *)

Module PyStrFacts.
Import PyStr.

Ltac digit_cases a :=
  let H := fresh in
  assert (H : a = 0 \/ a = 1 \/ a = 2 \/ a = 3 \/ a = 4 \/ a = 5 \/ a = 6
              \/ a = 7 \/ a = 8 \/ a = 9) by lia;
  repeat (destruct H as [H | H]; [subst a | ]); [.. | subst a].

Lemma is_digit_chr (c : ascii) :
  is_digit c = true -> 0 <= digit_val c <= 9 /\ c = digit_chr (digit_val c).
Proof.
  unfold is_digit, digit_val, digit_chr. intros H.
  apply andb_true_iff in H as [H1 H2].
  apply Z.leb_le in H1, H2. split; [lia |].
  replace (code c - 48 + 48) with (code c) by lia.
  unfold code. rewrite N2Z.id. symmetry. apply ascii_N_embedding.
Qed.

Lemma digit_val_chr (a : Z) : 0 <= a <= 9 -> digit_val (digit_chr a) = a.
Proof. intros H. digit_cases a; reflexivity. Qed.

Lemma is_digit_digit_chr (a : Z) : 0 <= a <= 9 -> is_digit (digit_chr a) = true.
Proof. intros H. digit_cases a; reflexivity. Qed.

Lemma is_space_digit_chr (a : Z) : 0 <= a <= 9 -> is_space (digit_chr a) = false.
Proof. intros H. digit_cases a; reflexivity. Qed.

Lemma pad2_digits (a b : Z) :
  0 <= a <= 9 -> 0 <= b <= 9 ->
  pad2 (10 * a + b) = String (digit_chr a) (String (digit_chr b) EmptyString).
Proof.
  intros Ha Hb. unfold pad2.
  replace ((10 * a + b) / 10) with a by (Z.div_mod_to_equations; lia).
  replace ((10 * a + b) mod 10) with b by (Z.div_mod_to_equations; lia).
  reflexivity.
Qed.

Lemma pad4_digits (a b c d : Z) :
  0 <= a <= 9 -> 0 <= b <= 9 -> 0 <= c <= 9 -> 0 <= d <= 9 ->
  pad4 (100 * (10 * a + b) + (10 * c + d))
  = String (digit_chr a) (String (digit_chr b)
      (String (digit_chr c) (String (digit_chr d) EmptyString))).
Proof.
  intros Ha Hb Hc Hd. unfold pad4.
  set (n := 100 * (10 * a + b) + (10 * c + d)).
  replace (n / 1000) with a by (subst n; Z.div_mod_to_equations; lia).
  replace (n / 100 mod 10) with b by (subst n; Z.div_mod_to_equations; lia).
  replace (n / 10 mod 10) with c by (subst n; Z.div_mod_to_equations; lia).
  replace (n mod 10) with d by (subst n; Z.div_mod_to_equations; lia).
  reflexivity.
Qed.

(** [int] reads a two-digit field back. *)
Lemma int_pad2 (n : Z) : 0 <= n <= 99 -> int (pad2 n) = Some n.
Proof.
  intros H.
  assert (Ha : 0 <= n / 10 <= 9) by (Z.div_mod_to_equations; lia).
  assert (Hb : 0 <= n mod 10 <= 9) by (Z.div_mod_to_equations; lia).
  assert (Hn : n = 10 * (n / 10) + n mod 10) by (Z.div_mod_to_equations; lia).
  rewrite Hn at 2. unfold pad2.
  generalize dependent (n mod 10). generalize dependent (n / 10).
  intros a Ha b Hb _. clear H.
  digit_cases a; digit_cases b; reflexivity.
Qed.

Lemma split_digit (a : Z) (s : string) :
  0 <= a <= 9 ->
  split ":" (String (digit_chr a) s)
  = match split ":" s with
    | p :: ps => String (digit_chr a) p :: ps
    | [] => [String (digit_chr a) EmptyString]
    end.
Proof. intros H. digit_cases a; reflexivity. Qed.

Lemma split_pad2 (h m : Z) :
  0 <= h <= 99 -> 0 <= m <= 99 ->
  split ":" (pad2 h +:+ ":" +:+ pad2 m) = [pad2 h; pad2 m].
Proof.
  intros Hh Hm.
  assert (0 <= h / 10 <= 9) by (Z.div_mod_to_equations; lia).
  assert (0 <= h mod 10 <= 9) by (Z.div_mod_to_equations; lia).
  assert (0 <= m / 10 <= 9) by (Z.div_mod_to_equations; lia).
  assert (0 <= m mod 10 <= 9) by (Z.div_mod_to_equations; lia).
  unfold pad2. cbv [String.append].
  rewrite !split_digit by assumption.
  change (split ":" (String ":" ?s)) with (EmptyString :: split ":" s).
  rewrite !split_digit by assumption. reflexivity.
Qed.

End PyStrFacts.

(** ** [strptime] and [strftime] on padded fields *)

Module PyDatetimeFacts.
Import PyStr PyDatetime PyStrFacts.

Abbreviation dc := digit_chr.

Lemma digit_in_chr (lo hi a : Z) (r : string) :
  0 <= a <= 9 ->
  digit_in lo hi (String (dc a) r)
  = if (lo <=? a) && (a <=? hi) then [(a, r)] else [].
Proof.
  intros H. unfold digit_in.
  rewrite is_digit_digit_chr, digit_val_chr by assumption. reflexivity.
Qed.

Lemma lit_chr (c : ascii) (a : Z) (r : string) :
  is_digit c = false -> 0 <= a <= 9 -> lit c (String (dc a) r) = [].
Proof.
  intros Hc Ha. unfold lit.
  destruct (Ascii.eqb_spec (dc a) c) as [<- | _]; [| reflexivity].
  rewrite is_digit_digit_chr in Hc by assumption. discriminate.
Qed.

Lemma spaces1_chr (a : Z) (r : string) :
  0 <= a <= 9 -> spaces1 (String (dc a) r) = [].
Proof. intros Ha. unfold spaces1. by rewrite is_space_digit_chr. Qed.

Lemma spaces1_blank (a : Z) (r : string) :
  0 <= a <= 9 -> spaces1 (String " " (String (dc a) r)) = [(tt, String (dc a) r)].
Proof.
  intros Ha. unfold spaces1.
  change (is_space " ") with true. cbn [spaces0].
  by rewrite is_space_digit_chr.
Qed.

(** The matches of a two-digit field: the full field when its value is
    in range, then (for [%m], [%d], [%H], [%M]) its first digit alone. *)
Lemma two_chr (p q : matcher Z) (a b : Z) (r : string) :
  two p q (String (dc a) (String (dc b) r))
  = ('(x, r1) ← p (String (dc a) (String (dc b) r));
     '(y, r2) ← q r1; [(10 * x + y, r2)]).
Proof. reflexivity. Qed.

Lemma re_Y_chr (a b c d : Z) (r : string) :
  0 <= a <= 9 -> 0 <= b <= 9 -> 0 <= c <= 9 -> 0 <= d <= 9 ->
  re_Y (String (dc a) (String (dc b) (String (dc c) (String (dc d) r))))
  = [(100 * (10 * a + b) + (10 * c + d), r)].
Proof.
  intros Ha Hb Hc Hd. unfold re_Y, two.
  rewrite (digit_in_chr 0 9 a) by assumption.
  replace ((0 <=? a) && (a <=? 9)) with true by lia. cbn [mbind list_bind app].
  rewrite (digit_in_chr 0 9 b) by assumption.
  replace ((0 <=? b) && (b <=? 9)) with true by lia. cbn [mbind list_bind app].
  rewrite (digit_in_chr 0 9 c) by assumption.
  replace ((0 <=? c) && (c <=? 9)) with true by lia. cbn [mbind list_bind app].
  rewrite (digit_in_chr 0 9 d) by assumption.
  replace ((0 <=? d) && (d <=? 9)) with true by lia. reflexivity.
Qed.

Lemma re_m_chr (a b : Z) (r : string) :
  0 <= a <= 9 -> 0 <= b <= 9 ->
  re_m (String (dc a) (String (dc b) r))
  = ((if (1 <=? 10 * a + b) && (10 * a + b <=? 12) then [(10 * a + b, r)] else [])
     ++ (if 1 <=? a then [(a, String (dc b) r)] else []))%list.
Proof. intros Ha Hb. digit_cases a; digit_cases b; reflexivity. Qed.

Lemma re_d_chr (a b : Z) (r : string) :
  0 <= a <= 9 -> 0 <= b <= 9 ->
  re_d (String (dc a) (String (dc b) r))
  = ((if (1 <=? 10 * a + b) && (10 * a + b <=? 31) then [(10 * a + b, r)] else [])
     ++ (if 1 <=? a then [(a, String (dc b) r)] else []))%list.
Proof. intros Ha Hb. digit_cases a; digit_cases b; reflexivity. Qed.

Lemma re_H_chr (a b : Z) (r : string) :
  0 <= a <= 9 -> 0 <= b <= 9 ->
  re_H (String (dc a) (String (dc b) r))
  = ((if 10 * a + b <=? 23 then [(10 * a + b, r)] else [])
     ++ (if 0 <=? a then [(a, String (dc b) r)] else []))%list.
Proof. intros Ha Hb. digit_cases a; digit_cases b; reflexivity. Qed.

Lemma re_M_chr (a b : Z) (r : string) :
  0 <= a <= 9 -> 0 <= b <= 9 ->
  re_M (String (dc a) (String (dc b) r))
  = ((if 10 * a + b <=? 59 then [(10 * a + b, r)] else [])
     ++ [(a, String (dc b) r)])%list.
Proof. intros Ha Hb. digit_cases a; digit_cases b; reflexivity. Qed.

(** A two-digit field before a separator that no digit matches: only the
    full field goes through. *)
Lemma field_then_two {A} (p : matcher Z) (sep : matcher unit) (k : Z -> matcher A)
    (a b v : Z) (s rest : string) (ok ok1 : bool) :
  p (String (dc a) (String (dc b) s))
  = ((if ok then [(v, s)] else []) ++ (if ok1 then [(a, String (dc b) s)] else []))%list ->
  sep s = [(tt, rest)] ->
  sep (String (dc b) s) = [] ->
  field_then p sep k (String (dc a) (String (dc b) s)) = if ok then k v rest else [].
Proof.
  intros Hp Hs Hb. unfold field_then. rewrite Hp.
  destruct ok, ok1; cbn [app mbind list_bind]; rewrite ?Hs, ?Hb;
    cbn [app mbind list_bind]; rewrite ?app_nil_r; reflexivity.
Qed.

Lemma lit_same (c : ascii) (r : string) : lit c (String c r) = [(tt, r)].
Proof. unfold lit. by rewrite Ascii.eqb_refl. Qed.

(** [strptime] on sixteen characters laid out as [dddd-dd-dd dd:dd]. *)
Lemma strptime_digits (y1 y2 y3 y4 m1 m2 d1 d2 h1 h2 n1 n2 : Z) :
  0 <= y1 <= 9 -> 0 <= y2 <= 9 -> 0 <= y3 <= 9 -> 0 <= y4 <= 9 ->
  0 <= m1 <= 9 -> 0 <= m2 <= 9 -> 0 <= d1 <= 9 -> 0 <= d2 <= 9 ->
  0 <= h1 <= 9 -> 0 <= h2 <= 9 -> 0 <= n1 <= 9 -> 0 <= n2 <= 9 ->
  strptime
    (String (dc y1) (String (dc y2) (String (dc y3) (String (dc y4) (String "-"
    (String (dc m1) (String (dc m2) (String "-"
    (String (dc d1) (String (dc d2) (String " "
    (String (dc h1) (String (dc h2) (String ":"
    (String (dc n1) (String (dc n2) EmptyString))))))))))))))))
  = let dt := mkdatetime
                (mkdate (100 * (10 * y1 + y2) + (10 * y3 + y4)) (10 * m1 + m2) (10 * d1 + d2))
                (mktime (10 * h1 + h2) (10 * n1 + n2) 0 0) in
    if ((1 <=? 10 * m1 + m2) && (10 * m1 + m2 <=? 12))
       && (((1 <=? 10 * d1 + d2) && (10 * d1 + d2 <=? 31))
           && ((10 * h1 + h2 <=? 23)
               && ((10 * n1 + n2 <=? 59) && valid_date (dt_date dt))))
    then Some dt else None.
Proof.
  intros Hy1 Hy2 Hy3 Hy4 Hm1 Hm2 Hd1 Hd2 Hh1 Hh2 Hn1 Hn2.
  unfold strptime, re_format.
  unfold field_then at 1. rewrite re_Y_chr by assumption.
  cbn [mbind list_bind app]. rewrite lit_same. cbn [mbind list_bind app].
  rewrite app_nil_r.
  erewrite (field_then_two re_m (lit "-"));
    [ | apply re_m_chr; assumption | apply lit_same | apply lit_chr; [reflexivity | assumption] ].
  cbv zeta.
  destruct ((1 <=? 10 * m1 + m2) && (10 * m1 + m2 <=? 12)); [| reflexivity].
  erewrite (field_then_two re_d spaces1);
    [ | apply re_d_chr; assumption | apply spaces1_blank; assumption
      | apply spaces1_chr; assumption ].
  destruct ((1 <=? 10 * d1 + d2) && (10 * d1 + d2 <=? 31)); [| reflexivity].
  erewrite (field_then_two re_H (lit ":"));
    [ | apply re_H_chr; assumption | apply lit_same | apply lit_chr; [reflexivity | assumption] ].
  destruct (10 * h1 + h2 <=? 23); [| reflexivity].
  rewrite re_M_chr by assumption.
  destruct (10 * n1 + n2 <=? 59); reflexivity.
Qed.

Lemma two_digits (n : Z) :
  0 <= n <= 99 -> exists a b, 0 <= a <= 9 /\ 0 <= b <= 9 /\ n = 10 * a + b.
Proof.
  intros H. exists (n / 10), (n mod 10).
  repeat split; Z.div_mod_to_equations; lia.
Qed.

Lemma four_digits (n : Z) :
  0 <= n <= 9999 ->
  exists a b c d, 0 <= a <= 9 /\ 0 <= b <= 9 /\ 0 <= c <= 9 /\ 0 <= d <= 9
                  /\ n = 100 * (10 * a + b) + (10 * c + d).
Proof.
  intros H. exists (n / 1000), (n / 100 mod 10), (n / 10 mod 10), (n mod 10).
  repeat split; Z.div_mod_to_equations; lia.
Qed.

Lemma days_in_month_bounds (y m : Z) : 28 <= days_in_month y m <= 31.
Proof.
  unfold days_in_month.
  destruct (m =? 2); [destruct (is_leap y); lia |].
  destruct ((m =? 4) || (m =? 6) || (m =? 9) || (m =? 11)); lia.
Qed.

Lemma valid_date_bounds (d : date) :
  valid_date d = true ->
  1 <= year d <= 9999 /\ 1 <= month d <= 12
  /\ 1 <= day d <= days_in_month (year d) (month d).
Proof.
  unfold valid_date. rewrite !andb_true_iff, !Z.leb_le. tauto.
Qed.

Lemma valid_hm_bounds (h m : Z) :
  valid_hm h m = true -> 0 <= h <= 23 /\ 0 <= m <= 59.
Proof.
  unfold valid_hm. rewrite !andb_true_iff, !Z.leb_le. tauto.
Qed.

(** Parsing what [strftime] wrote gives the date and the time back. *)
Lemma strptime_strftime (d : date) (h m : Z) :
  valid_date d = true -> valid_hm h m = true ->
  strptime (strftime_date d +:+ " " +:+ pad2 h +:+ ":" +:+ pad2 m)
  = Some (mkdatetime d (mktime h m 0 0)).
Proof.
  intros Hd Hhm.
  pose proof (valid_date_bounds d Hd) as (Hy & Hmo & Hday).
  pose proof (days_in_month_bounds (year d) (month d)) as Hdim.
  pose proof (valid_hm_bounds h m Hhm) as (Hh & Hm).
  destruct d as [Y mo dd]; cbn [year month day] in *.
  destruct (four_digits Y) as (y1 & y2 & y3 & y4 & ? & ? & ? & ? & ->); [lia |].
  destruct (two_digits mo) as (m1 & m2 & ? & ? & ->); [lia |].
  destruct (two_digits dd) as (d1 & d2 & ? & ? & ->); [lia |].
  destruct (two_digits h) as (h1 & h2 & ? & ? & ->); [lia |].
  destruct (two_digits m) as (n1 & n2 & ? & ? & ->); [lia |].
  unfold strftime_date; cbn [year month day].
  rewrite pad4_digits, !pad2_digits by assumption.
  cbv [String.append].
  rewrite strptime_digits by assumption.
  cbv zeta. cbn [dt_date]. rewrite Hd.
  replace (1 <=? 10 * m1 + m2) with true by lia.
  replace (10 * m1 + m2 <=? 12) with true by lia.
  replace (1 <=? 10 * d1 + d2) with true by lia.
  replace (10 * d1 + d2 <=? 31) with true by lia.
  replace (10 * h1 + h2 <=? 23) with true by lia.
  replace (10 * n1 + n2 <=? 59) with true by lia.
  reflexivity.
Qed.

Ltac name_digit :=
  match goal with
  | H : is_digit ?c = true |- _ =>
      let a := fresh "a" in
      let Hr := fresh "Hr" in
      let He := fresh "He" in
      apply is_digit_chr in H; destruct H as [Hr He];
      revert Hr He; generalize (digit_val c); intros a Hr He; subst c
  | H : Ascii.eqb _ ?c = true |- _ => apply Ascii.eqb_eq in H; subst c
  end.

(** A string laid out as [YYYY-MM-DD HH:MM] is sixteen characters, the
    digits at their places. *)
Lemma laid_out_digits (s : string) :
  laid_out layout_Ymd_HM s = true ->
  exists y1 y2 y3 y4 m1 m2 d1 d2 h1 h2 n1 n2,
    (0 <= y1 <= 9 /\ 0 <= y2 <= 9 /\ 0 <= y3 <= 9 /\ 0 <= y4 <= 9)
    /\ (0 <= m1 <= 9 /\ 0 <= m2 <= 9 /\ 0 <= d1 <= 9 /\ 0 <= d2 <= 9)
    /\ (0 <= h1 <= 9 /\ 0 <= h2 <= 9 /\ 0 <= n1 <= 9 /\ 0 <= n2 <= 9)
    /\ s = String (dc y1) (String (dc y2) (String (dc y3) (String (dc y4) (String "-"
           (String (dc m1) (String (dc m2) (String "-"
           (String (dc d1) (String (dc d2) (String " "
           (String (dc h1) (String (dc h2) (String ":"
           (String (dc n1) (String (dc n2) EmptyString))))))))))))))).
Proof.
  unfold layout_Ymd_HM. intros Hl.
  do 16 (destruct s as [| ? s]; [discriminate Hl |];
         cbn [laid_out] in Hl; apply andb_true_iff in Hl as [? Hl]).
  destruct s; [clear Hl | discriminate Hl].
  repeat name_digit.
  do 12 eexists. repeat split; lia.
Qed.

(** Writing back what [strptime] read from a string laid out as
    [YYYY-MM-DD HH:MM] gives the string back. *)
Lemma strftime_strptime (s : string) (dt : datetime) :
  laid_out layout_Ymd_HM s = true ->
  strptime s = Some dt ->
  strftime dt = s.
Proof.
  intros Hl Hp.
  destruct (laid_out_digits s Hl)
    as (y1 & y2 & y3 & y4 & m1 & m2 & d1 & d2 & h1 & h2 & n1 & n2
        & (? & ? & ? & ?) & (? & ? & ? & ?) & (? & ? & ? & ?) & ->).
  rewrite strptime_digits in Hp by assumption. cbv zeta in Hp.
  match type of Hp with (if ?c then _ else _) = _ => destruct c end;
    [| discriminate Hp].
  injection Hp as <-.
  unfold strftime, strftime_date; cbn [dt_date dt_time year month day hour minute].
  rewrite pad4_digits, !pad2_digits by assumption.
  reflexivity.
Qed.

End PyDatetimeFacts.

(** ** The order of datetimes and the stable sort *)

Section Sorting.
Import PyDatetime PyValue.

Lemma lex_ltb_irrefl (a : list Z) : lex_ltb a a = false.
Proof.
  induction a as [| x a IH]; [reflexivity |].
  cbn [lex_ltb]. rewrite IH, Z.ltb_irrefl, Z.eqb_refl. reflexivity.
Qed.

(** [<=], read as "not greater", is transitive: the order is total. *)
Lemma lex_leb_trans (a : list Z) :
  forall b c, lex_ltb b a = false -> lex_ltb c b = false -> lex_ltb c a = false.
Proof.
  induction a as [| x a IH]; intros [| y b] [| z c]; cbn [lex_ltb];
    try reflexivity; try discriminate.
  rewrite !orb_false_iff, !andb_false_iff, !Z.ltb_ge, !Z.eqb_neq.
  intros [H1 H2] [H3 H4]. split; [lia |].
  destruct (Z.eq_dec z x) as [-> | Hzx]; [right | left; assumption].
  assert (y = x) as -> by lia.
  destruct H2 as [? | H2]; [congruence |].
  destruct H4 as [? | H4]; [congruence |].
  eauto.
Qed.

(** Two keys neither of which is below the other are the same. *)
Lemma lex_ltb_antisym (a : list Z) :
  forall b, length a = length b ->
            lex_ltb a b = false -> lex_ltb b a = false -> a = b.
Proof.
  induction a as [| x a IH]; intros [| y b] Hlen; cbn [lex_ltb];
    try reflexivity; try discriminate.
  rewrite !orb_false_iff, !andb_false_iff, !Z.ltb_ge, !Z.eqb_neq.
  intros [H1 H2] [H3 H4].
  assert (x = y) as -> by lia. f_equal.
  apply IH; [by injection Hlen | |].
  - destruct H2; [congruence | assumption].
  - destruct H4; [congruence | assumption].
Qed.

Lemma datetime_key_inj (d e : datetime) : datetime_key d = datetime_key e -> d = e.
Proof.
  destruct d as [[] []], e as [[] []]. unfold datetime_key, time_key; cbn.
  intros H. by simplify_eq.
Qed.

Lemma datetime_ltb_irrefl (d : datetime) : datetime_ltb d d = false.
Proof. apply lex_ltb_irrefl. Qed.

Lemma datetime_leb_trans (a b c : datetime) :
  datetime_leb a b = true -> datetime_leb b c = true -> datetime_leb a c = true.
Proof.
  unfold datetime_leb, datetime_ltb. rewrite !negb_true_iff.
  intros H1 H2. eapply lex_leb_trans; eassumption.
Qed.

Lemma datetime_leb_antisym (a b : datetime) :
  datetime_leb a b = true -> datetime_leb b a = true -> a = b.
Proof.
  unfold datetime_leb, datetime_ltb. rewrite !negb_true_iff.
  intros H1 H2. apply datetime_key_inj, lex_ltb_antisym; [reflexivity | | ]; assumption.
Qed.

Lemma insert_by_key_perm (x : datetime * record) (l : list (datetime * record)) :
  Permutation (insert_by_key x l) (x :: l).
Proof.
  induction l as [| y l IH]; cbn [insert_by_key]; [reflexivity |].
  destruct (datetime_ltb (fst y) (fst x)); [| reflexivity].
  rewrite IH. apply perm_swap.
Qed.

Lemma sort_by_key_perm (l : list (datetime * record)) :
  Permutation (sort_by_key l) l.
Proof.
  induction l as [| x l IH]; [reflexivity |].
  cbn [sort_by_key foldr]. fold (sort_by_key l).
  rewrite insert_by_key_perm. by constructor.
Qed.

Lemma insert_by_key_sorted (x : datetime * record) (l : list (datetime * record)) :
  StronglySorted key_le l -> StronglySorted key_le (insert_by_key x l).
Proof.
  induction 1 as [| y l Hs IH Hall]; cbn [insert_by_key].
  - repeat constructor.
  - destruct (datetime_ltb (fst y) (fst x)) eqn:Hlt.
    + constructor; [assumption |].
      rewrite insert_by_key_perm. constructor; [| assumption].
      unfold key_le, datetime_leb. unfold datetime_ltb in *.
      apply negb_true_iff.
      destruct (lex_ltb (datetime_key (fst x)) (datetime_key (fst y))) eqn:Hxy;
        [| reflexivity].
      exfalso. clear -Hlt Hxy.
      assert (H := lex_ltb_irrefl (datetime_key (fst y))).
      revert Hlt Hxy H. generalize (datetime_key (fst x)) (datetime_key (fst y)).
      intros a; induction a as [| u a IHa]; intros [| v b]; cbn [lex_ltb];
        try discriminate.
      rewrite !orb_true_iff, !andb_true_iff, !Z.ltb_lt, !Z.eqb_eq.
      intros [? | [? Hb]] [? | [? Ha]] _; try lia.
      eapply IHa; [exact Hb | exact Ha | apply lex_ltb_irrefl].
    + assert (Hxy : key_le x y) by (unfold key_le, datetime_leb; by rewrite Hlt).
      constructor; [by constructor |].
      constructor; [assumption |].
      eapply Forall_impl; [exact Hall |].
      intros z Hz. unfold key_le in *. eapply datetime_leb_trans; eassumption.
Qed.

Lemma sort_by_key_sorted (l : list (datetime * record)) :
  StronglySorted key_le (sort_by_key l).
Proof.
  induction l as [| x l IH]; [constructor |].
  cbn [sort_by_key foldr]. by apply insert_by_key_sorted.
Qed.

(** Stability: the elements of any one key keep their order. *)
Lemma insert_by_key_stable (k : datetime) (x : datetime * record)
    (l : list (datetime * record)) :
  filter (fun p => fst p = k) (insert_by_key x l)
  = filter (fun p => fst p = k) (x :: l).
Proof.
  induction l as [| y l IH]; cbn [insert_by_key]; [reflexivity |].
  destruct (datetime_ltb (fst y) (fst x)) eqn:Hlt; [| reflexivity].
  rewrite (filter_cons _ y), IH, !filter_cons.
  destruct (decide (fst y = k)) as [Hy | Hy]; [| reflexivity].
  destruct (decide (fst x = k)) as [Hx | Hx]; [| reflexivity].
  rewrite Hy, Hx, datetime_ltb_irrefl in Hlt. discriminate.
Qed.

Lemma sort_by_key_stable (k : datetime) (l : list (datetime * record)) :
  filter (fun p => fst p = k) (sort_by_key l) = filter (fun p => fst p = k) l.
Proof.
  induction l as [| x l IH]; [reflexivity |].
  cbn [sort_by_key foldr]. fold (sort_by_key l).
  rewrite insert_by_key_stable, !filter_cons, IH. reflexivity.
Qed.

End Sorting.

(** ** The bot *)

Section Properties.

Variable py_repr : value -> string.
Variable py_eq : value -> value -> bool.
Variable IS_GITHUB_AVAILABLE : bool.

Ltac run_M :=
  cbv [mbind M_bind bind mret M_ret ret lift get modify add_log raise].

(** *** The merge of the catalog with the remote observations *)

Lemma merge_loop_spec (remote : gmap string value) (cfg : list value) :
  forallb (definition_ok remote) cfg = true ->
  forall acc, exists live,
    merge_loop (VDict remote) cfg acc = Return (acc ++ live)%list
    /\ Forall2 (spec_merged remote) (floating_definitions cfg) live.
Proof.
  induction cfg as [| e cfg IH]; intros Hok acc.
  - exists []. rewrite app_nil_r. split; [reflexivity | constructor].
  - cbn [forallb] in Hok. apply andb_true_iff in Hok as [He Hok].
    specialize (IH Hok).
    destruct e as [| | | | | | m |]; try discriminate He.
    cbn [definition_ok] in He.
    cbn [merge_loop floating_definitions flat_map].
    unfold merge_timer. cbn [py_getitem].
    destruct (m !! "type") as [ty |] eqn:Hty; [| discriminate He].
    cbn [mbind outcome_bind]. change (default VNone (Some ty)) with ty.
    destruct (eq_str ty "floating") eqn:Hfl; cbn [app mbind outcome_bind].
    + destruct (m !! "id") as [id |] eqn:Hid; [| discriminate He].
      cbn [mbind outcome_bind].
      assert (Hstep : exists info,
                 remote_get (VDict remote) id = Return (VDict info)
                 /\ spec_merged remote m (info ∪ m)).
      { unfold remote_get, spec_merged, observation_of. rewrite Hid.
        destruct id as [| | | | k | | |]; cbn [dict_get_value mbind outcome_bind];
          try discriminate He;
          try (exists ∅; split; [reflexivity | by rewrite (left_id_L ∅ (∪))]).
        destruct (remote !! k) as [obs |] eqn:Hobs.
        - destruct obs as [| | | | | | o |]; try discriminate He.
          exists o. split; [reflexivity |].
          intros key. rewrite lookup_union.
          destruct (o !! key), (m !! key); reflexivity.
        - exists ∅. split; [reflexivity | by rewrite (left_id_L ∅ (∪))]. }
      destruct Hstep as (info & -> & Hm).
      cbn [mbind outcome_bind].
      destruct (IH (acc ++ [info ∪ m])%list) as (live & -> & Hlive).
      exists ((info ∪ m) :: live). split.
      * by rewrite <- app_assoc.
      * cbn [app]. by constructor.
    + destruct (IH acc) as (live & -> & Hlive).
      exists live. split; [reflexivity | exact Hlive].
Qed.

(** C6. Given a catalog of well-formed definitions and a remote map,
    [update_timers_data_from_remote] returns without raising, and the
    floating timers it stores are, in catalog order, one record per
    floating definition: the definition overlaid with the observation found
    under its id (the observation winning on each of its keys), or the
    definition alone when the remote map has no such id. Definitions of
    another type give no record. *)
Theorem update_timers_merges_floating_definitions
    (b : CloudBot) (cfg : list value) (remote : gmap string value) :
  timers_config b = VList cfg ->
  forallb (definition_ok remote) cfg = true ->
  exists b',
    update_timers_data_from_remote (VDict remote) b = (Return tt, b')
    /\ Forall2 (spec_merged remote) (floating_definitions cfg)
         (floating_timers_data b')
    /\ (forall definition,
          definition ∈ floating_definitions cfg ->
          observation_of remote definition = None ->
          definition ∈ floating_timers_data b').
Proof.
  intros Hcfg Hok.
  destruct (merge_loop_spec remote cfg Hok []) as (live & Hloop & Hlive).
  unfold update_timers_data_from_remote. run_M.
  rewrite Hcfg. cbn [py_iter]. rewrite Hloop. cbn [app].
  eexists. split; [reflexivity |]. cbn [floating_timers_data with_log
    with_floating_timers_data]. split; [exact Hlive |].
  intros d Hd Hobs.
  apply list_elem_of_lookup in Hd as [i Hi].
  destruct (Forall2_lookup_l _ _ _ _ _ Hlive Hi) as (r & Hr & Hm).
  unfold spec_merged in Hm. rewrite Hobs in Hm. subst r.
  apply list_elem_of_lookup. eauto.
Qed.

(** *** The events payload *)

(** C10. A remote events payload that is not a dict leaves the bot as it
    is, [custom_events] included; a dict that differs from the current
    [custom_events] (Python's [!=]) becomes the new [custom_events]. *)
Theorem update_events_frame (b : CloudBot) (remote_data : value) :
  (is_dict remote_data = false ->
   update_events_data_from_remote py_eq remote_data b = (Return tt, b))
  /\ (is_dict remote_data = true ->
      py_eq (custom_events b) remote_data = false ->
      exists b',
        update_events_data_from_remote py_eq remote_data b = (Return tt, b')
        /\ custom_events b' = remote_data).
Proof.
  unfold update_events_data_from_remote. run_M. split.
  - intros ->. reflexivity.
  - intros -> ->. cbn [andb negb]. eexists. split; reflexivity.
Qed.

(** *** What a method leaves alone *)

Lemma preserves_bind {A B F} (f : CloudBot -> F) (m : M A) (k : A -> M B) :
  preserves f m -> (forall a, preserves f (k a)) -> preserves f (m ≫= k).
Proof.
  intros Hm Hk b. unfold mbind, M_bind, bind.
  specialize (Hm b). destruct (m b) as [[a | e] b1]; cbn [snd] in *.
  - rewrite Hk. exact Hm.
  - exact Hm.
Qed.

Lemma preserves_ret {A F} (f : CloudBot -> F) (a : A) : preserves f (mret a).
Proof. intros b. reflexivity. Qed.

Lemma preserves_lift {A F} (f : CloudBot -> F) (o : outcome A) : preserves f (lift o).
Proof. intros b. reflexivity. Qed.

Lemma preserves_get {A F} (f : CloudBot -> F) (g : CloudBot -> A) : preserves f (get g).
Proof. intros b. reflexivity. Qed.

Lemma preserves_modify {F} (f : CloudBot -> F) (g : CloudBot -> CloudBot) :
  (forall b, f (g b) = f b) -> preserves f (modify g).
Proof. intros H b. apply H. Qed.

Ltac preserve_step :=
  match goal with
  | |- preserves _ (_ ≫= _) => apply preserves_bind; [| intros ?]
  | |- preserves _ (mret _) => apply preserves_ret
  | |- preserves _ (lift _) => apply preserves_lift
  | |- preserves _ (get _) => apply preserves_get
  | |- preserves _ (add_log _) => apply preserves_modify; intros ?; reflexivity
  | |- preserves _ (modify _) => apply preserves_modify; intros ?; reflexivity
  | |- preserves _ (if ?c then _ else _) => destruct c
  | |- preserves _ (match ?x with _ => _ end) => destruct x
  | |- preserves _ (let '(_, _) := ?x in _) => destruct x
  end.

Ltac preserve := repeat preserve_step.

Lemma connect_to_github_settings (r : github_response) :
  preserves settings (connect_to_github IS_GITHUB_AVAILABLE r).
Proof. unfold connect_to_github. preserve. Qed.

Lemma _get_repo_settings (r : github_response) :
  preserves settings (_get_repo IS_GITHUB_AVAILABLE r).
Proof. unfold _get_repo. preserve. apply connect_to_github_settings. Qed.

Lemma fetch_attempt_settings (r : github_response) (p : value) :
  preserves settings (fetch_attempt IS_GITHUB_AVAILABLE r p).
Proof. unfold fetch_attempt. preserve. apply _get_repo_settings. Qed.

Lemma fetch_from_github_settings (r : github_response) (p d : value) :
  preserves settings (fetch_from_github IS_GITHUB_AVAILABLE r p d).
Proof.
  intros b. unfold fetch_from_github.
  pose proof (fetch_attempt_settings r p b) as H.
  destruct (fetch_attempt IS_GITHUB_AVAILABLE r p b) as [[[v |] | e] b1];
    cbn [snd] in *; try exact H.
  destruct e; exact H.
Qed.

Lemma update_timers_settings (remote_data : value) :
  preserves settings (update_timers_data_from_remote remote_data).
Proof. unfold update_timers_data_from_remote. preserve. Qed.

Lemma update_events_settings (remote_data : value) :
  preserves settings (update_events_data_from_remote py_eq remote_data).
Proof. unfold update_events_data_from_remote. preserve. Qed.

Lemma load_game_profile_settings (file : option value) :
  preserves settings (load_game_profile file).
Proof. unfold load_game_profile. preserve. Qed.

(** *** Reloading the settings *)

(** [fetch_from_github] never raises: it returns what was fetched, or the
    default when the attempt did not produce a value. *)
Lemma fetch_from_github_returns (r : github_response) (p d : value) (b : CloudBot) :
  exists b',
    fetch_from_github IS_GITHUB_AVAILABLE r p d b
    = (Return (match fst (fetch_attempt IS_GITHUB_AVAILABLE r p b) with
               | Return (Some v) => v
               | _ => d
               end), b').
Proof.
  unfold fetch_from_github.
  destruct (fetch_attempt IS_GITHUB_AVAILABLE r p b) as [[[v |] | e] b1];
    cbn [fst]; try (eexists; reflexivity).
  destruct e; eexists; reflexivity.
Qed.

Lemma log_blind_bind {A B} (m : M A) (k : A -> M B) :
  log_blind m -> (forall a, log_blind (k a)) -> log_blind (m ≫= k).
Proof.
  intros Hm Hk b1 b2 Hb. unfold mbind, M_bind, bind.
  destruct (Hm b1 b2 Hb) as [Ho Hs].
  destruct (m b1) as [[a | e] b1'], (m b2) as [[a' | e'] b2'];
    cbn [fst snd] in *; try discriminate Ho.
  - injection Ho as <-. by apply Hk.
  - injection Ho as <-. by split.
Qed.

Lemma log_blind_ret {A} (a : A) : log_blind (mret a).
Proof. intros b1 b2 Hb. by split. Qed.

Lemma log_blind_lift {A} (o : outcome A) : log_blind (lift o).
Proof. intros b1 b2 Hb. by split. Qed.

Lemma log_blind_get {A} (f : CloudBot -> A) :
  (forall l b, f (with_log l b) = f b) -> log_blind (get f).
Proof.
  intros Hf b1 b2 Hb. split; [| exact Hb]. cbn.
  rewrite <- (Hf [] b1), <- (Hf [] b2). unfold same_but_log in Hb. by rewrite Hb.
Qed.

Lemma log_blind_add_log (msg : log_message) : log_blind (add_log msg).
Proof. intros b1 b2 Hb. split; [reflexivity | exact Hb]. Qed.

Lemma log_blind_modify (g : CloudBot -> CloudBot) :
  (forall b, with_log [] (g b) = g (with_log [] b)) -> log_blind (modify g).
Proof.
  intros Hg b1 b2 Hb. split; [reflexivity |]. cbn. unfold same_but_log in *.
  by rewrite !Hg, Hb.
Qed.

Ltac log_blind_step :=
  match goal with
  | |- log_blind (_ ≫= _) => apply log_blind_bind; [| intros ?]
  | |- log_blind (mret _) => apply log_blind_ret
  | |- log_blind (lift _) => apply log_blind_lift
  | |- log_blind (get _) => apply log_blind_get; intros ? ?; reflexivity
  | |- log_blind (add_log _) => apply log_blind_add_log
  | |- log_blind (modify _) => apply log_blind_modify; intros ?; reflexivity
  | |- log_blind (if ?c then _ else _) => destruct c
  | |- log_blind (match ?x with _ => _ end) => destruct x
  end.

(** The attempt reads the settings and the client, not the log. *)
Lemma fetch_attempt_log_blind (r : github_response) (p : value) :
  log_blind (fetch_attempt IS_GITHUB_AVAILABLE r p).
Proof.
  unfold fetch_attempt, _get_repo, connect_to_github. repeat log_blind_step.
Qed.

Lemma fetch_attempt_log (r : github_response) (p : value) (l : list log_message)
    (b : CloudBot) :
  fst (fetch_attempt IS_GITHUB_AVAILABLE r p (with_log l b))
  = fst (fetch_attempt IS_GITHUB_AVAILABLE r p b).
Proof. by apply fetch_attempt_log_blind. Qed.

Lemma after_settings_assignment {A} (v : value) (rest : M A) (b : CloudBot) :
  preserves settings rest ->
  settings (snd ((modify (with_settings v);; rest) b)) = v.
Proof. intros H. run_M. rewrite H. reflexivity. Qed.

(** The settings after a sync: the fetched value, or [{}]. *)
Lemma load_all_data_from_cloud_settings (i : sync_input) (b : CloudBot) :
  settings (snd (load_all_data_from_cloud py_eq IS_GITHUB_AVAILABLE i b))
  = match fst (fetch_attempt IS_GITHUB_AVAILABLE (in_settings i)
                 (VStr "settings.json") b) with
    | Return (Some v) => v
    | _ => VDict ∅
    end.
Proof.
  unfold load_all_data_from_cloud.
  rewrite <- (fetch_attempt_log _ _ (add_log_entries LogSyncStart (log_entries b)) b).
  destruct (fetch_from_github_returns (in_settings i) (VStr "settings.json") (VDict ∅)
              (with_log (add_log_entries LogSyncStart (log_entries b)) b))
    as [b1 Hf].
  set (v := match fst (fetch_attempt _ _ _ _) with Return (Some x) => x | _ => VDict ∅ end) in *.
  unfold mbind at 1 2. unfold M_bind, bind at 1 2. unfold add_log at 1, modify at 1.
  rewrite Hf.
  apply after_settings_assignment.
  preserve;
    auto using load_game_profile_settings, fetch_from_github_settings,
      update_timers_settings, update_events_settings.
Qed.

(** C5, as the code has it. When the reload of the settings fails (the
    attempt returns no value), the sync leaves the settings equal to the
    empty dict [{}], whatever they were before. *)
Theorem failed_reload_clears_settings (i : sync_input) (b : CloudBot) :
  (forall v, fst (fetch_attempt IS_GITHUB_AVAILABLE (in_settings i)
                    (VStr "settings.json") b) <> Return (Some v)) ->
  settings (snd (load_all_data_from_cloud py_eq IS_GITHUB_AVAILABLE i b)) = VDict ∅.
Proof.
  intros Hfail. rewrite load_all_data_from_cloud_settings.
  destruct (fst (fetch_attempt _ _ _ b)) as [[v |] | e]; try reflexivity.
  exfalso. by apply (Hfail v).
Qed.

(** *** The two loops of [refresh_timers] *)

(** What one floating record adds to [confirmed] and [unconfirmed]. *)
Lemma floating_step_acc (acc : list record * list record) (t : record) :
  floating_step py_repr acc t
  = (r ← floating_step py_repr ([], []) t;
     Return (acc.1 ++ r.1, acc.2 ++ r.2)%list).
Proof.
  unfold floating_step.
  destruct (negb _ && _); [| cbn; by rewrite app_nil_r].
  destruct (with_spawn_dt py_repr t) as [[c |] | e]; cbn; try reflexivity;
    by rewrite app_nil_r.
Qed.

Lemma fixed_step_acc (acc : list record * list record) (t : record) :
  fixed_step py_repr acc t
  = (r ← fixed_step py_repr ([], []) t;
     Return (acc.1 ++ r.1, acc.2 ++ r.2)%list).
Proof.
  unfold fixed_step.
  destruct (with_spawn_dt py_repr t) as [[c |] | e]; cbn; try reflexivity;
    by rewrite app_nil_r.
Qed.

(** A loop whose turns only append can be run from empty lists. *)
Lemma for_each_acc (step : list record * list record -> record
                           -> outcome (list record * list record)) :
  (forall acc t, step acc t
                 = (r ← step ([], []) t; Return (acc.1 ++ r.1, acc.2 ++ r.2)%list)) ->
  forall l acc,
    for_each step l acc
    = (r ← for_each step l ([], []); Return (acc.1 ++ r.1, acc.2 ++ r.2)%list).
Proof.
  intros Hstep l. induction l as [| t l IH]; intros [c u].
  - cbn. by rewrite !app_nil_r.
  - cbn [for_each]. rewrite Hstep.
    destruct (step ([], []) t) as [[c1 u1] | e]; cbn [mbind outcome_bind fst snd];
      [| reflexivity].
    rewrite IH. rewrite (IH (c1, u1)).
    destruct (for_each step l ([], [])) as [[c2 u2] | e];
      cbn [mbind outcome_bind fst snd]; [| reflexivity].
    by rewrite !app_assoc.
Qed.

Lemma for_each_app {A B} (step : B -> A -> outcome B) (l1 l2 : list A) (acc : B) :
  for_each step (l1 ++ l2) acc = (acc' ← for_each step l1 acc; for_each step l2 acc').
Proof.
  revert acc. induction l1 as [| x l1 IH]; intros acc; [reflexivity |].
  cbn [for_each app]. destruct (step acc x); cbn [mbind outcome_bind]; [apply IH | reflexivity].
Qed.

(** Every entry the loops confirm carries a datetime under ["spawn_dt"]. *)
Lemma with_spawn_dt_key (t c : record) :
  with_spawn_dt py_repr t = Return (Some c) ->
  exists dt, spawn_dt c = Return dt.
Proof.
  unfold with_spawn_dt, record_getitem. cbn [py_getitem].
  destruct (t !! "date"); [| discriminate].
  destruct (t !! "time"); [| discriminate].
  cbn [mbind outcome_bind].
  destruct (strptime _) as [dt |]; [| discriminate].
  cbn. intros [= <-]. exists dt. unfold spawn_dt. by rewrite lookup_insert_eq.
Qed.

Lemma floating_step_keyed (c u c' u' : list record) (t : record) :
  Forall keyed c ->
  floating_step py_repr (c, u) t = Return (c', u') -> Forall keyed c'.
Proof.
  intros Hc. unfold floating_step.
  destruct (negb _ && _); [| by intros [= <- <-]].
  destruct (with_spawn_dt py_repr t) as [[x |] | e] eqn:Hw; cbn; try discriminate.
  - intros [= <- <-]. apply Forall_app. split; [exact Hc |].
    repeat constructor. eapply with_spawn_dt_key, Hw.
  - by intros [= <- <-].
Qed.

Lemma fixed_step_keyed (c u c' u' : list record) (t : record) :
  Forall keyed c ->
  fixed_step py_repr (c, u) t = Return (c', u') -> Forall keyed c'.
Proof.
  intros Hc. unfold fixed_step.
  destruct (with_spawn_dt py_repr t) as [[x |] | e] eqn:Hw; cbn; try discriminate.
  - intros [= <- <-]. apply Forall_app. split; [exact Hc |].
    repeat constructor. eapply with_spawn_dt_key, Hw.
  - by intros [= <- <-].
Qed.

Lemma for_each_keyed (step : list record * list record -> record
                             -> outcome (list record * list record)) :
  (forall c u c' u' t, Forall keyed c -> step (c, u) t = Return (c', u') -> Forall keyed c') ->
  forall l c u c' u',
    Forall keyed c -> for_each step l (c, u) = Return (c', u') -> Forall keyed c'.
Proof.
  intros Hstep l. induction l as [| t l IH]; intros c u c' u' Hc.
  - by intros [= <- <-].
  - cbn [for_each]. destruct (step (c, u) t) as [[c1 u1] |] eqn:Hs; [| discriminate].
    cbn [mbind outcome_bind]. apply IH. eapply Hstep; eassumption.
Qed.

(** *** [sorted(confirmed, key=lambda x: x["spawn_dt"])] *)

Lemma decorate_keyed (l : list record) :
  Forall keyed l ->
  exists dl, decorate l = Return dl /\ snd <$> dl = l /\ Forall key_ok dl.
Proof.
  induction 1 as [| x l [dt Hx] _ (dl & Hd & Hl & Hk)].
  - exists []. repeat split; constructor.
  - exists ((dt, x) :: dl). cbn [decorate]. rewrite Hx, Hd. cbn.
    repeat split; [by rewrite Hl | by constructor].
Qed.

Lemma filter_by_key (d : datetime) (dl : list (datetime * record)) :
  Forall key_ok dl ->
  filter (fun x => spawn_dt x = Return d) (snd <$> dl)
  = snd <$> filter (fun p => fst p = d) dl.
Proof.
  induction 1 as [| [k x] dl Hx _ IH]; [reflexivity |].
  unfold key_ok in Hx. cbn [fst snd] in Hx.
  rewrite fmap_cons, !filter_cons, IH. cbn [fst snd].
  destruct (decide (spawn_dt x = Return d)) as [H1 | H1],
           (decide (k = d)) as [H2 | H2]; try reflexivity; exfalso.
  - apply H2. congruence.
  - apply H1. congruence.
Qed.

Lemma sorted_fmap_snd (dl : list (datetime * record)) :
  Forall key_ok dl -> StronglySorted key_le dl -> StronglySorted spawn_le (snd <$> dl).
Proof.
  intros Hk Hs. induction Hs as [| p dl Hs IH Hall]; [constructor |].
  apply Forall_cons in Hk as [Hp Hk].
  rewrite fmap_cons. constructor; [by apply IH |].
  apply Forall_fmap. rewrite Forall_forall in Hall, Hk |- *.
  intros q Hq. exists (fst p), (fst q).
  repeat split; [exact Hp | by apply Hk | by apply Hall].
Qed.

Lemma sorted_by_spawn_dt_spec (l : list record) :
  Forall keyed l ->
  exists agenda,
    sorted_by_spawn_dt l = Return agenda
    /\ Permutation agenda l
    /\ StronglySorted spawn_le agenda
    /\ forall d, filter (fun x => spawn_dt x = Return d) agenda
                 = filter (fun x => spawn_dt x = Return d) l.
Proof.
  intros Hl. destruct (decorate_keyed l Hl) as (dl & Hd & <- & Hk).
  unfold sorted_by_spawn_dt. rewrite Hd. cbn [mbind outcome_bind].
  assert (Hk' : Forall key_ok (sort_by_key dl))
    by (by rewrite sort_by_key_perm).
  eexists. split; [reflexivity |]. repeat split.
  - by rewrite sort_by_key_perm.
  - apply sorted_fmap_snd; [exact Hk' | apply sort_by_key_sorted].
  - intros d. rewrite !filter_by_key by assumption.
    by rewrite sort_by_key_stable.
Qed.

(** *** [set_fixed_timers_dates] *)

Lemma fixed_only_spec (cfg : list value) :
  forallb is_dict cfg = true ->
  exists fixed_data,
    fixed_only cfg = Return fixed_data
    /\ forall t, t ∈ fixed_data <->
                 VDict t ∈ cfg /\ eq_str (default VNone (t !! "type")) "fixed" = true.
Proof.
  induction cfg as [| e cfg IH]; intros Hd.
  - exists []. split; [reflexivity |]. intros t. split.
    + by intros ?%elem_of_nil.
    + by intros [?%elem_of_nil _].
  - cbn [forallb] in Hd. apply andb_true_iff in Hd as [He Hd].
    destruct e as [| | | | | | m |]; try discriminate He.
    destruct (IH Hd) as (fd & Hfd & Hin). cbn [fixed_only]. rewrite Hfd.
    cbn [mbind outcome_bind]. eexists. split; [reflexivity |].
    intros t. destruct (eq_str (default VNone (m !! "type")) "fixed") eqn:Hty.
    + rewrite elem_of_cons, Hin, elem_of_cons. split.
      * intros [-> | [? ?]]; [by split; [left |] | by split; [right |]].
      * intros [[[= ->] | ?] ?]; [by left | by right].
    + rewrite Hin, elem_of_cons. split.
      * intros [? ?]. by split; [right |].
      * intros [[[= ->] | ?] ?]; [congruence | by split].
Qed.

Lemma fixed_loop_spec (clk : wall_clock) (tomorrow : date) (fixed_data : list record) :
  forall timers b, exists b',
    fixed_loop clk tomorrow fixed_data timers b
    = (Return (timers ++ omap (fixed_timer_try clk tomorrow) fixed_data)%list, b')
    /\ same_but_log b b'.
Proof.
  induction fixed_data as [| t fd IH]; intros timers b.
  - exists b. cbn. by rewrite app_nil_r.
  - cbn [fixed_loop omap list_omap].
    destruct (fixed_timer_try clk tomorrow t) as [r |].
    + destruct (IH (timers ++ [r])%list b) as (b' & -> & Hb).
      exists b'. by rewrite <- app_assoc.
    + run_M.
      destruct (IH timers (with_log (add_log_entries
                  (LogFixedTimerError (default VNone (t !! "name"))) (log_entries b)) b))
        as (b' & -> & Hb).
      exists b'. split; [reflexivity |]. unfold same_but_log in *. by rewrite <- Hb.
Qed.

Lemma set_fixed_timers_dates_spec (clk : wall_clock) (b : CloudBot)
    (cfg : list value) (tomorrow : date) :
  timers_config b = VList cfg ->
  forallb is_dict cfg = true ->
  add_one_day (read_today' clk) = Some tomorrow ->
  exists fixed_data b',
    set_fixed_timers_dates clk b
    = (Return (omap (fixed_timer_try clk tomorrow) fixed_data), b')
    /\ same_but_log b b'
    /\ forall t, t ∈ fixed_data <->
                 VDict t ∈ cfg /\ eq_str (default VNone (t !! "type")) "fixed" = true.
Proof.
  intros Hcfg Hd Htm.
  destruct (fixed_only_spec cfg Hd) as (fd & Hfd & Hin).
  destruct (fixed_loop_spec clk tomorrow fd [] b) as (b' & Hloop & Hb).
  exists fd, b'. unfold set_fixed_timers_dates. run_M.
  rewrite Htm, Hcfg. cbn [py_iter]. rewrite Hfd.
  change (fixed_loop clk tomorrow fd [] b = (Return (omap (fixed_timer_try clk tomorrow) fd), b')
          /\ same_but_log b b'
          /\ (forall t, t ∈ fd <->
                 VDict t ∈ cfg /\ eq_str (default VNone (t !! "type")) "fixed" = true)).
  split; [exact Hloop | split; [exact Hb | exact Hin]].
Qed.

(** *** [refresh_timers] *)

Lemma with_spawn_dt_returns (t : record) :
  is_Some (t !! "date") -> is_Some (t !! "time") ->
  exists r, with_spawn_dt py_repr t = Return r.
Proof.
  intros [d Hd] [tm Htm]. unfold with_spawn_dt, record_getitem. cbn [py_getitem].
  rewrite Hd, Htm. cbn [mbind outcome_bind]. eauto.
Qed.

Lemma for_each_returns {A B} (step : B -> A -> outcome B) (l : list A) :
  (forall acc t, t ∈ l -> exists acc', step acc t = Return acc') ->
  forall acc, exists acc', for_each step l acc = Return acc'.
Proof.
  induction l as [| t l IH]; intros Hstep acc; [by eexists |].
  cbn [for_each].
  destruct (Hstep acc t) as [acc1 ->]; [by left |].
  cbn [mbind outcome_bind]. apply IH. intros acc2 t' Ht'. apply Hstep. by right.
Qed.

Lemma floating_step_returns (acc : list record * list record) (t : record) :
  time_or_no_date t = true ->
  exists acc', floating_step py_repr acc t = Return acc'.
Proof.
  unfold time_or_no_date, floating_step. intros Ht.
  destruct (negb _ && truthy (default VNone (t !! "date"))) eqn:Hg; [| by eexists].
  apply andb_true_iff in Hg as [_ Hdate].
  destruct (with_spawn_dt_returns t) as [r ->].
  - destruct (t !! "date"); [by eexists | discriminate Hdate].
  - destruct (t !! "time"); [by eexists |]. rewrite Hdate in Ht. discriminate Ht.
  - cbn [mbind outcome_bind]. by eexists.
Qed.

Lemma fixed_timer_try_fields (clk : wall_clock) (tomorrow : date) (t r : record) :
  fixed_timer_try clk tomorrow t = Some r ->
  is_Some (r !! "date") /\ is_Some (r !! "time").
Proof.
  unfold fixed_timer_try.
  destruct (t !! "time") as [[| | | | s | | |] |] eqn:Ht; try discriminate.
  destruct (split ":" s) as [| a [| c [| ? ?]]]; try discriminate.
  destruct (int a) as [h |]; [| discriminate].
  destruct (int c) as [m |]; [| discriminate]. cbn.
  destruct (valid_hm h m); [| discriminate].
  intros [= <-]. split.
  - rewrite lookup_insert_eq. by eexists.
  - rewrite lookup_insert_ne by done. rewrite Ht. by eexists.
Qed.

Lemma fixed_step_returns (clk : wall_clock) (tomorrow : date) (fixed_data : list record)
    (acc : list record * list record) (t : record) :
  t ∈ omap (fixed_timer_try clk tomorrow) fixed_data ->
  exists acc', fixed_step py_repr acc t = Return acc'.
Proof.
  intros Ht. apply list_elem_of_omap in Ht as (t0 & _ & Ht0).
  apply fixed_timer_try_fields in Ht0 as [Hd Htm].
  destruct (with_spawn_dt_returns t Hd Htm) as [r Hr].
  unfold fixed_step. rewrite Hr. cbn [mbind outcome_bind]. by eexists.
Qed.

(** [refresh_timers] once the fixed timers have their dates. *)
Lemma refresh_timers_run (clk : wall_clock) (b b1 : CloudBot) (fixed : list record) :
  set_fixed_timers_dates clk b = (Return fixed, b1) ->
  refresh_timers py_repr clk b
  = match (acc ← for_each (floating_step py_repr) (floating_timers_data b1) ([], []);
           acc' ← for_each (fixed_step py_repr) fixed acc;
           sorted_by_spawn_dt acc'.1) with
    | Return agenda =>
        (Return tt, with_sorted_timers_data agenda (with_fixed_timers_with_date fixed b1))
    | Raise e => (Raise e, with_fixed_timers_with_date fixed b1)
    end.
Proof.
  intros Hset. unfold refresh_timers, update_and_predict_timers. run_M.
  rewrite Hset. cbn [floating_timers_data with_fixed_timers_with_date].
  destruct (for_each (floating_step py_repr) _ _) as [acc | e];
    cbn [mbind outcome_bind]; [| reflexivity].
  destruct (for_each (fixed_step py_repr) _ _) as [acc' | e];
    cbn [mbind outcome_bind]; [| reflexivity].
  destruct (sorted_by_spawn_dt _); reflexivity.
Qed.

Lemma same_but_log_floating (b1 b2 : CloudBot) :
  same_but_log b1 b2 -> floating_timers_data b1 = floating_timers_data b2.
Proof. intros H. apply (f_equal floating_timers_data) in H. exact H. Qed.

(** C3. When the catalog is a list of dicts, tomorrow exists and every
    floating record with a date has a time, [refresh_timers] returns and
    the agenda it stores, [sorted_timers_data], is a permutation of the
    list [confirmed] that its two loops build, is in non-decreasing order
    of ["spawn_dt"], and keeps, for each spawn time, the entries of that
    time in the order they have in [confirmed]. *)
Theorem agenda_sorted_stable (clk : wall_clock) (b : CloudBot)
    (cfg : list value) (tomorrow : date) :
  timers_config b = VList cfg ->
  forallb is_dict cfg = true ->
  add_one_day (read_today' clk) = Some tomorrow ->
  forallb time_or_no_date (floating_timers_data b) = true ->
  exists b' confirmed unconfirmed,
    refresh_timers py_repr clk b = (Return tt, b')
    /\ (acc ← for_each (floating_step py_repr) (floating_timers_data b) ([], []);
        for_each (fixed_step py_repr) (fixed_timers_with_date b') acc)
       = Return (confirmed, unconfirmed)
    /\ Permutation (sorted_timers_data b') confirmed
    /\ StronglySorted spawn_le (sorted_timers_data b')
    /\ forall d, filter (fun x => spawn_dt x = Return d) (sorted_timers_data b')
                 = filter (fun x => spawn_dt x = Return d) confirmed.
Proof.
  intros Hcfg Hd Htm Hfl.
  destruct (set_fixed_timers_dates_spec clk b cfg tomorrow Hcfg Hd Htm)
    as (fd & b1 & Hset & Hb1 & _).
  rewrite (refresh_timers_run clk b b1 _ Hset).
  rewrite <- (same_but_log_floating b b1 Hb1).
  destruct (for_each_returns (floating_step py_repr) (floating_timers_data b))
    with (acc := ([], []) : list record * list record) as [[c1 u1] H1].
  { intros acc t Ht. apply floating_step_returns.
    rewrite forallb_forall in Hfl. apply Hfl. by apply list_elem_of_In. }
  destruct (for_each_returns (fixed_step py_repr)
              (omap (fixed_timer_try clk tomorrow) fd))
    with (acc := (c1, u1)) as [[c2 u2] H2].
  { intros acc t Ht. by eapply fixed_step_returns. }
  rewrite H1. cbn [mbind outcome_bind]. rewrite H2. cbn [mbind outcome_bind fst].
  assert (Hk1 : Forall keyed c1).
  { eapply (for_each_keyed _ floating_step_keyed); [| exact H1]. constructor. }
  assert (Hk2 : Forall keyed c2).
  { eapply (for_each_keyed _ fixed_step_keyed); [| exact H2]. exact Hk1. }
  destruct (sorted_by_spawn_dt_spec c2 Hk2) as (agenda & -> & Hperm & Hsorted & Hstable).
  exists (with_sorted_timers_data agenda
            (with_fixed_timers_with_date (omap (fixed_timer_try clk tomorrow) fd) b1)),
    c2, u2.
  cbn [sorted_timers_data fixed_timers_with_date with_sorted_timers_data
       with_fixed_timers_with_date].
  rewrite H2. by repeat split.
Qed.

(** *** Fixed timers: today or tomorrow *)

Lemma add_one_day_valid (d d' : date) :
  valid_date d = true -> add_one_day d = Some d' -> valid_date d' = true.
Proof.
  intros Hd. apply PyDatetimeFacts.valid_date_bounds in Hd as (Hy & Hm & Hday).
  unfold add_one_day.
  destruct (day d <? days_in_month (year d) (month d)) eqn:H1.
  - intros [= <-]. unfold valid_date; cbn. apply Z.ltb_lt in H1.
    rewrite !andb_true_iff, !Z.leb_le. lia.
  - destruct (month d <? 12) eqn:H2.
    + intros [= <-]. unfold valid_date; cbn. apply Z.ltb_lt in H2.
      pose proof (PyDatetimeFacts.days_in_month_bounds (year d) (month d + 1)).
      rewrite !andb_true_iff, !Z.leb_le. lia.
    + destruct (year d <? 9999) eqn:H3; [| discriminate].
      intros [= <-]. unfold valid_date; cbn. apply Z.ltb_lt in H3.
      rewrite !andb_true_iff, !Z.leb_le. lia.
Qed.

Lemma fixed_timer_try_padded (clk : wall_clock) (tomorrow : date) (timer : record)
    (h m : Z) :
  valid_hm h m = true ->
  timer !! "time" = Some (VStr (pad2 h +:+ ":" +:+ pad2 m)) ->
  fixed_timer_try clk tomorrow timer
  = Some (<["date" := VStr (strftime_date
                              (if time_gtb (dt_time (read_now clk)) (mktime h m 0 0)
                               then tomorrow else read_today clk))]> timer).
Proof.
  intros Hhm Ht. pose proof (PyDatetimeFacts.valid_hm_bounds h m Hhm) as [Hh Hm].
  unfold fixed_timer_try. rewrite Ht.
  rewrite PyStrFacts.split_pad2 by lia.
  rewrite !PyStrFacts.int_pad2 by lia. cbn [mbind option_bind].
  by rewrite Hhm.
Qed.

Lemma fixed_step_confirms (acc : list record * list record) (t p : record) :
  with_spawn_dt py_repr t = Return (Some p) ->
  fixed_step py_repr acc t = Return (acc.1 ++ [p], acc.2)%list.
Proof. intros Hp. unfold fixed_step. by rewrite Hp. Qed.

Lemma for_each_fixed_step_confirms (l : list record) (t p : record) :
  t ∈ l -> with_spawn_dt py_repr t = Return (Some p) ->
  forall acc c u, for_each (fixed_step py_repr) l acc = Return (c, u) -> p ∈ c.
Proof.
  intros Ht Hp acc c u Hl.
  apply list_elem_of_split in Ht as (l1 & l2 & ->).
  rewrite for_each_app in Hl.
  destruct (for_each (fixed_step py_repr) l1 acc) as [[c1 u1] |]; [| discriminate].
  cbn [mbind outcome_bind for_each] in Hl.
  rewrite (fixed_step_confirms _ t p Hp) in Hl. cbn [mbind outcome_bind fst snd] in Hl.
  rewrite (for_each_acc _ fixed_step_acc) in Hl.
  destruct (for_each (fixed_step py_repr) l2 ([], [])) as [[c2 u2] |]; [| discriminate].
  cbn in Hl. injection Hl as <- <-. set_solver.
Qed.

(** C1. Let a fixed timer of the catalog have as time the string [HH:MM]
    of a valid time of day. Then [set_fixed_timers_dates] returns, and its
    result holds the timer with a ["date"] that is [tomorrow] (one day
    after the second [date.today()]) when the time of day of [now] is
    strictly after [HH:MM], and [today] otherwise; the timestamp that
    [refresh_timers] puts under ["spawn_dt"] for it is that date at
    [HH:MM], and the agenda of a [refresh_timers] that returns holds that
    entry. *)
Theorem fixed_timer_anchor (clk : wall_clock) (b : CloudBot) (cfg : list value)
    (tomorrow : date) (timer : record) (h m : Z) :
  timers_config b = VList cfg ->
  forallb is_dict cfg = true ->
  valid_date (read_today clk) = true ->
  valid_date (read_today' clk) = true ->
  add_one_day (read_today' clk) = Some tomorrow ->
  VDict timer ∈ cfg ->
  timer !! "type" = Some (VStr "fixed") ->
  valid_hm h m = true ->
  timer !! "time" = Some (VStr (pad2 h +:+ ":" +:+ pad2 m)) ->
  let anchor := if time_gtb (dt_time (read_now clk)) (mktime h m 0 0)
                then tomorrow else read_today clk in
  let dated := <["date" := VStr (strftime_date anchor)]> timer in
  let prediction :=
    <["spawn_dt" := VDatetime (mkdatetime anchor (mktime h m 0 0))]> dated in
  exists timers b1,
    set_fixed_timers_dates clk b = (Return timers, b1)
    /\ dated ∈ timers
    /\ with_spawn_dt py_repr dated = Return (Some prediction)
    /\ forall b', refresh_timers py_repr clk b = (Return tt, b') ->
                  prediction ∈ sorted_timers_data b'.
Proof.
  intros Hcfg Hd Htoday Htoday' Htm Hin Hty Hhm Htime anchor dated prediction.
  destruct (set_fixed_timers_dates_spec clk b cfg tomorrow Hcfg Hd Htm)
    as (fd & b1 & Hset & Hb1 & Hfd).
  assert (Hanchor : valid_date anchor = true).
  { subst anchor. destruct (time_gtb _ _); [| exact Htoday].
    eapply add_one_day_valid; eassumption. }
  assert (Hdated : dated ∈ omap (fixed_timer_try clk tomorrow) fd).
  { apply list_elem_of_omap. exists timer. split.
    - apply Hfd. split; [exact Hin |]. by rewrite Hty.
    - by apply fixed_timer_try_padded. }
  assert (Hpred : with_spawn_dt py_repr dated = Return (Some prediction)).
  { unfold with_spawn_dt, record_getitem. cbn [py_getitem]. subst dated.
    rewrite lookup_insert_eq, lookup_insert_ne by done. rewrite Htime.
    cbn [mbind outcome_bind py_format].
    rewrite (PyDatetimeFacts.strptime_strftime anchor h m Hanchor Hhm).
    reflexivity. }
  exists (omap (fixed_timer_try clk tomorrow) fd), b1.
  repeat split; try assumption.
  intros b'. rewrite (refresh_timers_run clk b b1 _ Hset).
  destruct (for_each (floating_step py_repr) _ _) as [acc |];
    cbn [mbind outcome_bind]; [| discriminate].
  destruct (for_each (fixed_step py_repr) _ acc) as [[c u] |] eqn:Hfx;
    cbn [mbind outcome_bind fst]; [| discriminate].
  destruct (sorted_by_spawn_dt c) as [agenda |] eqn:Hs; [| discriminate].
  intros [= <-]. cbn [sorted_timers_data with_sorted_timers_data].
  assert (Hc : prediction ∈ c)
    by (eapply for_each_fixed_step_confirms; eassumption).
  unfold sorted_by_spawn_dt in Hs.
  destruct (decorate c) as [dl |] eqn:Hdl; [| discriminate].
  cbn in Hs. injection Hs as <-.
  assert (Hsnd : snd <$> dl = c).
  { clear -Hdl. revert dl Hdl. induction c as [| x c IH]; intros dl; cbn [decorate].
    - by intros [= <-].
    - destruct (spawn_dt x); [| discriminate]. cbn [mbind outcome_bind].
      destruct (decorate c); [| discriminate]. cbn. intros [= <-].
      cbn. f_equal. by apply IH. }
  rewrite <- Hsnd in Hc. by rewrite sort_by_key_perm.
Qed.

(** *** Floating records: the parsed timestamp *)

Lemma blank_not_digit (a : Z) : 0 <= a <= 9 -> " "%char <> PyStr.digit_chr a.
Proof. intros H. PyStrFacts.digit_cases a; discriminate. Qed.

Lemma String_inj (a b : ascii) (s t : string) :
  String a s = String b t -> a = b /\ s = t.
Proof. intros H. by injection H. Qed.

(** In a string laid out as [YYYY-MM-DD HH:MM] the only blank is the one
    between the date and the time. *)
Lemma laid_out_fields (date_s time_s : string) :
  laid_out layout_Ymd_HM (date_s +:+ " " +:+ time_s) = true ->
  String.length date_s = 10%nat /\ String.length time_s = 5%nat.
Proof.
  intros Hl.
  destruct (PyDatetimeFacts.laid_out_digits _ Hl)
    as (y1 & y2 & y3 & y4 & m1 & m2 & d1 & d2 & h1 & h2 & n1 & n2
        & (? & ? & ? & ?) & (? & ? & ? & ?) & (? & ? & ? & ?) & Hs).
  clear Hl. revert Hs. cbv [String.append].
  do 10 (destruct date_s as [| ? date_s];
         [ intros Hs; exfalso; apply String_inj in Hs as [Hc _];
           first [ discriminate Hc | by apply blank_not_digit in Hc ]
         | intros Hs; apply String_inj in Hs as [_ Hs]; revert Hs ]).
  destruct date_s as [| ? date_s].
  - intros Hs. apply String_inj in Hs as [_ ->]. by split.
  - intros Hs. apply String_inj in Hs as [_ Hs]. exfalso. revert Hs.
    do 5 (destruct date_s as [| ? date_s];
          [ intros Hs; apply String_inj in Hs as [Hc _];
            first [ discriminate Hc | by apply blank_not_digit in Hc ]
          | intros Hs; apply String_inj in Hs as [_ Hs]; revert Hs ]).
    destruct date_s; discriminate.
Qed.

Lemma sentinel_length : String.length sentinel = 9%nat.
Proof. reflexivity. Qed.

(** C8. A floating record whose ["date"] and ["time"] strings together are
    laid out as [YYYY-MM-DD HH:MM] and are accepted by [strptime] is
    confirmed with the parsed timestamp under ["spawn_dt"], and writing
    that timestamp in the same format gives the date, a blank and the time
    back. *)
Theorem floating_timestamp_round_trip (t : record) (date_s time_s : string)
    (dt : datetime) (acc : list record * list record) :
  t !! "date" = Some (VStr date_s) ->
  t !! "time" = Some (VStr time_s) ->
  laid_out layout_Ymd_HM (date_s +:+ " " +:+ time_s) = true ->
  strptime (date_s +:+ " " +:+ time_s) = Some dt ->
  floating_step py_repr acc t
  = Return (acc.1 ++ [<["spawn_dt" := VDatetime dt]> t], acc.2)%list
  /\ strftime dt = date_s +:+ " " +:+ time_s.
Proof.
  intros Hd Ht Hl Hp. split.
  - destruct (laid_out_fields date_s time_s Hl) as [Hld Hlt].
    unfold floating_step, with_spawn_dt, record_getitem. cbn [py_getitem].
    rewrite Hd, Ht. cbn [default from_option id eq_str truthy py_format mbind outcome_bind].
    replace (String.eqb time_s sentinel) with false.
    2:{ symmetry. apply String.eqb_neq. intros ->. by rewrite sentinel_length in Hlt. }
    replace (String.eqb date_s "") with false.
    2:{ symmetry. apply String.eqb_neq. intros ->. discriminate Hld. }
    cbn [negb andb]. by rewrite Hp.
  - by apply PyDatetimeFacts.strftime_strptime.
Qed.

(** *** Floating records that stay unconfirmed *)

Lemma floating_step_unconfirmed (acc : list record * list record) (t : record) :
  stays_unconfirmed py_repr t ->
  floating_step py_repr acc t = Return (acc.1, acc.2 ++ [t])%list.
Proof.
  unfold floating_step. intros [H | [H | [(d & tm & Hd & Htm & Hp) | H]]].
  - by rewrite H.
  - rewrite H. by rewrite andb_false_r.
  - destruct (negb _ && _); [| reflexivity].
    unfold with_spawn_dt, record_getitem. cbn [py_getitem].
    rewrite Hd, Htm. cbn [mbind outcome_bind]. by rewrite Hp.
  - destruct H as (remote & definition & Hobs & Hdate & Hm).
    unfold spec_merged in Hm. rewrite Hobs in Hm. subst t.
    rewrite Hdate. cbn. by rewrite andb_false_r.
Qed.

Lemma agenda_without_unconfirmed (pre post fixed : list record) (t : record) :
  stays_unconfirmed py_repr t ->
  (acc ← for_each (floating_step py_repr) (pre ++ t :: post) ([], []);
   acc' ← for_each (fixed_step py_repr) fixed acc;
   sorted_by_spawn_dt acc'.1)
  = (acc ← for_each (floating_step py_repr) (pre ++ post) ([], []);
     acc' ← for_each (fixed_step py_repr) fixed acc;
     sorted_by_spawn_dt acc'.1).
Proof.
  intros Ht. rewrite !for_each_app.
  destruct (for_each (floating_step py_repr) pre ([], [])) as [[c1 u1] | e];
    cbn [mbind outcome_bind]; [| reflexivity].
  cbn [for_each]. rewrite (floating_step_unconfirmed _ t Ht).
  cbn [mbind outcome_bind fst snd].
  rewrite (for_each_acc _ floating_step_acc post (c1, (u1 ++ [t])%list)).
  rewrite (for_each_acc _ floating_step_acc post (c1, u1)).
  destruct (for_each (floating_step py_repr) post ([], [])) as [[c2 u2] | e];
    cbn [mbind outcome_bind fst snd]; [| reflexivity].
  rewrite (for_each_acc _ fixed_step_acc fixed ((c1 ++ c2)%list, _)).
  rewrite (for_each_acc _ fixed_step_acc fixed ((c1 ++ c2)%list, (u1 ++ u2)%list)).
  destruct (for_each (fixed_step py_repr) fixed ([], [])) as [[c3 u3] | e];
    reflexivity.
Qed.

Lemma floating_blind_bind {A B} (m : M A) (k : A -> M B) :
  floating_blind m -> (forall a, floating_blind (k a)) -> floating_blind (m ≫= k).
Proof.
  intros Hm Hk l b. unfold mbind, M_bind, bind. rewrite Hm.
  destruct (m b) as [[a | e] b1]; cbn [fst snd]; [apply Hk | reflexivity].
Qed.

Lemma floating_blind_ret {A} (a : A) : floating_blind (mret a).
Proof. intros l b. reflexivity. Qed.

Lemma floating_blind_lift {A} (o : outcome A) : floating_blind (lift o).
Proof. intros l b. reflexivity. Qed.

Lemma floating_blind_add_log (msg : log_message) : floating_blind (add_log msg).
Proof. intros l b. reflexivity. Qed.

Lemma fixed_loop_floating_blind (clk : wall_clock) (tomorrow : date)
    (fixed_data : list record) :
  forall timers, floating_blind (fixed_loop clk tomorrow fixed_data timers).
Proof.
  induction fixed_data as [| t fd IH]; intros timers; cbn [fixed_loop].
  - apply floating_blind_ret.
  - destruct (fixed_timer_try clk tomorrow t); [apply IH |].
    apply floating_blind_bind; [apply floating_blind_add_log | intros _; apply IH].
Qed.

Lemma set_fixed_timers_dates_floating_blind (clk : wall_clock) :
  floating_blind (set_fixed_timers_dates clk).
Proof.
  unfold set_fixed_timers_dates.
  apply floating_blind_bind; [apply floating_blind_lift | intros tomorrow].
  apply floating_blind_bind; [intros l b; reflexivity | intros cfg].
  apply floating_blind_bind; [apply floating_blind_lift | intros items].
  apply floating_blind_bind; [apply floating_blind_lift | intros fixed_data].
  apply fixed_loop_floating_blind.
Qed.

Lemma fixed_loop_floating (clk : wall_clock) (tomorrow : date) (fixed_data : list record) :
  forall timers, preserves floating_timers_data (fixed_loop clk tomorrow fixed_data timers).
Proof.
  induction fixed_data as [| t fd IH]; intros timers; cbn [fixed_loop].
  - apply preserves_ret.
  - destruct (fixed_timer_try clk tomorrow t); [apply IH |].
    apply preserves_bind; [| intros _; apply IH].
    apply preserves_modify. intros ?. reflexivity.
Qed.

Lemma set_fixed_timers_dates_floating (clk : wall_clock) :
  preserves floating_timers_data (set_fixed_timers_dates clk).
Proof. unfold set_fixed_timers_dates. preserve. apply fixed_loop_floating. Qed.

(** [refresh_timers] in full: the dates of the fixed timers, then the
    loops and the sort. *)
Lemma refresh_timers_unfold (clk : wall_clock) (b : CloudBot) :
  refresh_timers py_repr clk b
  = match set_fixed_timers_dates clk b with
    | (Return fixed, b1) =>
        match (acc ← for_each (floating_step py_repr) (floating_timers_data b1) ([], []);
               acc' ← for_each (fixed_step py_repr) fixed acc;
               sorted_by_spawn_dt acc'.1) with
        | Return agenda =>
            (Return tt,
             with_sorted_timers_data agenda (with_fixed_timers_with_date fixed b1))
        | Raise e => (Raise e, with_fixed_timers_with_date fixed b1)
        end
    | (Raise e, b1) => (Raise e, b1)
    end.
Proof.
  destruct (set_fixed_timers_dates clk b) as [[fixed | e] b1] eqn:Hset.
  - by apply refresh_timers_run.
  - unfold refresh_timers, update_and_predict_timers. run_M. by rewrite Hset.
Qed.

(** C4, as the code has it. A floating record whose time is the
    placeholder, whose date is missing or empty, whose date and time are
    there and do not parse, or that is a definition without a date and
    without a remote observation, adds nothing to the agenda:
    [refresh_timers] ends the same way and stores the same
    [sorted_timers_data] as it does without that record. The record is
    still in [floating_timers_data] afterwards. *)
Theorem unconfirmed_floating_excluded (clk : wall_clock) (b : CloudBot)
    (pre post : list record) (t : record) :
  floating_timers_data b = (pre ++ t :: post)%list ->
  stays_unconfirmed py_repr t ->
  let r := refresh_timers py_repr clk b in
  let r' := refresh_timers py_repr clk (with_floating_timers_data (pre ++ post) b) in
  fst r = fst r'
  /\ sorted_timers_data (snd r) = sorted_timers_data (snd r')
  /\ floating_timers_data (snd r) = (pre ++ t :: post)%list.
Proof.
  intros Hfl Ht. cbv zeta. rewrite !refresh_timers_unfold.
  rewrite set_fixed_timers_dates_floating_blind.
  pose proof (set_fixed_timers_dates_floating clk b) as Hpres.
  destruct (set_fixed_timers_dates clk b) as [[fixed | e] b1]; cbn [fst snd] in *.
  - cbn [floating_timers_data with_floating_timers_data].
    rewrite Hpres, Hfl, (agenda_without_unconfirmed pre post fixed t Ht).
    destruct (_ ≫= _) as [agenda | e]; cbn; rewrite ?Hpres, ?Hfl; by repeat split.
  - cbn. rewrite Hpres, Hfl. by repeat split.
Qed.

(** *** The loop without settings *)
















(** *** Alerts and the already-sent record *)

Lemma fixed_loop_alerts (clk : wall_clock) (tomorrow : date) (fixed_data : list record) :
  forall timers, preserves alerts (fixed_loop clk tomorrow fixed_data timers).
Proof.
  induction fixed_data as [| t fd IH]; intros timers; cbn [fixed_loop].
  - apply preserves_ret.
  - destruct (fixed_timer_try clk tomorrow t); [apply IH |].
    apply preserves_bind; [| intros _; apply IH].
    apply preserves_modify. intros ?. reflexivity.
Qed.

Lemma refresh_timers_alerts (clk : wall_clock) :
  preserves alerts (refresh_timers py_repr clk).
Proof.
  unfold refresh_timers, update_and_predict_timers, set_fixed_timers_dates.
  preserve. apply fixed_loop_alerts.
Qed.

Lemma check_all_notifications_alerts (clk : wall_clock) :
  preserves alerts (check_all_notifications py_repr clk).
Proof.
  unfold check_all_notifications, _cleanup_sent_notifications,
    check_timer_notifications, check_custom_event_notifications.
  preserve. apply refresh_timers_alerts.
Qed.




(** *** The log *)

(** X1. On a log of at most 200 messages, [add_log] leaves at most 200:
    the new message is the last one, nothing else changes while there is
    room, and a full log loses its oldest message and no other. *)
Theorem add_log_bounded_newest_last (msg : log_message) (l : list log_message) :
  (length l <= 200)%nat ->
  (length (add_log_entries msg l) <= 200)%nat
  /\ last (add_log_entries msg l) = Some msg
  /\ ((length l < 200)%nat -> add_log_entries msg l = (l ++ [msg])%list)
  /\ (length l = 200%nat -> add_log_entries msg l = (tail l ++ [msg])%list).
Proof.
  intros Hl. unfold add_log_entries. rewrite length_app. cbn [length].
  destruct (200 <? Z.of_nat (length l + 1)) eqn:Hfull.
  - apply Z.ltb_lt in Hfull.
    assert (Hlen : length l = 200%nat) by lia.
    destruct l as [| x l]; [discriminate Hlen |]. cbn [app tail length] in *.
    rewrite length_app. cbn [length].
    repeat split;
      first [ lia | apply last_snoc | intros; reflexivity | intros; lia ].
  - apply Z.ltb_ge in Hfull. rewrite length_app. cbn [length].
    repeat split;
      first [ lia | apply last_snoc | intros; reflexivity | intros; lia ].
Qed.

Lemma keeps_bind {A B} (I : CloudBot -> Prop) (m : M A) (k : A -> M B) :
  keeps I m -> (forall a, keeps I (k a)) -> keeps I (m ≫= k).
Proof.
  intros Hm Hk b Hb. unfold mbind, M_bind, bind.
  specialize (Hm b Hb). destruct (m b) as [[a | e] b1]; cbn [snd] in *.
  - by apply Hk.
  - exact Hm.
Qed.

Lemma keeps_ret {A} (I : CloudBot -> Prop) (a : A) : keeps I (mret a).
Proof. intros b Hb. exact Hb. Qed.

Lemma keeps_lift {A} (I : CloudBot -> Prop) (o : outcome A) : keeps I (lift o).
Proof. intros b Hb. exact Hb. Qed.

Lemma keeps_get {A} (I : CloudBot -> Prop) (f : CloudBot -> A) : keeps I (get f).
Proof. intros b Hb. exact Hb. Qed.

Lemma keeps_raise {A} (I : CloudBot -> Prop) (e : exn) : keeps I (raise e : M A).
Proof. intros b Hb. exact Hb. Qed.

Lemma keeps_modify (I : CloudBot -> Prop) (g : CloudBot -> CloudBot) :
  (forall b, I b -> I (g b)) -> keeps I (modify g).
Proof. intros H b Hb. by apply H. Qed.

Lemma add_log_log_bounded (msg : log_message) : keeps log_bounded (add_log msg).
Proof.
  intros b Hb. unfold log_bounded in *. cbn.
  unfold add_log_entries. rewrite length_app. cbn [length].
  destruct (200 <? Z.of_nat (length (log_entries b) + 1)) eqn:Hfull.
  - destruct (log_entries b); cbn in *; [lia |]. rewrite length_app. cbn. lia.
  - apply Z.ltb_ge in Hfull. rewrite length_app. cbn. lia.
Qed.

Ltac keep_log_step :=
  match goal with
  | |- keeps _ (_ ≫= _) => apply keeps_bind; [| intros ?]
  | |- keeps _ (mret _) => apply keeps_ret
  | |- keeps _ (lift _) => apply keeps_lift
  | |- keeps _ (get _) => apply keeps_get
  | |- keeps _ (raise _) => apply keeps_raise
  | |- keeps _ (add_log _) => apply add_log_log_bounded
  | |- keeps log_bounded (modify _) => apply keeps_modify; intros ? H; exact H
  | |- keeps _ (if ?c then _ else _) => destruct c
  | |- keeps _ (match ?x with _ => _ end) => destruct x
  | |- keeps _ (let '(_, _) := ?x in _) => destruct x
  end.

Ltac keep_log := repeat keep_log_step.

Lemma fetch_from_github_log_bounded (r : github_response) (p d : value) :
  keeps log_bounded (fetch_from_github IS_GITHUB_AVAILABLE r p d).
Proof.
  assert (Ha : keeps log_bounded (fetch_attempt IS_GITHUB_AVAILABLE r p)).
  { unfold fetch_attempt, _get_repo, connect_to_github. keep_log. }
  intros b Hb. unfold fetch_from_github. specialize (Ha b Hb).
  destruct (fetch_attempt IS_GITHUB_AVAILABLE r p b) as [[[v |] | e] b1];
    cbn [snd] in *; try exact Ha.
  destruct e; try exact (add_log_log_bounded _ b1 Ha).
Qed.

Lemma load_all_data_from_cloud_log_bounded (i : sync_input) :
  keeps log_bounded (load_all_data_from_cloud py_eq IS_GITHUB_AVAILABLE i).
Proof.
  unfold load_all_data_from_cloud, load_game_profile, update_timers_data_from_remote,
    update_events_data_from_remote.
  keep_log; apply fetch_from_github_log_bounded.
Qed.

Lemma fixed_loop_log_bounded (clk : wall_clock) (tomorrow : date) (fixed_data : list record) :
  forall timers, keeps log_bounded (fixed_loop clk tomorrow fixed_data timers).
Proof.
  induction fixed_data as [| t fd IH]; intros timers; cbn [fixed_loop].
  - apply keeps_ret.
  - destruct (fixed_timer_try clk tomorrow t); [apply IH |].
    apply keeps_bind; [apply add_log_log_bounded | intros _; apply IH].
Qed.

Lemma check_all_notifications_log_bounded (clk : wall_clock) :
  keeps log_bounded (check_all_notifications py_repr clk).
Proof.
  unfold check_all_notifications, _cleanup_sent_notifications,
    check_timer_notifications, check_custom_event_notifications,
    refresh_timers, update_and_predict_timers, set_fixed_timers_dates.
  keep_log. apply fixed_loop_log_bounded.
Qed.

Lemma iteration_log_bounded (t : tick) (last : float) :
  keeps log_bounded (iteration py_repr py_eq IS_GITHUB_AVAILABLE t last).
Proof.
  unfold iteration. keep_log;
    auto using load_all_data_from_cloud_log_bounded, check_all_notifications_log_bounded.
Qed.

(** X2. Whatever the ticks bring and however the loop ends, [run] leaves
    a log of at most 200 messages when it started with one. *)
Theorem run_keeps_log_bounded (ticks : list tick) (b : CloudBot) :
  (length (log_entries b) <= 200)%nat ->
  (length (log_entries (snd (run py_repr py_eq IS_GITHUB_AVAILABLE ticks b))) <= 200)%nat.
Proof.
  assert (H : forall last, keeps log_bounded
                (iterations py_repr py_eq IS_GITHUB_AVAILABLE ticks last)).
  { induction ticks as [| t ticks IH]; intros last; cbn [iterations].
    - apply keeps_ret.
    - apply keeps_bind; [apply iteration_log_bounded | intros [last1 calls]].
      apply keeps_bind; [apply IH | intros [last2 calls']]. apply keeps_ret. }
  intros Hb. unfold run.
  apply (keeps_bind log_bounded (add_log LogMainLoop)); [apply add_log_log_bounded | | exact Hb].
  intros _. apply H.
Qed.

(** *** Fetching from GitHub *)

(** X3. When the settings are a dict without a truthy ["github_token"],
    [fetch_from_github] returns the default whatever GitHub would answer,
    and changes nothing in the bot but the log. *)
Theorem fetch_without_token_gives_default (r : github_response) (p d : value)
    (b : CloudBot) (m : gmap string value) :
  settings b = VDict m ->
  truthy (default VNone (m !! "github_token")) = false ->
  exists b',
    fetch_from_github IS_GITHUB_AVAILABLE r p d b = (Return d, b')
    /\ same_but_log b b'.
Proof.
  intros Hs Htok.
  unfold fetch_from_github, fetch_attempt, _get_repo, connect_to_github.
  destruct (m !! "github_token") as [tok |] eqn:Hm; cbn in Htok;
    destruct IS_GITHUB_AVAILABLE; cbn [negb]; run_M; cbn [negb]; rewrite ?Hs;
    cbn [py_get]; rewrite ?Hm, ?Htok; cbn;
    eexists; (split; [reflexivity |]); reflexivity.
Qed.

(** The attempt returns a value only when the load did. *)
Lemma fetch_attempt_value (r : github_response) (p : value) (b : CloudBot) (v : value) :
  fst (fetch_attempt IS_GITHUB_AVAILABLE r p b) = Return (Some v) ->
  gh_load r = Return v.
Proof.
  unfold fetch_attempt. unfold mbind, M_bind, bind.
  destruct (_get_repo IS_GITHUB_AVAILABLE r b) as [[[[] |] | e] b1]; cbn;
    try discriminate.
  unfold lift. destruct (gh_load r); cbn; [| discriminate]. by intros [= ->].
Qed.

(** X4. [fetch_from_github] never raises, whatever the settings, the
    client and GitHub's answer are: it returns the JSON value that was
    loaded, or else the default. *)
Theorem fetch_from_github_never_raises (r : github_response) (p d : value)
    (b : CloudBot) :
  exists v b',
    fetch_from_github IS_GITHUB_AVAILABLE r p d b = (Return v, b')
    /\ (v = d \/ gh_load r = Return v).
Proof.
  destruct (fetch_from_github_returns r p d b) as [b' Hf].
  eexists _, b'. split; [exact Hf |].
  destruct (fst (fetch_attempt IS_GITHUB_AVAILABLE r p b)) as [[v |] | e] eqn:Ha;
    [right | left; reflexivity | left; reflexivity].
  by eapply fetch_attempt_value.
Qed.

(** X5. With PyGithub available, settings that hold a truthy token, user
    and repository, a client that is cached or a login that goes through,
    and GitHub answering, [fetch_from_github] returns the JSON value of
    the file, and the bot holds a client afterwards. *)
Theorem fetch_from_github_success (r : github_response) (p d v : value)
    (b : CloudBot) (m : gmap string value) :
  IS_GITHUB_AVAILABLE = true ->
  settings b = VDict m ->
  truthy (default VNone (m !! "github_token")) = true ->
  truthy (default VNone (m !! "github_user")) = true ->
  truthy (default VNone (m !! "github_repo")) = true ->
  (is_Some (github_client b) \/ gh_login r = true) ->
  gh_get_repo r = Return tt ->
  gh_load r = Return v ->
  exists b',
    fetch_from_github IS_GITHUB_AVAILABLE r p d b = (Return v, b')
    /\ is_Some (github_client b').
Proof.
  intros -> Hs Htok Huser Hrepo Hclient Hget Hload.
  destruct (m !! "github_token") as [tok |] eqn:Hmt; [| discriminate Htok].
  destruct (m !! "github_user") as [user |] eqn:Hmu; [| discriminate Huser].
  destruct (m !! "github_repo") as [repo |] eqn:Hmr; [| discriminate Hrepo].
  cbn in Htok, Huser, Hrepo.
  unfold fetch_from_github, fetch_attempt, _get_repo, connect_to_github.
  cbn [negb]. run_M. rewrite Hs. cbn [py_get]. rewrite Hmt, Htok. cbn [negb].
  destruct (github_client b) as [c |] eqn:Hc.
  - cbn. rewrite Hs. cbn [py_get]. rewrite Hmu, Hmr, Huser, Hrepo, Hget, Hload. cbn.
    eexists. split; [reflexivity |]. rewrite Hc. by eexists.
  - destruct Hclient as [[c Hc'] | Hlogin]; [discriminate Hc' |].
    rewrite Hlogin. cbn. rewrite Hs. cbn [py_get].
    rewrite Hmu, Hmr, Huser, Hrepo, Hget, Hload. cbn.
    eexists. split; [reflexivity |]. by eexists.
Qed.

(** *** The client and the settings across a sync *)

Ltac keep_state_step :=
  match goal with
  | |- keeps _ (_ ≫= _) => apply keeps_bind; [| intros ?]
  | |- keeps _ (mret _) => apply keeps_ret
  | |- keeps _ (lift _) => apply keeps_lift
  | |- keeps _ (get _) => apply keeps_get
  | |- keeps _ (raise _) => apply keeps_raise
  | |- keeps _ (add_log _) => apply keeps_modify; intros ? H; exact H
  | |- keeps _ (modify _) => apply keeps_modify; intros ? H; exact H
  | |- keeps _ (if ?c then _ else _) => destruct c
  | |- keeps _ (match ?x with _ => _ end) => destruct x
  | |- keeps _ (let '(_, _) := ?x in _) => destruct x
  end.

Ltac keep_state := repeat keep_state_step.

(** A cached client is used as it is: [connect_to_github] builds a client
    only when the bot has none. *)
Lemma connect_to_github_has_client (c : value) (r : github_response) :
  keeps (has_client c) (connect_to_github IS_GITHUB_AVAILABLE r).
Proof.
  intros b Hb. unfold connect_to_github.
  destruct IS_GITHUB_AVAILABLE; cbn [negb]; [| exact Hb].
  run_M. destruct (py_get (settings b) "github_token" VNone) as [token |]; [| exact Hb].
  destruct (truthy token); cbn [negb]; [| exact Hb].
  unfold has_client in Hb. rewrite Hb. exact Hb.
Qed.

Lemma fetch_from_github_has_client (c : value) (r : github_response) (p d : value) :
  keeps (has_client c) (fetch_from_github IS_GITHUB_AVAILABLE r p d).
Proof.
  assert (Ha : keeps (has_client c) (fetch_attempt IS_GITHUB_AVAILABLE r p)).
  { unfold fetch_attempt, _get_repo.
    apply keeps_bind; [| intros repo; keep_state].
    apply keeps_bind; [apply connect_to_github_has_client | intros ok; keep_state]. }
  intros b Hb. unfold fetch_from_github. specialize (Ha b Hb).
  destruct (fetch_attempt IS_GITHUB_AVAILABLE r p b) as [[[v |] | e] b1];
    cbn [snd] in *; try exact Ha.
  destruct e; exact Ha.
Qed.

(** X6. A sync that loads new, truthy settings does not renew the GitHub
    client: a bot that held a client before the sync holds the same one
    after it, whatever token the new settings carry and however the sync
    ends. *)
Theorem reload_keeps_cached_client (i : sync_input) (b : CloudBot) (c v : value) :
  github_client b = Some c ->
  fst (fetch_attempt IS_GITHUB_AVAILABLE (in_settings i) (VStr "settings.json") b)
  = Return (Some v) ->
  truthy v = true ->
  settings (snd (load_all_data_from_cloud py_eq IS_GITHUB_AVAILABLE i b)) = v
  /\ github_client (snd (load_all_data_from_cloud py_eq IS_GITHUB_AVAILABLE i b)) = Some c.
Proof.
  intros Hc Ha Hv. split.
  { rewrite load_all_data_from_cloud_settings. by rewrite Ha. }
  unfold load_all_data_from_cloud.
  set (b0 := with_log (add_log_entries LogSyncStart (log_entries b)) b).
  assert (Hc0 : has_client c b0) by exact Hc.
  pose proof (fetch_from_github_has_client c (in_settings i) (VStr "settings.json")
                (VDict ∅) b0 Hc0) as Hc1.
  destruct (fetch_from_github_returns (in_settings i) (VStr "settings.json") (VDict ∅) b0)
    as [b1 Hf].
  unfold b0 in Hf at 2. rewrite fetch_attempt_log, Ha in Hf.
  rewrite Hf in Hc1. cbn [snd] in Hc1.
  unfold mbind at 1 2. unfold M_bind, bind at 1 2. unfold add_log at 1, modify at 1.
  fold b0. rewrite Hf.
  match goal with
  | |- github_client (snd (?m b1)) = Some c =>
      cut (keeps (has_client c) m); [intros Hk; exact (Hk b1 Hc1) |]
  end.
  rewrite Hv. cbn [negb].
  unfold load_game_profile, update_timers_data_from_remote, update_events_data_from_remote.
  keep_state; apply fetch_from_github_has_client.
Qed.

Lemma raises_after {A B} (P : CloudBot -> Prop) (m : M A) (Q : A -> CloudBot -> Prop)
    (k : A -> M B) (e : exn) :
  hoare P m Q -> (forall a b, Q a b -> fst (k a b) = Raise e) ->
  forall b, P b -> fst ((m ≫= k) b) = Raise e.
Proof.
  intros Hm Hk b Hb. destruct (Hm b Hb) as (a & b1 & Hmb & Hq).
  unfold mbind, M_bind, bind. rewrite Hmb. by apply Hk.
Qed.

Lemma load_game_profile_returns (file : option value) (v : value) :
  hoare (fun b => settings b = v) (load_game_profile file) (fun _ b => settings b = v).
Proof.
  intros b Hb. unfold load_game_profile. run_M.
  destruct file as [gp |]; [| by eexists _, _].
  destruct (py_get gp "timers" (VList [])) as [timers |]; [| by eexists _, _].
  destruct (py_get gp "game_name" (VStr "N/A")); by eexists _, _.
Qed.

(** X7. When [settings.json] holds a JSON value that is not an object,
    the sync stores it as the settings and then raises [AttributeError]
    at its next [self.settings.get]: nothing catches it, so the loop that
    called the sync ends. *)
Theorem non_dict_settings_end_the_sync (i : sync_input) (b : CloudBot) (v : value) :
  fst (fetch_attempt IS_GITHUB_AVAILABLE (in_settings i) (VStr "settings.json") b)
  = Return (Some v) ->
  is_dict v = false ->
  fst (load_all_data_from_cloud py_eq IS_GITHUB_AVAILABLE i b) = Raise AttributeError
  /\ settings (snd (load_all_data_from_cloud py_eq IS_GITHUB_AVAILABLE i b)) = v
  /\ forall t last,
       tick_sync t = i -> download_due (tick_time t) last = true ->
       fst (iteration py_repr py_eq IS_GITHUB_AVAILABLE t last b) = Raise AttributeError.
Proof.
  intros Ha Hv.
  assert (Hraise : fst (load_all_data_from_cloud py_eq IS_GITHUB_AVAILABLE i b)
                   = Raise AttributeError).
  { unfold load_all_data_from_cloud.
    set (b0 := with_log (add_log_entries LogSyncStart (log_entries b)) b).
    destruct (fetch_from_github_returns (in_settings i) (VStr "settings.json") (VDict ∅) b0)
      as [b1 Hf].
    unfold b0 in Hf at 2. rewrite fetch_attempt_log, Ha in Hf.
    unfold mbind at 1 2. unfold M_bind, bind at 1 2. unfold add_log at 1, modify at 1.
    fold b0. rewrite Hf.
    apply (raises_after (fun _ => True) _ (fun _ b => settings b = v)); [| | exact I].
    { intros b2 _. by eexists _, _. }
    intros _ b2 Hb2. revert b2 Hb2.
    apply (raises_after (fun b => settings b = v) _ (fun _ b => settings b = v)).
    { destruct (negb (truthy v)); intros b2 Hb2; by eexists _, _. }
    intros _ b2 Hb2. revert b2 Hb2.
    apply (raises_after (fun b => settings b = v) _ (fun _ b => settings b = v));
      [apply load_game_profile_returns |].
    intros _ b2 Hb2. run_M. rewrite Hb2.
    destruct v; try reflexivity. discriminate Hv. }
  split; [exact Hraise |]. split.
  - rewrite load_all_data_from_cloud_settings. by rewrite Ha.
  - intros t last <- Hdue. unfold iteration. rewrite Hdue. run_M.
    destruct (load_all_data_from_cloud py_eq IS_GITHUB_AVAILABLE (tick_sync t) b)
      as [[[] | e] b1]; cbn [fst] in *; [discriminate Hraise |].
    by injection Hraise as ->.
Qed.

(** *** Errors of the merge *)

(** When [update_timers_data_from_remote] raises, the bot is as it
    was before the call: the floating timers of the previous merge stay
    and nothing is logged. *)
Lemma failed_merge_leaves_bot_unchanged (remote_data : value) (b : CloudBot) (e : exn) :
  fst (update_timers_data_from_remote remote_data b) = Raise e ->
  snd (update_timers_data_from_remote remote_data b) = b.
Proof.
  unfold update_timers_data_from_remote. run_M.
  destruct (py_iter (timers_config b)) as [items |]; [| reflexivity].
  destruct (merge_loop remote_data items []); [discriminate | reflexivity].
Qed.

Lemma merge_loop_app (remote_data : value) (l1 l2 : list value) (acc : list record) :
  merge_loop remote_data (l1 ++ l2) acc
  = (acc' ← merge_loop remote_data l1 acc; merge_loop remote_data l2 acc').
Proof.
  revert acc. induction l1 as [| x l1 IH]; intros acc; [reflexivity |].
  cbn [merge_loop app].
  destruct (merge_timer remote_data x acc); cbn [mbind outcome_bind];
    [apply IH | reflexivity].
Qed.

(** X8. The first catalog entry that the merge cannot handle decides how
    it ends: after well-formed entries, an entry that is not a dict makes
    it raise [TypeError], and a dict without ["type"], or a floating one
    without ["id"], makes it raise [KeyError]. *)
Theorem malformed_definition_raises (b : CloudBot) (pre post : list value) (e : value)
    (remote : gmap string value) :
  timers_config b = VList (pre ++ e :: post) ->
  forallb (definition_ok remote) pre = true ->
  (is_dict e = false ->
   fst (update_timers_data_from_remote (VDict remote) b) = Raise TypeError)
  /\ (forall m, e = VDict m ->
        m !! "type" = None
        \/ (exists ty, m !! "type" = Some ty /\ eq_str ty "floating" = true
                       /\ m !! "id" = None) ->
        fst (update_timers_data_from_remote (VDict remote) b) = Raise KeyError).
Proof.
  intros Hcfg Hpre.
  destruct (merge_loop_spec remote pre Hpre []) as (live & Hloop & _).
  assert (Hrun : forall x,
             merge_timer (VDict remote) e ([] ++ live) = Raise x ->
             fst (update_timers_data_from_remote (VDict remote) b) = Raise x).
  { intros x Hx. unfold update_timers_data_from_remote. run_M.
    rewrite Hcfg. cbn [py_iter]. rewrite merge_loop_app, Hloop.
    cbn [mbind outcome_bind merge_loop]. by rewrite Hx. }
  split.
  - intros He. apply Hrun. by destruct e.
  - intros m -> [Hty | (ty & Hty & Hfl & Hid)]; apply Hrun;
      unfold merge_timer; cbn [py_getitem]; rewrite Hty; [reflexivity |].
    cbn [mbind outcome_bind]. rewrite Hfl. cbn [py_getitem]. by rewrite Hid.
Qed.

Lemma merge_loop_remote_not_dict (remote_data : value) (cfg : list value) :
  is_dict remote_data = false ->
  forallb (definition_ok ∅) cfg = true ->
  forall acc,
    merge_loop remote_data cfg acc
    = match floating_definitions cfg with
      | [] => Return acc
      | _ :: _ => Raise AttributeError
      end.
Proof.
  intros Hr. induction cfg as [| e cfg IH]; intros Hok acc; [reflexivity |].
  cbn [forallb] in Hok. apply andb_true_iff in Hok as [He Hok].
  destruct e as [| | | | | | m |]; try discriminate He.
  cbn [definition_ok] in He. cbn [merge_loop floating_definitions flat_map].
  unfold merge_timer. cbn [py_getitem].
  destruct (m !! "type") as [ty |]; [| discriminate He].
  cbn [mbind outcome_bind]. change (default VNone (Some ty)) with ty.
  destruct (eq_str ty "floating").
  - destruct (m !! "id") as [id |]; [| discriminate He].
    cbn [mbind outcome_bind app]. unfold remote_get.
    destruct remote_data; try reflexivity. discriminate Hr.
  - cbn [mbind outcome_bind app]. by apply IH.
Qed.

(** X9. A remote timers payload that is not a dict is harmless only
    when the catalog has no floating definition: the merge then stores an
    empty list; with a floating definition in the catalog it raises
    [AttributeError]. *)
Theorem remote_timers_not_a_dict (remote_data : value) (b : CloudBot) (cfg : list value) :
  is_dict remote_data = false ->
  timers_config b = VList cfg ->
  forallb (definition_ok ∅) cfg = true ->
  (floating_definitions cfg = [] ->
   exists b', update_timers_data_from_remote remote_data b = (Return tt, b')
              /\ floating_timers_data b' = [])
  /\ (floating_definitions cfg <> [] ->
      update_timers_data_from_remote remote_data b = (Raise AttributeError, b)).
Proof.
  intros Hr Hcfg Hok.
  pose proof (merge_loop_remote_not_dict remote_data cfg Hr Hok []) as Hloop.
  unfold update_timers_data_from_remote. run_M. rewrite Hcfg. cbn [py_iter].
  rewrite Hloop. split.
  - intros ->. eexists. split; reflexivity.
  - intros Hne. destruct (floating_definitions cfg); [done | reflexivity].
Qed.

(** *** The dates of the fixed timers *)

Lemma fixed_timer_try_dated (clk : wall_clock) (tomorrow : date) (timer r : record) :
  fixed_timer_try clk tomorrow timer = Some r ->
  (exists s, timer !! "time" = Some (VStr s))
  /\ (r = <["date" := VStr (strftime_date (read_today clk))]> timer
      \/ r = <["date" := VStr (strftime_date tomorrow)]> timer).
Proof.
  unfold fixed_timer_try.
  destruct (timer !! "time") as [[| | | | s | | |] |]; try discriminate.
  destruct (split ":" s) as [| a [| c [| ? ?]]]; try discriminate.
  destruct (int a) as [h |]; [| discriminate].
  destruct (int c) as [m |]; [| discriminate]. cbn [mbind option_bind].
  destruct (valid_hm h m); [| discriminate].
  intros [= <-]. split; [by eexists |].
  destruct (time_gtb _ _); [by right | by left].
Qed.

(** X10. On a catalog that is a list of dicts, and unless tomorrow is
    past the last date, [set_fixed_timers_dates] returns, changing only
    the log: no malformed time makes it raise. Every timer it returns is
    a fixed timer of the catalog with a string ["time"], to which it has
    added as ["date"] the date of today or that of tomorrow, written as
    [YYYY-MM-DD]. *)
Theorem fixed_timers_dated_today_or_tomorrow (clk : wall_clock) (b : CloudBot)
    (cfg : list value) (tomorrow : date) :
  timers_config b = VList cfg ->
  forallb is_dict cfg = true ->
  add_one_day (read_today' clk) = Some tomorrow ->
  exists timers b',
    set_fixed_timers_dates clk b = (Return timers, b')
    /\ same_but_log b b'
    /\ forall r, r ∈ timers ->
         exists timer,
           VDict timer ∈ cfg
           /\ eq_str (default VNone (timer !! "type")) "fixed" = true
           /\ (exists s, timer !! "time" = Some (VStr s))
           /\ (r = <["date" := VStr (strftime_date (read_today clk))]> timer
               \/ r = <["date" := VStr (strftime_date tomorrow)]> timer).
Proof.
  intros Hcfg Hd Htm.
  destruct (set_fixed_timers_dates_spec clk b cfg tomorrow Hcfg Hd Htm)
    as (fd & b' & Hset & Hb & Hfd).
  exists (omap (fixed_timer_try clk tomorrow) fd), b'.
  split; [exact Hset |]. split; [exact Hb |].
  intros r Hr. apply list_elem_of_omap in Hr as (timer & Hin & Htry).
  apply Hfd in Hin as [Hin Hty].
  apply fixed_timer_try_dated in Htry as [Hs Hdate].
  exists timer. by repeat split.
Qed.

(** *** A floating record with a date and no time *)

Lemma floating_step_key_error (acc : list record * list record) (t : record) :
  t !! "time" = None ->
  truthy (default VNone (t !! "date")) = true ->
  floating_step py_repr acc t = Raise KeyError.
Proof.
  intros Ht Hd. unfold floating_step. rewrite Ht, Hd. cbn.
  unfold with_spawn_dt, record_getitem. cbn [py_getitem].
  destruct (t !! "date"); [| discriminate Hd].
  cbn [mbind outcome_bind]. by rewrite Ht.
Qed.

(** X11. A floating record that has a truthy ["date"] and no ["time"]
    key makes [refresh_timers] raise [KeyError] (the records before it
    being harmless): the agenda keeps its previous content, and
    [check_all_notifications] raises with it. *)
Theorem dated_record_without_time_raises (clk : wall_clock) (b : CloudBot)
    (cfg : list value) (tomorrow : date) (pre post : list record) (t : record) :
  timers_config b = VList cfg ->
  forallb is_dict cfg = true ->
  add_one_day (read_today' clk) = Some tomorrow ->
  floating_timers_data b = (pre ++ t :: post)%list ->
  forallb time_or_no_date pre = true ->
  t !! "time" = None ->
  truthy (default VNone (t !! "date")) = true ->
  fst (refresh_timers py_repr clk b) = Raise KeyError
  /\ sorted_timers_data (snd (refresh_timers py_repr clk b)) = sorted_timers_data b
  /\ fst (check_all_notifications py_repr clk b) = Raise KeyError.
Proof.
  intros Hcfg Hd Htm Hfl Hpre Ht Hdate.
  destruct (set_fixed_timers_dates_spec clk b cfg tomorrow Hcfg Hd Htm)
    as (fd & b1 & Hset & Hb1 & _).
  assert (Hloop : for_each (floating_step py_repr) (floating_timers_data b1) ([], [])
                  = Raise KeyError).
  { rewrite <- (same_but_log_floating b b1 Hb1), Hfl, for_each_app.
    destruct (for_each_returns (floating_step py_repr) pre)
      with (acc := ([], []) : list record * list record) as [acc Hacc].
    { intros a x Hx. apply floating_step_returns.
      rewrite forallb_forall in Hpre. apply Hpre. by apply list_elem_of_In. }
    rewrite Hacc. cbn [mbind outcome_bind for_each].
    by rewrite floating_step_key_error. }
  assert (Hr : refresh_timers py_repr clk b
               = (Raise KeyError,
                  with_fixed_timers_with_date (omap (fixed_timer_try clk tomorrow) fd) b1)).
  { rewrite (refresh_timers_run clk b b1 _ Hset), Hloop. reflexivity. }
  rewrite Hr. cbn [fst snd]. split; [reflexivity |]. split.
  - cbn. apply (f_equal sorted_timers_data) in Hb1. symmetry. exact Hb1.
  - unfold check_all_notifications. unfold mbind at 1, M_bind, bind at 1.
    by rewrite Hr.
Qed.

(** *** What [strptime] returns *)

Lemma digit_in_range (lo hi : Z) (s : string) (v : Z) (r : string) :
  (v, r) ∈ digit_in lo hi s -> lo <= v <= hi.
Proof.
  unfold digit_in. destruct s as [| c s]; [by intros ?%elem_of_nil |].
  destruct (PyStr.is_digit c && (lo <=? PyStr.digit_val c) && (PyStr.digit_val c <=? hi))
    eqn:Hc; [| by intros ?%elem_of_nil].
  intros Hin%list_elem_of_singleton. injection Hin as -> ->.
  apply andb_true_iff in Hc as [Hc ?]. apply andb_true_iff in Hc as [_ ?]. lia.
Qed.

Lemma two_range (p q : matcher Z) (a b c d : Z) :
  (forall s v r, (v, r) ∈ p s -> a <= v <= b) ->
  (forall s v r, (v, r) ∈ q s -> c <= v <= d) ->
  forall s v r, (v, r) ∈ two p q s -> 10 * a + c <= v <= 10 * b + d.
Proof.
  intros Hp Hq s v r. unfold two.
  intros ([x s1] & Hin & Hx)%list_elem_of_bind.
  apply list_elem_of_bind in Hin as ([y s2] & Hin & Hy).
  apply list_elem_of_singleton in Hin. injection Hin as -> ->.
  apply Hp in Hx. apply Hq in Hy. lia.
Qed.

Lemma re_H_range (s : string) (v : Z) (r : string) : (v, r) ∈ re_H s -> 0 <= v <= 23.
Proof.
  unfold re_H, alt. rewrite !elem_of_app. intros [H | [H | H]].
  - apply (two_range _ _ 2 2 0 3) in H; [lia | |]; intros ? ? ?; apply digit_in_range.
  - apply (two_range _ _ 0 1 0 9) in H; [lia | |]; intros ? ? ?; apply digit_in_range.
  - apply digit_in_range in H. lia.
Qed.

Lemma re_M_range (s : string) (v : Z) (r : string) : (v, r) ∈ re_M s -> 0 <= v <= 59.
Proof.
  unfold re_M, alt. rewrite !elem_of_app. intros [H | H].
  - apply (two_range _ _ 0 5 0 9) in H; [lia | |]; intros ? ? ?; apply digit_in_range.
  - apply digit_in_range in H. lia.
Qed.

Lemma field_then_elem {A} (p : matcher Z) (sep : matcher unit) (k : Z -> matcher A)
    (s : string) (x : A * string) :
  x ∈ field_then p sep k s ->
  exists v s1 s2, (v, s1) ∈ p s /\ (tt, s2) ∈ sep s1 /\ x ∈ k v s2.
Proof.
  unfold field_then. intros ([v s1] & Hin & Hv)%list_elem_of_bind.
  apply list_elem_of_bind in Hin as ([[] s2] & Hin & Hs). eauto 8.
Qed.

(** The time of day of every match of the format is a time of day, its
    seconds zero. *)
Lemma re_format_time (s : string) (dt : datetime) (r : string) :
  (dt, r) ∈ re_format s ->
  valid_hm (hour (dt_time dt)) (minute (dt_time dt)) = true
  /\ second (dt_time dt) = 0 /\ microsecond (dt_time dt) = 0.
Proof.
  unfold re_format.
  intros (Y & ? & ? & _ & _ & H)%field_then_elem.
  apply field_then_elem in H as (m & ? & ? & _ & _ & H).
  apply field_then_elem in H as (d & ? & ? & _ & _ & H).
  apply field_then_elem in H as (hh & ? & ? & Hh%re_H_range & _ & H).
  apply list_elem_of_bind in H as ([mm ?] & H & Hm%re_M_range).
  apply list_elem_of_singleton in H. injection H as -> ->. cbn.
  unfold valid_hm. rewrite !andb_true_iff, !Z.leb_le. lia.
Qed.

Lemma strptime_match (s : string) (dt : datetime) :
  strptime s = Some dt ->
  (dt, EmptyString) ∈ re_format s /\ valid_date (dt_date dt) = true.
Proof.
  unfold strptime. destruct (re_format s) as [| [dt' [| ? ?]] l]; try discriminate.
  destruct (valid_date (dt_date dt')) eqn:Hv; [| discriminate].
  intros [= <-]. split; [by left | exact Hv].
Qed.

Lemma strptime_valid (s : string) (dt : datetime) :
  strptime s = Some dt ->
  valid_date (dt_date dt) = true
  /\ valid_hm (hour (dt_time dt)) (minute (dt_time dt)) = true
  /\ second (dt_time dt) = 0 /\ microsecond (dt_time dt) = 0.
Proof.
  intros [Hin Hv]%strptime_match. split; [exact Hv |]. by eapply re_format_time.
Qed.

(** After a date written by [strftime], whatever follows the blank, the
    format can only read that date. *)
Lemma strptime_date_prefix (a : date) (s : string) (dt : datetime) :
  valid_date a = true ->
  strptime (strftime_date a +:+ " " +:+ s) = Some dt ->
  dt_date dt = a.
Proof.
  intros Ha [Hin _]%strptime_match.
  pose proof (PyDatetimeFacts.valid_date_bounds a Ha) as (Hy & Hmo & Hday).
  pose proof (PyDatetimeFacts.days_in_month_bounds (year a) (month a)) as Hdim.
  destruct a as [Y mo dd]; cbn [year month day] in *.
  destruct (PyDatetimeFacts.four_digits Y) as (y1 & y2 & y3 & y4 & ? & ? & ? & ? & ->);
    [lia |].
  destruct (PyDatetimeFacts.two_digits mo) as (m1 & m2 & ? & ? & ->); [lia |].
  destruct (PyDatetimeFacts.two_digits dd) as (d1 & d2 & ? & ? & ->); [lia |].
  revert Hin. unfold strftime_date; cbn [year month day].
  rewrite PyStrFacts.pad4_digits, !PyStrFacts.pad2_digits by assumption.
  cbv [String.append]. fold String.append. unfold re_format.
  intros (Y' & s1 & s2 & HY & Hl1 & Hk)%field_then_elem.
  rewrite PyDatetimeFacts.re_Y_chr in HY by assumption.
  apply list_elem_of_singleton in HY. injection HY as -> ->.
  rewrite PyDatetimeFacts.lit_same in Hl1.
  apply list_elem_of_singleton in Hl1. injection Hl1 as ->.
  apply field_then_elem in Hk as (m' & s3 & s4 & Hm & Hl2 & Hk).
  rewrite PyDatetimeFacts.re_m_chr in Hm by assumption.
  apply elem_of_app in Hm as [Hm | Hm].
  2:{ destruct (1 <=? m1); [| by apply elem_of_nil in Hm].
      apply list_elem_of_singleton in Hm. injection Hm as -> ->.
      rewrite PyDatetimeFacts.lit_chr in Hl2 by done. by apply elem_of_nil in Hl2. }
  destruct ((1 <=? 10 * m1 + m2) && (10 * m1 + m2 <=? 12)); [| by apply elem_of_nil in Hm].
  apply list_elem_of_singleton in Hm. injection Hm as -> ->.
  rewrite PyDatetimeFacts.lit_same in Hl2.
  apply list_elem_of_singleton in Hl2. injection Hl2 as ->.
  apply field_then_elem in Hk as (d' & s5 & s6 & Hd & Hsp & Hk).
  rewrite PyDatetimeFacts.re_d_chr in Hd by assumption.
  apply elem_of_app in Hd as [Hd | Hd].
  2:{ destruct (1 <=? d1); [| by apply elem_of_nil in Hd].
      apply list_elem_of_singleton in Hd. injection Hd as -> ->.
      rewrite PyDatetimeFacts.spaces1_chr in Hsp by done. by apply elem_of_nil in Hsp. }
  destruct ((1 <=? 10 * d1 + d2) && (10 * d1 + d2 <=? 31)); [| by apply elem_of_nil in Hd].
  apply list_elem_of_singleton in Hd. injection Hd as -> ->.
  apply field_then_elem in Hk as (hh & ? & ? & _ & _ & Hk).
  apply list_elem_of_bind in Hk as ([mm ?] & Hk & _).
  apply list_elem_of_singleton in Hk. by injection Hk as ->.
Qed.

(** *** Where the entries of the agenda come from *)

Lemma with_spawn_dt_inv (t x : record) :
  with_spawn_dt py_repr t = Return (Some x) ->
  exists d tm dt,
    t !! "date" = Some d /\ t !! "time" = Some tm
    /\ strptime (py_format py_repr d +:+ " " +:+ py_format py_repr tm) = Some dt
    /\ x = <["spawn_dt" := VDatetime dt]> t.
Proof.
  unfold with_spawn_dt, record_getitem. cbn [py_getitem].
  destruct (t !! "date") as [d |]; [| discriminate].
  destruct (t !! "time") as [tm |]; [| discriminate].
  cbn [mbind outcome_bind].
  destruct (strptime _) as [dt |] eqn:Hp; [| discriminate].
  cbn. intros [= <-]. by exists d, tm, dt.
Qed.

Lemma floating_loop_origin (l : list record) :
  forall acc c u,
    for_each (floating_step py_repr) l acc = Return (c, u) ->
    forall x, x ∈ c ->
      x ∈ acc.1
      \/ exists t, t ∈ l
                   /\ eq_str (default VNone (t !! "time")) sentinel = false
                   /\ truthy (default VNone (t !! "date")) = true
                   /\ with_spawn_dt py_repr t = Return (Some x).
Proof.
  induction l as [| t l IH]; intros acc c u.
  - destruct acc as [c0 u0]. intros [= <- <-] x Hx. by left.
  - cbn [for_each].
    destruct (floating_step py_repr acc t) as [acc1 |] eqn:Hstep; [| discriminate].
    cbn [mbind outcome_bind]. intros Hl x Hx.
    destruct (IH acc1 c u Hl x Hx) as [Hacc | (t' & Ht' & H)].
    2:{ right. exists t'. split; [by right | exact H]. }
    unfold floating_step in Hstep.
    destruct (negb (eq_str _ sentinel)) eqn:Hs; cbn [andb] in Hstep.
    2:{ injection Hstep as <-. by left. }
    destruct (truthy (default VNone (t !! "date"))) eqn:Hd.
    2:{ injection Hstep as <-. by left. }
    destruct (with_spawn_dt py_repr t) as [[x' |] |] eqn:Hw; cbn in Hstep;
      try discriminate; injection Hstep as <-; cbn [fst] in Hacc; [| by left].
    apply elem_of_app in Hacc as [Hacc | Hacc]; [by left |].
    apply list_elem_of_singleton in Hacc as ->.
    right. exists t. apply negb_true_iff in Hs. repeat split; [by left | done..].
Qed.

Lemma fixed_loop_origin (l : list record) :
  forall acc c u,
    for_each (fixed_step py_repr) l acc = Return (c, u) ->
    forall x, x ∈ c ->
      x ∈ acc.1 \/ exists t, t ∈ l /\ with_spawn_dt py_repr t = Return (Some x).
Proof.
  induction l as [| t l IH]; intros acc c u.
  - destruct acc as [c0 u0]. intros [= <- <-] x Hx. by left.
  - cbn [for_each].
    destruct (fixed_step py_repr acc t) as [acc1 |] eqn:Hstep; [| discriminate].
    cbn [mbind outcome_bind]. intros Hl x Hx.
    destruct (IH acc1 c u Hl x Hx) as [Hacc | (t' & Ht' & H)].
    2:{ right. exists t'. split; [by right | exact H]. }
    unfold fixed_step in Hstep.
    destruct (with_spawn_dt py_repr t) as [[x' |] |] eqn:Hw; cbn in Hstep;
      try discriminate; injection Hstep as <-; cbn [fst] in Hacc; [| by left].
    apply elem_of_app in Hacc as [Hacc | Hacc]; [by left |].
    apply list_elem_of_singleton in Hacc as ->.
    right. exists t. split; [by left | done].
Qed.

Lemma sorted_by_spawn_dt_elem (l agenda : list record) (x : record) :
  sorted_by_spawn_dt l = Return agenda -> x ∈ agenda -> x ∈ l.
Proof.
  unfold sorted_by_spawn_dt.
  destruct (decorate l) as [dl |] eqn:Hdl; [| discriminate]. cbn. intros [= <-].
  assert (Hsnd : snd <$> dl = l).
  { clear -Hdl. revert dl Hdl. induction l as [| y l IH]; intros dl; cbn [decorate].
    - by intros [= <-].
    - destruct (spawn_dt y); [| discriminate]. cbn [mbind outcome_bind].
      destruct (decorate l); [| discriminate]. cbn. intros [= <-].
      cbn. f_equal. by apply IH. }
  rewrite sort_by_key_perm, Hsnd. done.
Qed.

(** The entries of the agenda after a [refresh_timers] that returned. *)
Lemma agenda_origin (clk : wall_clock) (b b' : CloudBot) (x : record) :
  refresh_timers py_repr clk b = (Return tt, b') ->
  x ∈ sorted_timers_data b' ->
  exists t,
    with_spawn_dt py_repr t = Return (Some x)
    /\ ((t ∈ floating_timers_data b
         /\ eq_str (default VNone (t !! "time")) sentinel = false
         /\ truthy (default VNone (t !! "date")) = true)
        \/ t ∈ fixed_timers_with_date b').
Proof.
  rewrite refresh_timers_unfold.
  pose proof (set_fixed_timers_dates_floating clk b) as Hfl.
  destruct (set_fixed_timers_dates clk b) as [[fixed | e] b1]; [| discriminate].
  cbn [snd] in Hfl. rewrite Hfl.
  destruct (for_each (floating_step py_repr) _ _) as [[c1 u1] |] eqn:H1;
    cbn [mbind outcome_bind]; [| discriminate].
  destruct (for_each (fixed_step py_repr) _ _) as [[c2 u2] |] eqn:H2;
    cbn [mbind outcome_bind fst]; [| discriminate].
  destruct (sorted_by_spawn_dt c2) as [agenda |] eqn:Hs; [| discriminate].
  intros [= <-]. cbn. intros Hx.
  apply (sorted_by_spawn_dt_elem _ _ _ Hs) in Hx.
  destruct (fixed_loop_origin _ _ _ _ H2 x Hx) as [Hx1 | (t & Ht & Hw)].
  - cbn [fst] in Hx1.
    destruct (floating_loop_origin _ _ _ _ H1 x Hx1) as [Hnil | (t & Ht & ? & ? & Hw)].
    + by apply elem_of_nil in Hnil.
    + exists t. split; [exact Hw |]. left. by repeat split.
  - exists t. split; [exact Hw |]. by right.
Qed.

(** X12. After a [refresh_timers] that returned, every entry of the
    agenda is one of the bot's floating records (its time not the
    placeholder, its date truthy) or one of the fixed timers with their
    date, unchanged but for ["spawn_dt"], which holds what [strptime]
    read from the record's date, a blank and its time. *)
Theorem agenda_entries_come_from_records (clk : wall_clock) (b b' : CloudBot) (x : record) :
  refresh_timers py_repr clk b = (Return tt, b') ->
  x ∈ sorted_timers_data b' ->
  exists t d tm dt,
    ((t ∈ floating_timers_data b
      /\ eq_str tm sentinel = false /\ truthy d = true)
     \/ t ∈ fixed_timers_with_date b')
    /\ t !! "date" = Some d /\ t !! "time" = Some tm
    /\ strptime (py_format py_repr d +:+ " " +:+ py_format py_repr tm) = Some dt
    /\ x = <["spawn_dt" := VDatetime dt]> t.
Proof.
  intros Hr Hx. destruct (agenda_origin clk b b' x Hr Hx) as (t & Hw & Ht).
  destruct (with_spawn_dt_inv t x Hw) as (d & tm & dt & Hd & Htm & Hp & ->).
  exists t, d, tm, dt. rewrite Hd, Htm in Ht. cbn in Ht. by repeat split.
Qed.

(** X13. After a [refresh_timers] that returned, the ["spawn_dt"] of
    every entry of the agenda is a datetime of the calendar: a valid date
    between the years 1 and 9999, an hour below 24 and a minute below 60,
    seconds and microseconds zero. *)
Theorem agenda_timestamps_valid (clk : wall_clock) (b b' : CloudBot) (x : record) :
  refresh_timers py_repr clk b = (Return tt, b') ->
  x ∈ sorted_timers_data b' ->
  exists dt,
    spawn_dt x = Return dt
    /\ valid_date (dt_date dt) = true
    /\ valid_hm (hour (dt_time dt)) (minute (dt_time dt)) = true
    /\ second (dt_time dt) = 0 /\ microsecond (dt_time dt) = 0.
Proof.
  intros Hr Hx. destruct (agenda_origin clk b b' x Hr Hx) as (t & Hw & _).
  destruct (with_spawn_dt_inv t x Hw) as (d & tm & dt & _ & _ & Hp & ->).
  exists dt. split; [| by apply strptime_valid in Hp].
  unfold spawn_dt. by rewrite lookup_insert_eq.
Qed.

(** *** Fixed timers on the agenda *)

Lemma sorted_by_spawn_dt_keeps (l agenda : list record) (x : record) :
  sorted_by_spawn_dt l = Return agenda -> x ∈ l -> x ∈ agenda.
Proof.
  unfold sorted_by_spawn_dt.
  destruct (decorate l) as [dl |] eqn:Hdl; [| discriminate]. cbn. intros [= <-].
  assert (Hsnd : snd <$> dl = l).
  { clear -Hdl. revert dl Hdl. induction l as [| y l IH]; intros dl; cbn [decorate].
    - by intros [= <-].
    - destruct (spawn_dt y); [| discriminate]. cbn [mbind outcome_bind].
      destruct (decorate l); [| discriminate]. cbn. intros [= <-].
      cbn. f_equal. by apply IH. }
  rewrite sort_by_key_perm, Hsnd. done.
Qed.

(** X14. After a [refresh_timers] that returned, a dated fixed timer
    whose date and time [strptime] accepts is on the agenda, and its
    ["spawn_dt"] falls on the date of today or on that of tomorrow,
    whatever its time string is. *)
Theorem fixed_entries_spawn_today_or_tomorrow (clk : wall_clock) (b b' : CloudBot)
    (cfg : list value) (tomorrow : date) (t x : record) :
  timers_config b = VList cfg ->
  forallb is_dict cfg = true ->
  valid_date (read_today clk) = true ->
  valid_date (read_today' clk) = true ->
  add_one_day (read_today' clk) = Some tomorrow ->
  refresh_timers py_repr clk b = (Return tt, b') ->
  t ∈ fixed_timers_with_date b' ->
  with_spawn_dt py_repr t = Return (Some x) ->
  x ∈ sorted_timers_data b'
  /\ exists dt, spawn_dt x = Return dt
                /\ (dt_date dt = read_today clk \/ dt_date dt = tomorrow).
Proof.
  intros Hcfg Hd Htoday Htoday' Htm Hr Ht Hw.
  destruct (set_fixed_timers_dates_spec clk b cfg tomorrow Hcfg Hd Htm)
    as (fd & b1 & Hset & Hb1 & _).
  rewrite (refresh_timers_run clk b b1 _ Hset) in Hr.
  destruct (for_each (floating_step py_repr) _ _) as [acc |];
    cbn [mbind outcome_bind] in Hr; [| discriminate].
  destruct (for_each (fixed_step py_repr) _ acc) as [[c u] |] eqn:Hfx;
    cbn [mbind outcome_bind fst] in Hr; [| discriminate].
  destruct (sorted_by_spawn_dt c) as [agenda |] eqn:Hs; [| discriminate].
  injection Hr as <-. cbn in Ht |- *. split.
  - eapply sorted_by_spawn_dt_keeps; [exact Hs |].
    eapply for_each_fixed_step_confirms; eassumption.
  - apply list_elem_of_omap in Ht as (timer & _ & Htry).
    apply fixed_timer_try_dated in Htry as [_ Hdate].
    destruct (with_spawn_dt_inv t x Hw) as (d & tm & dt & Hd' & _ & Hp & ->).
    exists dt. split; [unfold spawn_dt; by rewrite lookup_insert_eq |].
    assert (Htomorrow : valid_date tomorrow = true)
      by (eapply add_one_day_valid; eassumption).
    destruct Hdate as [-> | ->]; rewrite lookup_insert_eq in Hd';
      injection Hd' as <-; cbn [py_format] in Hp;
      apply strptime_date_prefix in Hp; auto.
Qed.

(** *** Refreshing again *)

Lemma set_fixed_timers_dates_log_only (clk : wall_clock) (b : CloudBot) :
  same_but_log b (snd (set_fixed_timers_dates clk b)).
Proof.
  unfold set_fixed_timers_dates. run_M.
  destruct (add_one_day (read_today' clk)) as [tomorrow |]; [| reflexivity].
  cbn [mbind outcome_bind].
  destruct (py_iter (timers_config b)) as [items |]; [| reflexivity].
  cbn [mbind outcome_bind].
  destruct (fixed_only items) as [fd |]; [| reflexivity].
  cbn [mbind outcome_bind].
  destruct (fixed_loop_spec clk tomorrow fd [] b) as (b1 & Hloop & Hb1).
  by rewrite Hloop.
Qed.

Lemma set_fixed_timers_dates_outcome (clk : wall_clock) (b s : CloudBot) :
  timers_config s = timers_config b ->
  fst (set_fixed_timers_dates clk s) = fst (set_fixed_timers_dates clk b).
Proof.
  intros Hcfg. unfold set_fixed_timers_dates. run_M. rewrite Hcfg.
  destruct (add_one_day (read_today' clk)) as [tomorrow |]; [| reflexivity].
  cbn [mbind outcome_bind].
  destruct (py_iter (timers_config b)) as [items |]; [| reflexivity].
  cbn [mbind outcome_bind].
  destruct (fixed_only items) as [fd |]; [| reflexivity].
  cbn [mbind outcome_bind].
  destruct (fixed_loop_spec clk tomorrow fd [] b) as (b1 & -> & _).
  destruct (fixed_loop_spec clk tomorrow fd [] s) as (s1 & -> & _).
  reflexivity.
Qed.

Lemma same_but_log_config (b1 b2 : CloudBot) :
  same_but_log b1 b2 -> timers_config b1 = timers_config b2.
Proof. intros H. apply (f_equal timers_config) in H. exact H. Qed.

(** X15. The agenda is rebuilt from scratch: a second [refresh_timers]
    with the same clock reads ends as the first did and leaves the bot as
    the first left it, the log apart. *)
Theorem refresh_timers_again (clk : wall_clock) (b : CloudBot) :
  let r1 := refresh_timers py_repr clk b in
  let r2 := refresh_timers py_repr clk (snd r1) in
  fst r2 = fst r1 /\ same_but_log (snd r1) (snd r2).
Proof.
  cbv zeta.
  assert (Hnext : forall s o,
            timers_config s = timers_config b ->
            fst (set_fixed_timers_dates clk b) = o ->
            exists s2, set_fixed_timers_dates clk s = (o, s2)
                       /\ same_but_log s s2
                       /\ floating_timers_data s2 = floating_timers_data s).
  { intros s o Hcfg <-. exists (snd (set_fixed_timers_dates clk s)). split; [| split].
    - rewrite <- (set_fixed_timers_dates_outcome clk b s Hcfg).
      by destruct (set_fixed_timers_dates clk s).
    - apply set_fixed_timers_dates_log_only.
    - apply set_fixed_timers_dates_floating. }
  pose proof (same_but_log_config _ _ (set_fixed_timers_dates_log_only clk b)) as Hcfg.
  rewrite (refresh_timers_unfold clk b).
  destruct (set_fixed_timers_dates clk b) as [[fixed | e] b1]; cbn [fst snd] in *.
  - destruct (_ ≫= _) as [agenda | e] eqn:Hloops; cbn [fst snd].
    + destruct (Hnext (with_sorted_timers_data agenda
                         (with_fixed_timers_with_date fixed b1)) (Return fixed))
        as (s2 & Hset & Hlog & Hfl); [by symmetry | reflexivity |].
      rewrite refresh_timers_unfold, Hset, Hfl.
      cbn [floating_timers_data with_sorted_timers_data with_fixed_timers_with_date].
      rewrite Hloops. split; [reflexivity |].
      unfold same_but_log in *.
      change (with_log [] (with_sorted_timers_data agenda
                             (with_fixed_timers_with_date fixed b1))
              = with_sorted_timers_data agenda
                  (with_fixed_timers_with_date fixed (with_log [] s2))).
      by rewrite <- Hlog.
    + destruct (Hnext (with_fixed_timers_with_date fixed b1) (Return fixed))
        as (s2 & Hset & Hlog & Hfl); [by symmetry | reflexivity |].
      rewrite refresh_timers_unfold, Hset, Hfl.
      cbn [floating_timers_data with_fixed_timers_with_date].
      rewrite Hloops. split; [reflexivity |].
      unfold same_but_log in *.
      change (with_log [] (with_fixed_timers_with_date fixed b1)
              = with_fixed_timers_with_date fixed (with_log [] s2)).
      by rewrite <- Hlog.
  - destruct (Hnext b1 (Raise e)) as (s2 & Hset & Hlog & _);
      [by symmetry | reflexivity |].
    by rewrite refresh_timers_unfold, Hset.
Qed.

(** *** Discord messages *)

Lemma rstrip_rstrip (s : string) : rstrip (rstrip s) = rstrip s.
Proof.
  induction s as [| c r IH]; [reflexivity |]. cbn [rstrip].
  destruct (rstrip r) as [| c' r'] eqn:Hr.
  - destruct (is_space c) eqn:Hc; [reflexivity |]. cbn [rstrip]. by rewrite Hc.
  - cbn [rstrip]. cbn [rstrip] in IH. by rewrite IH.
Qed.

Lemma rstrip_cons (c : ascii) (r : string) :
  is_space c = false -> rstrip (String c r) = String c (rstrip r).
Proof. intros Hc. cbn [rstrip]. destruct (rstrip r); by rewrite ?Hc. Qed.

Lemma lstrip_head (s : string) :
  lstrip s = EmptyString \/ exists c r, lstrip s = String c r /\ is_space c = false.
Proof.
  induction s as [| c r IH]; [by left |]. cbn [lstrip].
  destruct (is_space c) eqn:Hc; [exact IH |]. right. by exists c, r.
Qed.

Lemma strip_strip (s : string) : strip (strip s) = strip s.
Proof.
  unfold strip. destruct (lstrip_head s) as [-> | (c & r & -> & Hc)]; [reflexivity |].
  rewrite (rstrip_cons c r Hc). cbn [lstrip]. rewrite Hc.
  rewrite (rstrip_cons c _ Hc). by rewrite rstrip_rstrip.
Qed.

Lemma lstrip_sub (x : ascii) (s : string) :
  In x (list_ascii_of_string (lstrip s)) -> In x (list_ascii_of_string s).
Proof.
  induction s as [| c r IH]; [done |]. cbn [lstrip].
  destruct (is_space c); [| done]. intros H. right. by apply IH.
Qed.

Lemma rstrip_sub (x : ascii) (s : string) :
  In x (list_ascii_of_string (rstrip s)) -> In x (list_ascii_of_string s).
Proof.
  induction s as [| c r IH]; [done |]. cbn [rstrip].
  destruct (rstrip r) as [| c' r'] eqn:Hr.
  - destruct (is_space c); [done |]. cbn. intros [<- | []]. by left.
  - cbn [list_ascii_of_string]. intros [<- | H]; [by left |]. right. by apply IH.
Qed.

Lemma strip_sub (x : ascii) (s : string) :
  In x (list_ascii_of_string (strip s)) -> In x (list_ascii_of_string s).
Proof. unfold strip. intros H. by apply lstrip_sub, rstrip_sub. Qed.

Lemma split_no_sep (sep : ascii) (s p : string) :
  p ∈ split sep s -> ~ In sep (list_ascii_of_string p).
Proof.
  revert p. induction s as [| c r IH]; intros p; cbn [split].
  - intros ->%list_elem_of_singleton. by intros [].
  - destruct (Ascii.eqb c sep) eqn:Hc.
    + intros [-> | Hp]%elem_of_cons; [by intros [] | by apply IH].
    + apply Ascii.eqb_neq in Hc.
      destruct (split sep r) as [| q qs].
      * intros ->%list_elem_of_singleton. cbn. intros [? | []]. by apply Hc.
      * intros [-> | Hp]%elem_of_cons.
        -- cbn. intros [? | Hq]; [by apply Hc |]. revert Hq. apply IH. by left.
        -- apply IH. by right.
Qed.

(** A blank string has only blank lines. *)
Lemma strip_empty_no_channels (str : string) :
  strip str = EmptyString ->
  filter (fun cid => cid <> EmptyString) (strip <$> split "010" (strip str)) = [].
Proof. intros ->. reflexivity. Qed.

(** A post that answers, with a status or a [RequestException], does not
    stop the loop; an exception of another class does. *)
Lemma post_all_returns (respond : string -> post_result) (message : value)
    (channel_list : list string) :
  (forall cid, cid ∈ channel_list -> forall e, respond cid <> PostRaises e) ->
  forall b, exists b',
    post_all respond message channel_list b = (Return tt, b')
    /\ discord_outbox b'
       = (discord_outbox b ++ ((fun cid => (cid, message)) <$> channel_list))%list
    /\ same_but_log (with_discord_outbox [] b) (with_discord_outbox [] b').
Proof.
  induction channel_list as [| cid rest IH]; intros Hok b.
  - exists b. cbn. by rewrite app_nil_r.
  - cbn [post_all]. run_M.
    assert (Hrest : forall c, c ∈ rest -> forall e, respond c <> PostRaises e)
      by (intros c Hc; apply Hok; by right).
    destruct (respond cid) as [status | | e] eqn:Hr;
      [| | by destruct (Hok cid ltac:(by left) e)];
      run_M;
      match goal with
      | |- context [post_all respond message rest ?s] =>
          destruct (IH Hrest s) as (b' & -> & Hout & Hsame)
      end;
      exists b'; (split; [reflexivity |]); (split;
        [rewrite Hout; cbn; by rewrite <- app_assoc
        | unfold same_but_log in *; rewrite <- Hsame; reflexivity]).
Qed.

Lemma post_all_raises (respond : string -> post_result) (message : value)
    (pre post : list string) (cid : string) (e : exn) :
  (forall c, c ∈ pre -> forall e', respond c <> PostRaises e') ->
  respond cid = PostRaises e ->
  forall b, exists b',
    post_all respond message (pre ++ cid :: post) b = (Raise e, b')
    /\ discord_outbox b'
       = (discord_outbox b ++ ((fun c => (c, message)) <$> (pre ++ [cid])))%list
    /\ same_but_log (with_discord_outbox [] b) (with_discord_outbox [] b').
Proof.
  intros Hpre Hcid. induction pre as [| c pre IH]; intros b.
  - cbn [app post_all]. run_M. rewrite Hcid. run_M.
    eexists. split; [reflexivity |]. by split.
  - cbn [app post_all]. run_M.
    assert (Hrest : forall c', c' ∈ pre -> forall e', respond c' <> PostRaises e')
      by (intros c' Hc'; apply Hpre; by right).
    destruct (respond c) as [status | | e'] eqn:Hr;
      [| | by destruct (Hpre c ltac:(by left) e')];
      run_M;
      match goal with
      | |- context [post_all respond message _ ?s] =>
          destruct (IH Hrest s) as (b' & -> & Hout & Hsame)
      end;
      exists b'; (split; [reflexivity |]); (split;
        [rewrite Hout; cbn; by rewrite <- app_assoc
        | unfold same_but_log in *; rewrite <- Hsame; reflexivity]).
Qed.

(** X16. With Discord enabled, a token in the settings and a channel list
    of ASCII characters, [send_discord_message] calls [requests.post]
    once for every non-blank line of the list, in the order of the lines;
    no channel id is empty, starts or ends with a blank, or holds a
    newline. A post that answers with a status, whichever, or with a
    [RequestException] does not keep the later channels from theirs: when
    every post answers so, the method returns after the last. An
    exception of another class is not caught: the method raises it, and
    the channels after that one get no post. Nothing but the log (and the
    record of the posts) changes in the bot. *)
Theorem send_discord_message_posts_in_order (respond : string -> post_result)
    (message : value) (str : string) (b : CloudBot) (m : gmap string value) :
  settings b = VDict m ->
  truthy (default (VBool false) (m !! "send_discord")) = true ->
  truthy (default VNone (m !! "discord_token")) = true ->
  str <> EmptyString ->
  is_ascii str = true ->
  let cids := filter (fun cid => cid <> EmptyString) (strip <$> split "010" (strip str)) in
  Forall (fun cid => cid <> EmptyString /\ strip cid = cid
                     /\ ~ In "010"%char (list_ascii_of_string cid)) cids
  /\ ((forall cid, cid ∈ cids -> forall e, respond cid <> PostRaises e) ->
      exists b',
        send_discord_message respond message (VStr str) b = (Return tt, b')
        /\ discord_outbox b'
           = (discord_outbox b ++ ((fun cid => (cid, message)) <$> cids))%list
        /\ same_but_log (with_discord_outbox [] b) (with_discord_outbox [] b'))
  /\ (forall pre cid post e,
        cids = (pre ++ cid :: post)%list ->
        (forall c, c ∈ pre -> forall e', respond c <> PostRaises e') ->
        respond cid = PostRaises e ->
        exists b',
          send_discord_message respond message (VStr str) b = (Raise e, b')
          /\ discord_outbox b'
             = (discord_outbox b ++ ((fun c => (c, message)) <$> (pre ++ [cid])))%list
          /\ same_but_log (with_discord_outbox [] b) (with_discord_outbox [] b')).
Proof.
  intros Hs Hen Htok Hstr _. cbv zeta.
  destruct (m !! "send_discord") as [en |] eqn:Hm1; [| discriminate Hen].
  destruct (m !! "discord_token") as [tok |] eqn:Hm2; [| discriminate Htok].
  cbn in Hen, Htok.
  assert (Hsend : send_discord_message respond message (VStr str) b
                  = post_all respond message
                      (filter (fun cid => cid <> EmptyString)
                         (strip <$> split "010" (strip str))) b).
  { unfold send_discord_message. run_M. rewrite Hs. cbn [py_get]. rewrite Hm1, Hm2.
    cbn [mbind outcome_bind]. rewrite Hen, Htok. cbn [negb orb truthy].
    apply String.eqb_neq in Hstr. rewrite Hstr. reflexivity. }
  rewrite Hsend. split; [| split].
  - apply Forall_forall. intros cid [Hne Hin]%list_elem_of_filter.
    apply list_elem_of_fmap in Hin as (line & -> & Hline).
    split; [exact Hne |]. split; [apply strip_strip |].
    intros Hnl. apply strip_sub in Hnl. by apply (split_no_sep _ _ _ Hline).
  - intros Hok. by apply post_all_returns.
  - intros pre cid post e -> Hpre Hcid. by apply post_all_raises.
Qed.

(** X17. [send_discord_message] posts nothing and leaves the bot as it is
    when Discord is not enabled in the settings, when they hold no token,
    when the channel list is falsy, or when it has only blank lines. *)
Theorem send_discord_message_silent (respond : string -> post_result)
    (message channels : value) (b : CloudBot) (m : gmap string value) :
  settings b = VDict m ->
  truthy (default (VBool false) (m !! "send_discord")) = false
  \/ truthy (default VNone (m !! "discord_token")) = false
  \/ truthy channels = false
  \/ (exists str, channels = VStr str /\ strip str = EmptyString) ->
  send_discord_message respond message channels b = (Return tt, b).
Proof.
  intros Hs Hcase. unfold send_discord_message. run_M. rewrite Hs. cbn [py_get].
  change (match m !! "send_discord" with Some x => x | None => VBool false end)
    with (default (VBool false) (m !! "send_discord")).
  change (match m !! "discord_token" with Some x => x | None => VNone end)
    with (default VNone (m !! "discord_token")).
  cbn [mbind outcome_bind].
  destruct (truthy (default (VBool false) (m !! "send_discord"))) eqn:Hen;
    cbn [negb]; [| reflexivity].
  destruct (truthy (default VNone (m !! "discord_token"))) eqn:Htok;
    cbn [negb orb]; [| reflexivity].
  destruct (truthy channels) eqn:Hch; cbn [negb]; [| reflexivity].
  destruct Hcase as [? | [? | [? | (str & -> & Hblank)]]]; try discriminate.
  by rewrite (strip_empty_no_channels str Hblank).
Qed.

(** *** What the main loop never does *)

Lemma fetch_from_github_alerts (r : github_response) (p d : value) :
  preserves alerts (fetch_from_github IS_GITHUB_AVAILABLE r p d).
Proof.
  assert (Ha : preserves alerts (fetch_attempt IS_GITHUB_AVAILABLE r p)).
  { unfold fetch_attempt, _get_repo, connect_to_github. preserve. }
  intros b. unfold fetch_from_github. specialize (Ha b).
  destruct (fetch_attempt IS_GITHUB_AVAILABLE r p b) as [[[v |] | e] b1];
    cbn [snd] in *; try exact Ha.
  destruct e; exact Ha.
Qed.

Lemma load_all_data_from_cloud_alerts (i : sync_input) :
  preserves alerts (load_all_data_from_cloud py_eq IS_GITHUB_AVAILABLE i).
Proof.
  unfold load_all_data_from_cloud, load_game_profile, update_timers_data_from_remote,
    update_events_data_from_remote.
  preserve; apply fetch_from_github_alerts.
Qed.

Lemma iteration_alerts (t : tick) (last : float) :
  preserves alerts (iteration py_repr py_eq IS_GITHUB_AVAILABLE t last).
Proof.
  unfold iteration. preserve;
    first [apply load_all_data_from_cloud_alerts | apply check_all_notifications_alerts].
Qed.

Lemma iterations_alerts (ticks : list tick) :
  forall last, preserves alerts (iterations py_repr py_eq IS_GITHUB_AVAILABLE ticks last).
Proof.
  induction ticks as [| t rest IH]; intros last; cbn [iterations]; [apply preserves_ret |].
  apply preserves_bind; [apply iteration_alerts | intros [last1 calls]].
  apply preserves_bind; [apply IH | intros [last2 calls']]. apply preserves_ret.
Qed.

(** X18. The main loop alerts nobody: however many turns it makes and
    whatever the syncs and the clocks give, and however it ends, [run]
    posts no Discord message and records no sent notification. *)
Theorem run_never_alerts (ticks : list tick) (b : CloudBot) :
  discord_outbox (snd (run py_repr py_eq IS_GITHUB_AVAILABLE ticks b)) = discord_outbox b
  /\ sent_notifications (snd (run py_repr py_eq IS_GITHUB_AVAILABLE ticks b))
     = sent_notifications b.
Proof.
  assert (H : preserves alerts (run py_repr py_eq IS_GITHUB_AVAILABLE ticks)).
  { unfold run. apply preserves_bind; [preserve | intros ?; apply iterations_alerts]. }
  specialize (H b). unfold alerts in H. by injection H.
Qed.
End Properties.

(** ** The dashboard *)

Section DashboardProperties.

Import WebApp.

Variable IS_GITHUB_AVAILABLE : bool.
Variable ADMIN_PASSWORD : string.
Variable json_dumps : value -> string.

Ltac run_W :=
  cbv [mbind W_bind mret W_ret perform web_raise try_except flash].

(** The calls already made and the messages already flashed stay; the
    new calls come behind them. *)
Lemma update_github_file_calls (gh : github_answers) (repo_full_name file_path : string)
    (token data : value) (commit_message : string) (w : web_state) :
  exists new,
    snd (update_github_file IS_GITHUB_AVAILABLE json_dumps gh repo_full_name file_path
           token data commit_message w)
    = mkWeb (github_calls w ++ new)%list (flashed w)
    /\ (new = [] \/ IS_GITHUB_AVAILABLE = true).
Proof.
  unfold update_github_file.
  destruct IS_GITHUB_AVAILABLE; cbn [negb]; run_W.
  2: { exists []. rewrite app_nil_r. destruct w. by split; [| left]. }
  destruct (on_get_repo gh) as [[] | e0]; cbn [github_calls flashed].
  2: { eexists. by split; [| right]. }
  destruct (on_get_contents gh) as [[path sha] | e1]; cbn [github_calls flashed].
  - destruct (on_update_file gh) as [[] | e2]; cbn [github_calls flashed].
    + rewrite <- !app_assoc. eexists. by split; [| right].
    + destruct e2 as [| status |]; try (rewrite <- !app_assoc; eexists; by split; [| right]).
      destruct (status =? 404); [| rewrite <- !app_assoc; eexists; by split; [| right]].
      destruct (on_create_file gh) as [[] | e3]; cbn [github_calls flashed snd];
        rewrite <- !app_assoc; eexists; by split; [| right].
  - destruct e1 as [| status |]; try (rewrite <- !app_assoc; eexists; by split; [| right]).
    destruct (status =? 404); [| rewrite <- !app_assoc; eexists; by split; [| right]].
    destruct (on_create_file gh) as [[] | e3]; cbn [github_calls flashed snd];
      rewrite <- !app_assoc; eexists; by split; [| right].
Qed.

(** X19. What the two results of [update_github_file] mean. "File updated
    successfully." is returned only when [get_contents] found the file
    and [update_file] went through, after exactly these calls and no
    [create_file]. "File created successfully." is returned only when
    [create_file] went through after a 404, and the 404 may be one that
    [update_file] raised on a file [get_contents] had found. *)
Theorem update_github_file_result (gh : github_answers) (repo_full_name file_path : string)
    (token data : value) (commit_message s : string) (w w' : web_state) :
  update_github_file IS_GITHUB_AVAILABLE json_dumps gh repo_full_name file_path
    token data commit_message w = (WebReturn s, w') ->
  IS_GITHUB_AVAILABLE = true /\ on_get_repo gh = WebReturn tt /\ flashed w' = flashed w
  /\ ((s = "File updated successfully."
       /\ exists path sha,
            on_get_contents gh = WebReturn (path, sha)
            /\ on_update_file gh = WebReturn tt
            /\ github_calls w'
               = (github_calls w
                  ++ [Call_get_repo token repo_full_name;
                      Call_get_contents file_path "main";
                      Call_update_file path commit_message (json_dumps data) sha "main"])%list)
      \/ (s = "File created successfully."
          /\ on_create_file gh = WebReturn tt
          /\ (not_found (on_get_contents gh)
              \/ (exists p, on_get_contents gh = WebReturn p)
                 /\ not_found (on_update_file gh))
          /\ last (github_calls w')
             = Some (Call_create_file file_path commit_message (json_dumps data) "main"))).
Proof.
  unfold update_github_file, not_found.
  destruct IS_GITHUB_AVAILABLE; cbn [negb]; run_W; [| discriminate].
  destruct (on_get_repo gh) as [[] | e0]; [| discriminate].
  destruct (on_get_contents gh) as [[path sha] | e1]; cbn [github_calls flashed].
  - destruct (on_update_file gh) as [[] | e2]; cbn [github_calls flashed].
    + intros [= <- <-]. repeat split. left. split; [reflexivity |].
      exists path, sha. repeat split. cbn. by rewrite <- !app_assoc.
    + destruct e2 as [| status |]; try discriminate.
      destruct (status =? 404) eqn:H404; [| discriminate].
      apply Z.eqb_eq in H404 as ->.
      destruct (on_create_file gh) as [[] | e3]; [| discriminate].
      intros [= <- <-]. repeat split. right. split; [reflexivity |].
      split; [reflexivity |]. split; [right; split; [by eexists | reflexivity] |].
      cbn. by rewrite last_snoc.
  - destruct e1 as [| status |]; try discriminate.
    destruct (status =? 404) eqn:H404; [| discriminate].
    apply Z.eqb_eq in H404 as ->.
    destruct (on_create_file gh) as [[] | e3]; [| discriminate].
    intros [= <- <-]. repeat split. right. split; [reflexivity |].
    split; [reflexivity |]. split; [by left |].
    cbn. by rewrite last_snoc.
Qed.


(** X21. Without the admin password nothing reaches GitHub: when [home]
    makes any call on a repository, the request was a POST whose
    password field is the admin password, and PyGithub is available. *)
Theorem home_calls_github_only_with_password (gh : github_answers) (req : request)
    (w : web_state) :
  exists new,
    github_calls (snd (home IS_GITHUB_AVAILABLE ADMIN_PASSWORD json_dumps gh req w))
    = (github_calls w ++ new)%list
    /\ (new <> [] ->
        method req = "POST" /\ form req !! "password" = Some ADMIN_PASSWORD
        /\ IS_GITHUB_AVAILABLE = true).
Proof.
  unfold home.
  destruct (String.eqb (method req) "POST") eqn:Hm.
  2: { exists []. rewrite app_nil_r. by split. }
  apply String.eqb_eq in Hm.
  destruct (bool_decide (form req !! "password" <> Some ADMIN_PASSWORD)) eqn:Hp.
  { exists []. run_W. cbn. rewrite app_nil_r. by split. }
  apply bool_decide_eq_false in Hp.
  assert (Hpw : form req !! "password" = Some ADMIN_PASSWORD).
  { destruct (decide (form req !! "password" = Some ADMIN_PASSWORD)); [done |].
    by destruct Hp. }
  unfold mbind at 1, W_bind at 1, try_except.
  unfold mbind at 1, W_bind at 1.
  match goal with
  | |- context [update_github_file _ _ gh ?n ?p ?t ?d ?c w] =>
      destruct (update_github_file_calls gh n p t d c w) as (new & Hcalls & Hnew);
      destruct (update_github_file IS_GITHUB_AVAILABLE json_dumps gh n p t d c w)
        as [[s | e] w1]
  end; cbn [snd] in Hcalls; subst w1; run_W; cbn [github_calls flashed snd];
    exists new; (split; [reflexivity |]); intros Hne;
    (destruct Hnew as [-> | Hav]; [done | by repeat split]).
Qed.

Lemma form_settings_lookup (f : gmap string string) :
  form_settings f !! "send_discord" = Some (VBool (bool_decide (is_Some (f !! "send_discord"))))
  /\ form_settings f !! "discord_token" = Some (form_get f "discord_token")
  /\ form_settings f !! "github_token" = Some (form_get f "github_token")
  /\ form_settings f !! "github_user" = Some (form_get f "github_user")
  /\ form_settings f !! "github_repo" = Some (form_get f "github_repo").
Proof.
  unfold form_settings.
  repeat split;
    repeat first [ rewrite lookup_insert_eq; reflexivity
                 | rewrite lookup_insert_ne by discriminate ].
Qed.

(** X22. With the admin password, PyGithub available, and GitHub finding
    [settings.json] and taking the update, a POST writes the JSON of the
    form's settings to [settings.json] on the main branch of the
    repository the form names, with the token of the form, flashes the
    success and redirects. The dict it writes is truthy and holds the
    form's token under ["github_token"]. *)
Theorem home_saves_form_settings (gh : github_answers) (req : request) (w : web_state)
    (path sha : string) :
  IS_GITHUB_AVAILABLE = true ->
  method req = "POST" ->
  form req !! "password" = Some ADMIN_PASSWORD ->
  on_get_repo gh = WebReturn tt ->
  on_get_contents gh = WebReturn (path, sha) ->
  on_update_file gh = WebReturn tt ->
  let settings := form_settings (form req) in
  home IS_GITHUB_AVAILABLE ADMIN_PASSWORD json_dumps gh req w
  = (WebReturn (Redirect "home"),
     mkWeb (github_calls w
            ++ [Call_get_repo (form_get (form req) "github_token")
                  (format_value (form_get (form req) "github_user") +:+ "/"
                   +:+ format_value (form_get (form req) "github_repo"));
                Call_get_contents "settings.json" "main";
                Call_update_file path "Update settings from web dashboard"
                  (json_dumps (VDict settings)) sha "main"])%list
           (flashed w ++ [(FlashSaved, "success")])%list)
  /\ truthy (VDict settings) = true
  /\ py_get (VDict settings) "github_token" VNone
     = Return (form_get (form req) "github_token").
Proof.
  intros Hav Hm Hpw Hrepo Hget Hupd. cbv zeta.
  destruct (form_settings_lookup (form req)) as (Hsd & Hdt & Htok & Huser & Hrp).
  split; [| split].
  - unfold home, update_github_file. rewrite Hm, Hpw, Hav.
    cbn [String.eqb Ascii.eqb Bool.eqb negb].
    rewrite bool_decide_eq_false_2 by (intros H; by apply H).
    run_W. rewrite Hrepo, Hget, Hupd. cbn [github_calls flashed].
    unfold settings_item. rewrite Htok, Huser, Hrp.
    cbn [default from_option id]. by rewrite <- !app_assoc.
  - cbn [truthy]. destruct (size (form_settings (form req))) eqn:Hsz; [| reflexivity].
    apply map_size_empty_inv in Hsz.
    rewrite Hsz in Htok. by rewrite lookup_empty in Htok.
  - cbn [py_get]. by rewrite Htok.
Qed.

(** X23. The checkbox of the form governs the alerts of the worker: a bot
    whose settings are those a form without [send_discord] saved posts
    nothing, whatever the token and the channels are. *)
Theorem unchecked_form_silences_discord (f : gmap string string)
    (respond : string -> post_result) (message channels : value) (b : CloudBot) :
  f !! "send_discord" = None ->
  settings b = VDict (form_settings f) ->
  send_discord_message respond message channels b = (Return tt, b).
Proof.
  intros Hf Hs. destruct (form_settings_lookup f) as (Hsd & _).
  unfold send_discord_message. cbv [mbind M_bind bind mret M_ret ret lift get].
  rewrite Hs. cbn [py_get]. rewrite Hsd, Hf.
  rewrite bool_decide_eq_false_2 by (by intros [? ?]). reflexivity.
Qed.

End DashboardProperties.

(** ** Examples *)

(** [strptime] also reads fields without their leading zero; those are not
    laid out as [YYYY-MM-DD HH:MM] and are not written back as they were. *)
Example unpadded_fields_are_read_not_written_back :
  PyDatetime.strptime "2024-1-5 9:5"
  = Some (mkdatetime (mkdate 2024 1 5) (mktime 9 5 0 0))
  /\ PyDatetime.strftime (mkdatetime (mkdate 2024 1 5) (mktime 9 5 0 0))
     = "2024-01-05 09:05".
Proof. split; reflexivity. Qed.

Lemma update_timers_merges_floating_definitions_witness :
  timers_config example_bot = VList example_catalog
  /\ forallb (definition_ok example_remote) example_catalog = true
  /\ exists b',
       update_timers_data_from_remote (VDict example_remote) example_bot = (Return tt, b')
       /\ Forall2 (spec_merged example_remote) (floating_definitions example_catalog)
            (floating_timers_data b')
       /\ (forall definition,
             definition ∈ floating_definitions example_catalog ->
             observation_of example_remote definition = None ->
             definition ∈ floating_timers_data b').
Proof.
  split; [reflexivity |]. split; [vm_compute; reflexivity |].
  apply (update_timers_merges_floating_definitions example_bot example_catalog
           example_remote); vm_compute; reflexivity.
Defined.

Lemma update_events_frame_witness :
  update_events_data_from_remote example_py_eq (VList []) init = (Return tt, init)
  /\ exists b',
       update_events_data_from_remote example_py_eq example_profile init = (Return tt, b')
       /\ custom_events b' = example_profile.
Proof.
  split.
  - apply (proj1 (update_events_frame example_py_eq init (VList []))). reflexivity.
  - apply (proj2 (update_events_frame example_py_eq init example_profile));
      vm_compute; reflexivity.
Defined.

Lemma failed_reload_clears_settings_witness :
  (forall v, fst (fetch_attempt true (in_settings failing_sync)
                    (VStr "settings.json") loaded_bot) <> Return (Some v))
  /\ settings (snd (load_all_data_from_cloud example_py_eq true failing_sync loaded_bot))
     = VDict ∅.
Proof.
  assert (H : forall v, fst (fetch_attempt true (in_settings failing_sync)
                               (VStr "settings.json") loaded_bot) <> Return (Some v))
    by (intros v; vm_compute; discriminate).
  split; [exact H |].
  apply (failed_reload_clears_settings example_py_eq true failing_sync loaded_bot H).
Defined.

(** C5: the settings loaded before a failed reload are not kept. The
    fetch of [settings.json] ends in a GitHub error, and the sync leaves
    the empty dict where the loaded settings were. *)
Lemma failed_reload_loses_settings :
  fst (fetch_attempt true (in_settings failing_sync) (VStr "settings.json") loaded_bot)
  = Raise (GithubException 500)
  /\ settings (snd (load_all_data_from_cloud example_py_eq true failing_sync loaded_bot))
     <> settings loaded_bot.
Proof.
  split; [vm_compute; reflexivity |].
  intros H. vm_compute in H. discriminate H.
Qed.

Lemma agenda_sorted_stable_witness :
  timers_config example_merged_bot = VList example_catalog
  /\ forallb is_dict example_catalog = true
  /\ add_one_day (read_today' example_clock) = Some (mkdate 2024 1 2)
  /\ forallb time_or_no_date (floating_timers_data example_merged_bot) = true
  /\ exists b' confirmed unconfirmed,
       refresh_timers example_py_repr example_clock example_merged_bot = (Return tt, b')
       /\ (acc ← for_each (floating_step example_py_repr)
                   (floating_timers_data example_merged_bot) ([], []);
           for_each (fixed_step example_py_repr) (fixed_timers_with_date b') acc)
          = Return (confirmed, unconfirmed)
       /\ Permutation (sorted_timers_data b') confirmed
       /\ StronglySorted spawn_le (sorted_timers_data b')
       /\ forall d, filter (fun x => spawn_dt x = Return d) (sorted_timers_data b')
                    = filter (fun x => spawn_dt x = Return d) confirmed.
Proof.
  repeat (split; [vm_compute; reflexivity |]).
  apply (agenda_sorted_stable example_py_repr example_clock example_merged_bot
           example_catalog (mkdate 2024 1 2)); vm_compute; reflexivity.
Defined.

Lemma fixed_timer_anchor_witness :
  timers_config example_bot = VList example_catalog
  /\ VDict example_fixed ∈ example_catalog
  /\ example_fixed !! "time" = Some (VStr (pad2 9 +:+ ":" +:+ pad2 0))
  /\ time_gtb (dt_time (read_now example_clock)) (mktime 9 0 0 0) = true
  /\ let dated := <["date" := VStr "2024-01-02"]> example_fixed in
     let prediction :=
       <["spawn_dt" := VDatetime (mkdatetime (mkdate 2024 1 2) (mktime 9 0 0 0))]> dated in
     exists timers b1,
       set_fixed_timers_dates example_clock example_bot = (Return timers, b1)
       /\ dated ∈ timers
       /\ with_spawn_dt example_py_repr dated = Return (Some prediction)
       /\ forall b', refresh_timers example_py_repr example_clock example_bot = (Return tt, b') ->
                     prediction ∈ sorted_timers_data b'.
Proof.
  split; [reflexivity |]. split; [apply list_elem_of_here |].
  split; [vm_compute; reflexivity |]. split; [vm_compute; reflexivity |].
  apply (fixed_timer_anchor example_py_repr example_clock example_bot example_catalog
           (mkdate 2024 1 2) example_fixed 9 0);
    first [ apply list_elem_of_here | vm_compute; reflexivity ].
Defined.

Lemma floating_timestamp_round_trip_witness :
  example_observed !! "date" = Some (VStr "2024-01-05")
  /\ example_observed !! "time" = Some (VStr "09:05")
  /\ laid_out layout_Ymd_HM ("2024-01-05" +:+ " " +:+ "09:05") = true
  /\ strptime ("2024-01-05" +:+ " " +:+ "09:05")
     = Some (mkdatetime (mkdate 2024 1 5) (mktime 9 5 0 0))
  /\ floating_step example_py_repr ([], []) example_observed
     = Return ([] ++ [<["spawn_dt" := VDatetime (mkdatetime (mkdate 2024 1 5) (mktime 9 5 0 0))]>
                        example_observed], [])%list
  /\ strftime (mkdatetime (mkdate 2024 1 5) (mktime 9 5 0 0))
     = "2024-01-05" +:+ " " +:+ "09:05".
Proof.
  repeat (split; [vm_compute; reflexivity |]).
  apply (floating_timestamp_round_trip example_py_repr example_observed
           "2024-01-05" "09:05" (mkdatetime (mkdate 2024 1 5) (mktime 9 5 0 0)) ([], []));
    vm_compute; reflexivity.
Defined.

Lemma unconfirmed_floating_excluded_witness :
  floating_timers_data example_merged_bot = ([example_observed] ++ example_unobserved :: [])%list
  /\ eq_str (default VNone (example_unobserved !! "time")) sentinel = true
  /\ let r := refresh_timers example_py_repr example_clock example_merged_bot in
     let r' := refresh_timers example_py_repr example_clock
                 (with_floating_timers_data ([example_observed] ++ []) example_merged_bot) in
     fst r = fst r'
     /\ sorted_timers_data (snd r) = sorted_timers_data (snd r')
     /\ floating_timers_data (snd r) = ([example_observed] ++ example_unobserved :: [])%list.
Proof.
  split; [reflexivity |]. split; [vm_compute; reflexivity |].
  apply (unconfirmed_floating_excluded example_py_repr example_clock example_merged_bot
           [example_observed] [] example_unobserved); [reflexivity |].
  left. vm_compute. reflexivity.
Defined.

(** C4: a floating record without a remote observation can be confirmed.
    The definition carries a date and a time of its own; the remote map
    has nothing for its id, the merged record is the definition alone,
    and [refresh_timers] puts it on the agenda, which is empty without
    it. *)
Lemma dated_definition_is_confirmed :
  observation_of ∅ dated_definition = None
  /\ floating_timers_data dated_bot = [dated_definition]
  /\ sorted_timers_data (snd (refresh_timers example_py_repr example_clock dated_bot))
     = [<["spawn_dt" := VDatetime (mkdatetime (mkdate 2024 1 1) (mktime 12 0 0 0))]>
          dated_definition]
  /\ sorted_timers_data
       (snd (refresh_timers example_py_repr example_clock
               (with_floating_timers_data [] dated_bot)))
     = [].
Proof. repeat split; vm_compute; reflexivity. Qed.




Lemma add_log_bounded_newest_last_witness :
  (length [LogInitializing] <= 200)%nat
  /\ (length (add_log_entries LogMainLoop [LogInitializing]) <= 200)%nat
  /\ last (add_log_entries LogMainLoop [LogInitializing]) = Some LogMainLoop
  /\ ((length [LogInitializing] < 200)%nat ->
      add_log_entries LogMainLoop [LogInitializing]
      = ([LogInitializing] ++ [LogMainLoop])%list)
  /\ (length [LogInitializing] = 200%nat ->
      add_log_entries LogMainLoop [LogInitializing]
      = (tail [LogInitializing] ++ [LogMainLoop])%list).
Proof.
  split; [cbn; lia |].
  apply (add_log_bounded_newest_last LogMainLoop [LogInitializing]). cbn. lia.
Defined.

Lemma run_keeps_log_bounded_witness :
  (length (log_entries init) <= 200)%nat
  /\ (length (log_entries (snd (run example_py_repr example_py_eq true example_ticks init)))
      <= 200)%nat.
Proof.
  split; [cbn; lia |].
  apply (run_keeps_log_bounded example_py_repr example_py_eq true example_ticks init).
  cbn. lia.
Defined.

Lemma fetch_without_token_gives_default_witness :
  settings init = VDict ∅
  /\ truthy (default VNone ((∅ : gmap string value) !! "github_token")) = false
  /\ exists b',
       fetch_from_github true answering_response (VStr "settings.json") (VDict ∅) init
       = (Return (VDict ∅), b')
       /\ same_but_log init b'.
Proof.
  split; [reflexivity |]. split; [reflexivity |].
  apply (fetch_without_token_gives_default true answering_response (VStr "settings.json")
           (VDict ∅) init ∅); reflexivity.
Defined.

Lemma fetch_from_github_success_witness :
  settings loaded_bot = loaded_settings
  /\ gh_load answering_response = Return loaded_settings
  /\ exists b',
       fetch_from_github true answering_response (VStr "settings.json") (VDict ∅) loaded_bot
       = (Return loaded_settings, b')
       /\ is_Some (github_client b').
Proof.
  split; [reflexivity |]. split; [reflexivity |].
  apply (fetch_from_github_success true answering_response (VStr "settings.json") (VDict ∅)
           loaded_settings loaded_bot
           {[ "github_token" := VStr "token"; "github_user" := VStr "user";
              "github_repo" := VStr "repo"; "send_discord" := VBool true ]});
    first [ reflexivity | vm_compute; reflexivity | right; reflexivity ].
Defined.

Lemma reload_keeps_cached_client_witness :
  github_client connected_bot = Some (VStr "old token")
  /\ fst (fetch_attempt true (in_settings answering_sync) (VStr "settings.json")
            connected_bot)
     = Return (Some loaded_settings)
  /\ truthy loaded_settings = true
  /\ settings (snd (load_all_data_from_cloud example_py_eq true answering_sync connected_bot))
     = loaded_settings
  /\ github_client
       (snd (load_all_data_from_cloud example_py_eq true answering_sync connected_bot))
     = Some (VStr "old token").
Proof.
  split; [reflexivity |]. split; [vm_compute; reflexivity |].
  split; [vm_compute; reflexivity |].
  apply (reload_keeps_cached_client example_py_eq true answering_sync connected_bot
           (VStr "old token") loaded_settings);
    first [ reflexivity | vm_compute; reflexivity ].
Defined.

Lemma non_dict_settings_end_the_sync_witness :
  fst (fetch_attempt true (in_settings list_sync) (VStr "settings.json") loaded_bot)
  = Return (Some (VList [VInt 1]))
  /\ is_dict (VList [VInt 1]) = false
  /\ fst (load_all_data_from_cloud example_py_eq true list_sync loaded_bot)
     = Raise AttributeError
  /\ settings (snd (load_all_data_from_cloud example_py_eq true list_sync loaded_bot))
     = VList [VInt 1]
  /\ forall t last,
       tick_sync t = list_sync -> download_due (tick_time t) last = true ->
       fst (iteration example_py_repr example_py_eq true t last loaded_bot)
       = Raise AttributeError.
Proof.
  split; [vm_compute; reflexivity |]. split; [reflexivity |].
  apply (non_dict_settings_end_the_sync example_py_repr example_py_eq true list_sync
           loaded_bot (VList [VInt 1]));
    first [ reflexivity | vm_compute; reflexivity ].
Defined.

Lemma malformed_definition_raises_witness :
  timers_config (with_timers_config (VList ([VDict example_fixed] ++ VInt 1 :: [])) init)
  = VList ([VDict example_fixed] ++ VInt 1 :: [])
  /\ forallb (definition_ok ∅) [VDict example_fixed] = true
  /\ is_dict (VInt 1) = false
  /\ fst (update_timers_data_from_remote (VDict ∅)
            (with_timers_config (VList ([VDict example_fixed] ++ VInt 1 :: [])) init))
     = Raise TypeError.
Proof.
  split; [reflexivity |]. split; [vm_compute; reflexivity |]. split; [reflexivity |].
  apply (proj1 (malformed_definition_raises
                  (with_timers_config (VList ([VDict example_fixed] ++ VInt 1 :: [])) init)
                  [VDict example_fixed] [] (VInt 1) ∅ eq_refl
                  ltac:(vm_compute; reflexivity))).
  reflexivity.
Defined.

Lemma remote_timers_not_a_dict_witness :
  is_dict (VList []) = false
  /\ timers_config example_bot = VList example_catalog
  /\ forallb (definition_ok ∅) example_catalog = true
  /\ floating_definitions example_catalog <> []
  /\ update_timers_data_from_remote (VList []) example_bot
     = (Raise AttributeError, example_bot).
Proof.
  assert (Hfl : floating_definitions example_catalog <> [])
    by (vm_compute; discriminate).
  split; [reflexivity |]. split; [reflexivity |]. split; [vm_compute; reflexivity |].
  split; [exact Hfl |].
  apply (proj2 (remote_timers_not_a_dict (VList []) example_bot example_catalog
                  eq_refl eq_refl ltac:(vm_compute; reflexivity))).
  exact Hfl.
Defined.

Lemma fixed_timers_dated_today_or_tomorrow_witness :
  timers_config example_bot = VList example_catalog
  /\ forallb is_dict example_catalog = true
  /\ add_one_day (read_today' example_clock) = Some (mkdate 2024 1 2)
  /\ exists timers b',
       set_fixed_timers_dates example_clock example_bot = (Return timers, b')
       /\ same_but_log example_bot b'
       /\ forall r, r ∈ timers ->
            exists timer,
              VDict timer ∈ example_catalog
              /\ eq_str (default VNone (timer !! "type")) "fixed" = true
              /\ (exists s, timer !! "time" = Some (VStr s))
              /\ (r = <["date" := VStr (strftime_date (read_today example_clock))]> timer
                  \/ r = <["date" := VStr (strftime_date (mkdate 2024 1 2))]> timer).
Proof.
  split; [reflexivity |]. split; [vm_compute; reflexivity |].
  split; [vm_compute; reflexivity |].
  apply (fixed_timers_dated_today_or_tomorrow example_clock example_bot example_catalog
           (mkdate 2024 1 2)); vm_compute; reflexivity.
Defined.

Lemma dated_record_without_time_raises_witness :
  timers_config timeless_bot = VList example_catalog
  /\ floating_timers_data timeless_bot = ([example_observed] ++ timeless_record :: [])%list
  /\ forallb time_or_no_date [example_observed] = true
  /\ timeless_record !! "time" = None
  /\ truthy (default VNone (timeless_record !! "date")) = true
  /\ fst (refresh_timers example_py_repr example_clock timeless_bot) = Raise KeyError
  /\ sorted_timers_data (snd (refresh_timers example_py_repr example_clock timeless_bot))
     = sorted_timers_data timeless_bot
  /\ fst (check_all_notifications example_py_repr example_clock timeless_bot)
     = Raise KeyError.
Proof.
  split; [reflexivity |]. split; [reflexivity |]. split; [vm_compute; reflexivity |].
  split; [vm_compute; reflexivity |]. split; [vm_compute; reflexivity |].
  apply (dated_record_without_time_raises example_py_repr example_clock timeless_bot
           example_catalog (mkdate 2024 1 2) [example_observed] [] timeless_record);
    first [ reflexivity | vm_compute; reflexivity ].
Defined.

Lemma agenda_entries_come_from_records_witness :
  let b' := snd (refresh_timers example_py_repr example_clock example_merged_bot) in
  refresh_timers example_py_repr example_clock example_merged_bot = (Return tt, b')
  /\ example_prediction ∈ sorted_timers_data b'
  /\ exists t d tm dt,
       ((t ∈ floating_timers_data example_merged_bot
         /\ eq_str tm sentinel = false /\ truthy d = true)
        \/ t ∈ fixed_timers_with_date b')
       /\ t !! "date" = Some d /\ t !! "time" = Some tm
       /\ strptime (py_format example_py_repr d +:+ " " +:+ py_format example_py_repr tm)
          = Some dt
       /\ example_prediction = <["spawn_dt" := VDatetime dt]> t.
Proof.
  assert (Hr : refresh_timers example_py_repr example_clock example_merged_bot
               = (Return tt,
                  snd (refresh_timers example_py_repr example_clock example_merged_bot)))
    by (vm_compute; reflexivity).
  assert (Hx : example_prediction
               ∈ sorted_timers_data
                   (snd (refresh_timers example_py_repr example_clock example_merged_bot)))
    by (vm_compute; apply list_elem_of_here).
  split; [exact Hr |]. split; [exact Hx |].
  exact (agenda_entries_come_from_records example_py_repr example_clock example_merged_bot
           _ example_prediction Hr Hx).
Defined.

Lemma agenda_timestamps_valid_witness :
  let b' := snd (refresh_timers example_py_repr example_clock example_merged_bot) in
  refresh_timers example_py_repr example_clock example_merged_bot = (Return tt, b')
  /\ example_prediction ∈ sorted_timers_data b'
  /\ exists dt,
       spawn_dt example_prediction = Return dt
       /\ valid_date (dt_date dt) = true
       /\ valid_hm (hour (dt_time dt)) (minute (dt_time dt)) = true
       /\ second (dt_time dt) = 0 /\ microsecond (dt_time dt) = 0.
Proof.
  assert (Hr : refresh_timers example_py_repr example_clock example_merged_bot
               = (Return tt,
                  snd (refresh_timers example_py_repr example_clock example_merged_bot)))
    by (vm_compute; reflexivity).
  assert (Hx : example_prediction
               ∈ sorted_timers_data
                   (snd (refresh_timers example_py_repr example_clock example_merged_bot)))
    by (vm_compute; apply list_elem_of_here).
  split; [exact Hr |]. split; [exact Hx |].
  exact (agenda_timestamps_valid example_py_repr example_clock example_merged_bot
           _ example_prediction Hr Hx).
Defined.

Lemma fixed_entries_spawn_today_or_tomorrow_witness :
  let b' := snd (refresh_timers example_py_repr example_clock example_merged_bot) in
  timers_config example_merged_bot = VList example_catalog
  /\ refresh_timers example_py_repr example_clock example_merged_bot = (Return tt, b')
  /\ example_dated ∈ fixed_timers_with_date b'
  /\ with_spawn_dt example_py_repr example_dated = Return (Some example_prediction)
  /\ example_prediction ∈ sorted_timers_data b'
  /\ exists dt, spawn_dt example_prediction = Return dt
                /\ (dt_date dt = read_today example_clock \/ dt_date dt = mkdate 2024 1 2).
Proof.
  assert (Hr : refresh_timers example_py_repr example_clock example_merged_bot
               = (Return tt,
                  snd (refresh_timers example_py_repr example_clock example_merged_bot)))
    by (vm_compute; reflexivity).
  assert (Ht : example_dated
               ∈ fixed_timers_with_date
                   (snd (refresh_timers example_py_repr example_clock example_merged_bot)))
    by (vm_compute; apply list_elem_of_here).
  assert (Hw : with_spawn_dt example_py_repr example_dated = Return (Some example_prediction))
    by (vm_compute; reflexivity).
  split; [reflexivity |]. split; [exact Hr |]. split; [exact Ht |]. split; [exact Hw |].
  exact (fixed_entries_spawn_today_or_tomorrow example_py_repr example_clock
           example_merged_bot _ example_catalog (mkdate 2024 1 2) example_dated
           example_prediction eq_refl ltac:(vm_compute; reflexivity)
           ltac:(vm_compute; reflexivity) ltac:(vm_compute; reflexivity)
           ltac:(vm_compute; reflexivity) Hr Ht Hw).
Defined.

Lemma send_discord_message_posts_in_order_witness :
  settings discord_bot = VDict discord_map
  /\ example_channels <> EmptyString
  /\ is_ascii example_channels = true
  /\ filter (fun cid => cid <> EmptyString) (strip <$> split "010" (strip example_channels))
     = ["123"; "456"]
  /\ (exists b',
        send_discord_message example_respond (VStr "Boss in 5 minutes")
          (VStr example_channels) discord_bot = (Return tt, b')
        /\ discord_outbox b'
           = [("123", VStr "Boss in 5 minutes"); ("456", VStr "Boss in 5 minutes")])
  /\ (exists b',
        send_discord_message raising_respond (VStr "Boss in 5 minutes")
          (VStr example_channels) discord_bot = (Raise TypeError, b')
        /\ discord_outbox b' = [("123", VStr "Boss in 5 minutes")]).
Proof.
  assert (Hne : example_channels <> EmptyString) by (vm_compute; discriminate).
  assert (Hcids : filter (fun cid => cid <> EmptyString)
                    (strip <$> split "010" (strip example_channels))
                  = ["123"; "456"]) by (vm_compute; reflexivity).
  split; [reflexivity |]. split; [exact Hne |]. split; [vm_compute; reflexivity |].
  split; [exact Hcids |]. split.
  - destruct (send_discord_message_posts_in_order example_respond
                (VStr "Boss in 5 minutes") example_channels discord_bot discord_map
                eq_refl eq_refl eq_refl Hne eq_refl) as (_ & Hall & _).
    destruct Hall as (b' & Hsend & Hout & _).
    + rewrite Hcids. intros cid Hcid e.
      apply elem_of_cons in Hcid as [-> | Hcid];
        [| apply list_elem_of_singleton in Hcid as ->]; discriminate.
    + exists b'. split; [exact Hsend |]. rewrite Hout, Hcids. reflexivity.
  - destruct (send_discord_message_posts_in_order raising_respond
                (VStr "Boss in 5 minutes") example_channels discord_bot discord_map
                eq_refl eq_refl eq_refl Hne eq_refl) as (_ & _ & Hraise).
    destruct (Hraise [] "123" ["456"] TypeError Hcids) as (b' & Hsend & Hout & _).
    + intros c Hc. by apply elem_of_nil in Hc.
    + reflexivity.
    + exists b'. split; [exact Hsend |]. rewrite Hout. reflexivity.
Defined.

Lemma send_discord_message_silent_witness :
  settings loaded_bot = loaded_settings
  /\ send_discord_message example_respond (VStr "Boss in 5 minutes") (VStr "123") loaded_bot
     = (Return tt, loaded_bot).
Proof.
  split; [reflexivity |].
  apply (send_discord_message_silent example_respond (VStr "Boss in 5 minutes") (VStr "123")
           loaded_bot
           {[ "github_token" := VStr "token"; "github_user" := VStr "user";
              "github_repo" := VStr "repo"; "send_discord" := VBool true ]});
    [reflexivity |].
  right. left. vm_compute. reflexivity.
Defined.

Lemma update_github_file_result_witness :
  let w' := snd (WebApp.update_github_file true example_json_dumps missing_answers
                   "user/repo" "settings.json" (VStr "token") (VDict ∅) "Update"
                   WebApp.no_traffic) in
  WebApp.update_github_file true example_json_dumps missing_answers
    "user/repo" "settings.json" (VStr "token") (VDict ∅) "Update" WebApp.no_traffic
  = (WebApp.WebReturn "File created successfully.", w')
  /\ WebApp.on_create_file missing_answers = WebApp.WebReturn tt
  /\ last (WebApp.github_calls w')
     = Some (WebApp.Call_create_file "settings.json" "Update" "{}" "main").
Proof.
  assert (H : WebApp.update_github_file true example_json_dumps missing_answers
                "user/repo" "settings.json" (VStr "token") (VDict ∅) "Update"
                WebApp.no_traffic
              = (WebApp.WebReturn "File created successfully.",
                 snd (WebApp.update_github_file true example_json_dumps missing_answers
                        "user/repo" "settings.json" (VStr "token") (VDict ∅) "Update"
                        WebApp.no_traffic)))
    by reflexivity.
  split; [exact H |].
  destruct (update_github_file_result true example_json_dumps missing_answers
              "user/repo" "settings.json" (VStr "token") (VDict ∅) "Update"
              "File created successfully." WebApp.no_traffic _ H)
    as (_ & _ & _ & [[Hs _] | (_ & Hc & _ & Hl)]); [discriminate Hs |].
  split; [exact Hc | exact Hl].
Defined.


Lemma home_saves_form_settings_witness :
  WebApp.method example_request = "POST"
  /\ WebApp.form example_request !! "password" = Some "999999"
  /\ WebApp.on_get_contents found_answers = WebApp.WebReturn ("settings.json", "abc")
  /\ WebApp.home true "999999" example_json_dumps found_answers example_request
       WebApp.no_traffic
     = (WebApp.WebReturn (WebApp.Redirect "home"),
        WebApp.mkWeb
          [WebApp.Call_get_repo (VStr "token") "user/repo";
           WebApp.Call_get_contents "settings.json" "main";
           WebApp.Call_update_file "settings.json" "Update settings from web dashboard"
             "{}" "abc" "main"]
          [(WebApp.FlashSaved, "success")])
  /\ truthy (VDict (WebApp.form_settings example_form)) = true.
Proof.
  split; [reflexivity |]. split; [vm_compute; reflexivity |]. split; [reflexivity |].
  destruct (home_saves_form_settings true "999999" example_json_dumps found_answers
              example_request WebApp.no_traffic "settings.json" "abc"
              eq_refl eq_refl ltac:(vm_compute; reflexivity) eq_refl eq_refl eq_refl)
    as (Hhome & Htruthy & _).
  split; [| exact Htruthy].
  rewrite Hhome. vm_compute. reflexivity.
Defined.

Lemma unchecked_form_silences_discord_witness :
  example_form !! "send_discord" = None
  /\ settings form_bot = VDict (WebApp.form_settings example_form)
  /\ send_discord_message example_respond (VStr "Boss in 5 minutes") (VStr "123") form_bot
     = (Return tt, form_bot).
Proof.
  split; [vm_compute; reflexivity |]. split; [reflexivity |].
  apply (unchecked_form_silences_discord example_form example_respond
           (VStr "Boss in 5 minutes") (VStr "123") form_bot);
    first [ reflexivity | vm_compute; reflexivity ].
Defined.
